(** * shantae_curse_eblb: the EBLB level codec

    A shallow embedding of [src/shantae_curse_eblb.py] and the properties of
    its binary codec.

    Conventions of the embedding:
    - Python [bytes] are [list byte]; Python [str] is [string]; Python [int]
      is [Z]; [len] is [length] (a [nat]).
    - A call either returns, raises, or never returns: [outcome].
    - [struct.pack]/[struct.unpack] are interpreted over a list of format
      codes, little-endian ([<]: no alignment), with coqutil's
      [le_split]/[le_combine].
    - [io.BytesIO] is a buffer with a position ([BytesIO]); code that reads a
      stream is written in a state monad over it.  The [BytesIO] that
      [__bytes__] creates and only appends to is the state of a second
      instance of the same monad (its contents).
    - [list({...})] iterates a set in an order Python does not specify: the
      order is an explicit argument of [__bytes__]. *)

From Stdlib Require Import ZArith Lia List String Ascii Bool Arith.
From coqutil Require Import Byte Word.LittleEndianList.
Import ListNotations.
Local Open Scope Z_scope.
Local Open Scope list_scope.
Local Abbreviation length := List.length.

(** ** Outcomes and exceptions *)

Inductive exn : Type :=
| ShantaeCurseEblbParsingError
| ShantaeCurseEblbBadData
| StructError
| IndexError
| ValueError
| KeyError
| TypeError
| UnicodeEncodeError
| UnicodeDecodeError.

(** [isinstance(e, ShantaeCurseEblbParsingError)]:
    [ShantaeCurseEblbBadData] subclasses [ShantaeCurseEblbParsingError]. *)
Definition is_parsing_error (e : exn) : bool :=
  match e with
  | ShantaeCurseEblbParsingError | ShantaeCurseEblbBadData => true
  | _ => false
  end.

Inductive outcome (A : Type) : Type :=
| Ok (a : A)
| Raise (e : exn)
| Diverge.
Arguments Ok {A} a.
Arguments Raise {A} e.
Arguments Diverge {A}.

Definition obind {A B} (m : outcome A) (k : A -> outcome B) : outcome B :=
  match m with
  | Ok a => k a
  | Raise e => Raise e
  | Diverge => Diverge
  end.

Notation "'let!' x ':=' m 'in' k" := (obind m (fun x => k))
  (at level 10, x pattern, m at level 100, k at level 200).

Fixpoint mapM {A B} (f : A -> outcome B) (l : list A) : outcome (list B) :=
  match l with
  | [] => Ok []
  | a :: l' => let! b := f a in let! bs := mapM f l' in Ok (b :: bs)
  end.

(** State-and-exception monad: the state is kept when a call raises. *)
Definition M (S A : Type) : Type := S -> outcome A * S.

Definition ret {S A} (a : A) : M S A := fun s => (Ok a, s).

Definition bind {S A B} (m : M S A) (k : A -> M S B) : M S B :=
  fun s =>
    match m s with
    | (Ok a, s') => k a s'
    | (Raise e, s') => (Raise e, s')
    | (Diverge, s') => (Diverge, s')
    end.

Definition lift {S A} (o : outcome A) : M S A := fun s => (o, s).

Definition raise {S A} (e : exn) : M S A := lift (Raise e).

Notation "x <- m ;; k" := (bind m (fun x => k))
  (at level 200, m at level 100, k at level 200, right associativity).
Notation "m ;;; k" := (bind m (fun _ => k))
  (at level 200, k at level 200, right associativity).

(** [for _ in range(n): acc.append(body)] *)
Fixpoint repeatM {S A} (n : nat) (body : M S A) : M S (list A) :=
  match n with
  | O => ret []
  | S n' => a <- body ;; rest <- repeatM n' body ;; ret (a :: rest)
  end.

(** [for x in l: body(x)] *)
Fixpoint forM_ {S A} (l : list A) (body : A -> M S unit) : M S unit :=
  match l with
  | [] => ret tt
  | a :: l' => body a ;;; forM_ l' body
  end.

(** ** Python built-ins *)

Definition bytes : Type := list byte.

Definition bytes_eqb (a b : bytes) : bool :=
  if list_eq_dec Byte.byte_eq_dec a b then true else false.

(** [str.encode('ascii')] *)
Fixpoint encode_ascii (s : string) : outcome bytes :=
  match s with
  | EmptyString => Ok []
  | String c s' =>
      if (N_of_ascii c <? 128)%N
      then let! bs := encode_ascii s' in Ok (byte_of_ascii c :: bs)
      else Raise UnicodeEncodeError
  end.

(** [bytes.decode('ascii')] *)
Fixpoint decode_ascii (b : bytes) : outcome string :=
  match b with
  | [] => Ok EmptyString
  | c :: b' =>
      if byte.unsigned c <? 128
      then let! s := decode_ascii b' in Ok (String (ascii_of_byte c) s)
      else Raise UnicodeDecodeError
  end.

(** [sep.join(parts)] *)
Fixpoint join (sep : bytes) (parts : list bytes) : bytes :=
  match parts with
  | [] => []
  | p :: rest =>
      match rest with
      | [] => p
      | _ :: _ => p ++ sep ++ join sep rest
      end
  end.

(** [b.removesuffix(suffix)] *)
Definition removesuffix (b suffix : bytes) : bytes :=
  let n := (length b - length suffix)%nat in
  if bytes_eqb (skipn n b) suffix && (length suffix <=? length b)%nat
  then firstn n b else b.

(** [l[i]] for a list and an [int]: a negative index counts from the end. *)
Definition getitem {A} (l : list A) (i : Z) : outcome A :=
  let n := Z.of_nat (length l) in
  let j := if i <? 0 then i + n else i in
  if (0 <=? j) && (j <? n)
  then match nth_error l (Z.to_nat j) with
       | Some a => Ok a
       | None => Raise IndexError
       end
  else Raise IndexError.

(** [l.index(x)] *)
Fixpoint index (x : string) (l : list string) : outcome nat :=
  match l with
  | [] => Raise ValueError
  | y :: l' =>
      if String.eqb y x then Ok O
      else let! k := index x l' in Ok (S k)
  end.

(** [b[i:j]] for [0 <= i <= j] *)
Definition slice {A} (b : list A) (i j : nat) : list A :=
  firstn (j - i) (skipn i b).

(** [range(0, stop, step)] for [step > 0]: [ceil(stop / step)] multiples. *)
Definition range_step (stop step : nat) : list nat :=
  map (fun k => (k * step)%nat) (seq 0 ((stop + step - 1) / step)%nat).

(** ** The [struct] module, little-endian standard sizes *)

Inductive code : Type :=
| c_H      (* unsigned short, 2 *)
| c_h      (* short, 2 *)
| c_I      (* unsigned int, 4 *)
| c_i      (* int, 4 *)
| c_B      (* unsigned char, 1 *)
| c_bool.  (* ?, 1 *)

Definition size_of (c : code) : nat :=
  match c with
  | c_H | c_h => 2
  | c_I | c_i => 4
  | c_B | c_bool => 1
  end.

Definition is_signed (c : code) : bool :=
  match c with
  | c_h | c_i => true
  | _ => false
  end.

Definition lo_of (c : code) : Z :=
  if is_signed c then - 2 ^ (8 * Z.of_nat (size_of c) - 1) else 0.

Definition hi_of (c : code) : Z :=
  if is_signed c then 2 ^ (8 * Z.of_nat (size_of c) - 1) - 1
  else 2 ^ (8 * Z.of_nat (size_of c)) - 1.

Definition calcsize (f : list code) : nat :=
  fold_right (fun c n => (size_of c + n)%nat) O f.

(** One field of [struct.pack].  [?] packs the truth value of its argument;
    an integer code raises [struct.error] when the argument is out of the
    code's range. *)
Definition pack_one (c : code) (v : Z) : outcome bytes :=
  match c with
  | c_bool => Ok [if v =? 0 then Byte.x00 else Byte.x01]
  | _ =>
      if (lo_of c <=? v) && (v <=? hi_of c)
      then Ok (le_split (size_of c) v)
      else Raise StructError
  end.

Fixpoint struct_pack (f : list code) (args : list Z) : outcome bytes :=
  match f, args with
  | [], [] => Ok []
  | c :: f', v :: args' =>
      let! b := pack_one c v in
      let! bs := struct_pack f' args' in
      Ok (b ++ bs)
  | _, _ => Raise StructError
  end.

(** One field of [struct.unpack]; [?] yields whether the byte is non-zero. *)
Definition unpack_one (c : code) (b : bytes) : Z :=
  let u := le_combine b in
  match c with
  | c_bool => if u =? 0 then 0 else 1
  | _ =>
      if is_signed c && (hi_of c <? u)
      then u - 2 ^ (8 * Z.of_nat (size_of c))
      else u
  end.

Fixpoint unpack_fields (f : list code) (b : bytes) : list Z :=
  match f with
  | [] => []
  | c :: f' =>
      unpack_one c (firstn (size_of c) b)
        :: unpack_fields f' (skipn (size_of c) b)
  end.

Definition struct_unpack (f : list code) (b : bytes) : outcome (list Z) :=
  if (length b =? calcsize f)%nat then Ok (unpack_fields f b)
  else Raise StructError.

(** ** [io.BytesIO] *)

Record BytesIO : Type := mkBytesIO { getvalue : bytes; tell : nat }.

Definition remaining (f : BytesIO) : bytes := skipn (tell f) (getvalue f).

(** [f.read(n)] *)
Definition read (n : nat) : M BytesIO bytes :=
  fun f =>
    let chunk := firstn n (remaining f) in
    (Ok chunk, mkBytesIO (getvalue f) (tell f + length chunk)).

(** [f.read()] *)
Definition read_all : M BytesIO bytes :=
  fun f =>
    let chunk := remaining f in
    (Ok chunk, mkBytesIO (getvalue f) (tell f + length chunk)).

(** [f.seek(n)] *)
Definition seek (n : nat) : M BytesIO unit :=
  fun f => (Ok tt, mkBytesIO (getvalue f) n).

(** [f.seek(n, 1)] *)
Definition seek_cur (n : nat) : M BytesIO unit :=
  fun f => (Ok tt, mkBytesIO (getvalue f) (tell f + n)).

(** [b''.join(iter(lambda: f.read(1), b'\x00'))]: one byte at a time until a
    read returns [b'\x00'].  At the end of the buffer [read(1)] returns [b'']
    on every call, which never equals the sentinel: the iteration does not
    end.  [fuel] bounds the number of reads; [read_cstring] gives one more
    than the bytes that remain, so the last unit is only ever spent on a read
    at the end of the buffer. *)
Fixpoint iter_read1 (fuel : nat) : M BytesIO bytes :=
  match fuel with
  | O => lift Diverge
  | S fuel' =>
      b <- read 1 ;;
      match b with
      | [] => lift Diverge
      | _ :: _ =>
          if bytes_eqb b [Byte.x00] then ret []
          else rest <- iter_read1 fuel' ;; ret (b ++ rest)
      end
  end.

Definition read_cstring : M BytesIO bytes :=
  fun f => iter_read1 (S (length (remaining f))) f.

(** [BytesIO.write] on the buffer [__bytes__] creates and only appends to. *)
Definition write (b : bytes) : M bytes unit := fun buf => (Ok tt, buf ++ b).

(** ** get_padding *)

Definition get_padding (strings : list string) : outcome bytes :=
  let! encoded := mapM encode_ascii strings in
  let new_bytes := join [Byte.x00] encoded ++ [Byte.x00] in
  let pad_amnt := (length new_bytes mod 4)%nat in
  if (pad_amnt =? 0)%nat then Ok []
  else Ok (repeat Byte.x00 (4 - pad_amnt)).

(** ** Structured descriptions

    What [to_dict] produces and [from_dict] consumes: nested dicts and lists
    of primitive values.  A dict keeps its keys in insertion order. *)

#[local] Unset Elimination Schemes.
Inductive pyval : Type :=
| PInt (z : Z)
| PBool (b : bool)
| PStr (s : string)
| PList (l : list pyval)
| PTuple (l : list pyval)
| PDict (d : list (string * pyval)).
#[local] Set Elimination Schemes.

(** [d[k]] *)
Fixpoint dict_get (d : list (string * pyval)) (k : string) : outcome pyval :=
  match d with
  | [] => Raise KeyError
  | (k', v) :: d' => if String.eqb k' k then Ok v else dict_get d' k
  end.

(** [d[k] = v] *)
Fixpoint dict_set (d : list (string * pyval)) (k : string) (v : pyval)
  : list (string * pyval) :=
  match d with
  | [] => [(k, v)]
  | (k', v') :: d' =>
      if String.eqb k' k then (k, v) :: d' else (k', v') :: dict_set d' k v
  end.

(** [cls( **d )] for a class whose fields all lack a default: the keys of [d]
    must be exactly the field names, or the call raises [TypeError]. *)
Definition has_exact_keys (fields : list string) (d : list (string * pyval))
  : bool :=
  forallb (fun f => existsb (String.eqb f) (map fst d)) fields
  && forallb (fun k => existsb (String.eqb k) fields) (map fst d).

(** The records below are typed as the source annotates its fields.  Python
    does not check the annotations: a description holding a value of another
    type would be stored as it is.  Such descriptions are outside this model,
    which reports them as [TypeError]. *)
Definition as_int (v : pyval) : outcome Z :=
  match v with PInt z => Ok z | _ => Raise TypeError end.

Definition as_bool (v : pyval) : outcome bool :=
  match v with PBool b => Ok b | _ => Raise TypeError end.

Definition as_str (v : pyval) : outcome string :=
  match v with PStr s => Ok s | _ => Raise TypeError end.

Definition as_list (v : pyval) : outcome (list pyval) :=
  match v with PList l => Ok l | _ => Raise TypeError end.

(** ** EblbObject *)

Module EblbObject.

Record t : Type := mk {
  underworld_type : string;
  x_location : Z;
  y_location : Z;
  unknown_bool6 : bool;
  unknown_bool7 : bool;
  unknown_char8 : Z;
  unknown_char9 : Z;
  unknown_chara : Z;
  unknown_charb : Z;
  unknown_shortc : Z;
  unknown_inte : Z
}.

(** The format string ['<H2h2?4BhIBB'] *)
Definition fmt : list code :=
  [c_H; c_h; c_h; c_bool; c_bool; c_B; c_B; c_B; c_B; c_h; c_I; c_B; c_B].

Definition X_LENGTH : Z := 16.
Definition Y_LENGTH : Z := 32.

(** [image_size] is [None] or a (width, height) pair; only [image_size[1]]
    is read. *)
Definition bbox (self : t) (image_size : option (Z * Z)) : Z * Z * Z * Z :=
  match image_size with
  | None =>
      (x_location self, y_location self + Y_LENGTH,
       x_location self + X_LENGTH, y_location self)
  | Some sz =>
      (x_location self, snd sz - (y_location self + Y_LENGTH),
       x_location self + X_LENGTH, snd sz - y_location self)
  end.

(** [entry[k]] on a [bytes] value is an [int] *)
Definition byte_at (entry : bytes) (k : nat) : Z :=
  byte.unsigned (nth k entry Byte.x00).

Definition from_bytes (entry : bytes) (underworld_types : list string)
  : outcome t :=
  if negb (length entry =? 20)%nat then Raise ShantaeCurseEblbParsingError
  else if negb ((byte_at entry 6 =? 0) || (byte_at entry 6 =? 1))
  then Raise ShantaeCurseEblbParsingError
  else if negb ((byte_at entry 7 =? 0) || (byte_at entry 7 =? 1))
  then Raise ShantaeCurseEblbParsingError
  else if negb (byte_at entry 18 + byte_at entry 19 =? 0)
  then Raise ShantaeCurseEblbBadData
  else
    let! fields := struct_unpack fmt entry in
    match fields with
    | [underworld_type_index; x; y; b6; b7; c8; c9; ca; cb; sc; ie; _; _] =>
        let! ty := getitem underworld_types (underworld_type_index - 1) in
        Ok (mk ty x y (negb (b6 =? 0)) (negb (b7 =? 0)) c8 c9 ca cb sc ie)
    | _ => Raise StructError
    end.

Definition to_bytes (self : t) (underworld_types : list string)
  : outcome bytes :=
  let! k := index (underworld_type self) underworld_types in
  let underworld_type_index := Z.of_nat k + 1 in
  struct_pack fmt
    [underworld_type_index;
     x_location self;
     y_location self;
     Z.b2z (unknown_bool6 self);
     Z.b2z (unknown_bool7 self);
     unknown_char8 self;
     unknown_char9 self;
     unknown_chara self;
     unknown_charb self;
     unknown_shortc self;
     unknown_inte self;
     0; 0].

Definition field_names : list string :=
  ["underworld_type"; "x_location"; "y_location"; "unknown_bool6";
   "unknown_bool7"; "unknown_char8"; "unknown_char9"; "unknown_chara";
   "unknown_charb"; "unknown_shortc"; "unknown_inte"]%string.

(** The tuple of field values *)
Definition astuple (self : t) : list pyval :=
  [PStr (underworld_type self); PInt (x_location self);
   PInt (y_location self); PBool (unknown_bool6 self);
   PBool (unknown_bool7 self); PInt (unknown_char8 self);
   PInt (unknown_char9 self); PInt (unknown_chara self);
   PInt (unknown_charb self); PInt (unknown_shortc self);
   PInt (unknown_inte self)].

(** [self._asdict()] *)
Definition _asdict (self : t) : pyval :=
  PDict (combine field_names (astuple self)).

(** [EblbObject( **x )] *)
Definition of_kwargs (x : pyval) : outcome t :=
  match x with
  | PDict d =>
      if has_exact_keys field_names d then
        let! ty := obind (dict_get d "underworld_type") as_str in
        let! x := obind (dict_get d "x_location") as_int in
        let! y := obind (dict_get d "y_location") as_int in
        let! b6 := obind (dict_get d "unknown_bool6") as_bool in
        let! b7 := obind (dict_get d "unknown_bool7") as_bool in
        let! c8 := obind (dict_get d "unknown_char8") as_int in
        let! c9 := obind (dict_get d "unknown_char9") as_int in
        let! ca := obind (dict_get d "unknown_chara") as_int in
        let! cb := obind (dict_get d "unknown_charb") as_int in
        let! sc := obind (dict_get d "unknown_shortc") as_int in
        let! ie := obind (dict_get d "unknown_inte") as_int in
        Ok (mk ty x y b6 b7 c8 c9 ca cb sc ie)
      else Raise TypeError
  | _ => Raise TypeError
  end.

End EblbObject.

(** ** EntranceAndOrExit *)

Module EntranceAndOrExit.

Record t : Type := mk {
  x1 : Z;
  y1 : Z;
  x2 : Z;
  y2 : Z;
  entrance_id : Z;
  exit_type_id : Z;
  exit_location_id : Z;
  entrance_type_id : Z;
  exit_scene_name : string
}.

(** The format string ['<5iHIH'] *)
Definition fmt : list code := [c_i; c_i; c_i; c_i; c_i; c_H; c_I; c_H].

Definition bbox (self : t) (image_size : option (Z * Z))
  : (Z * Z) * (Z * Z) :=
  match image_size with
  | None => ((x1 self, y2 self), (x2 self, y2 self))
  | Some sz => ((x1 self, snd sz - y1 self), (x2 self, snd sz - y2 self))
  end.

Definition from_bytes (entry : bytes) (exit_name : string) : outcome t :=
  let! fields := struct_unpack fmt entry in
  match fields with
  | [a; b; c; d; e; f; g; h] => Ok (mk a b c d e f g h exit_name)
  | _ => Raise StructError
  end.

Definition to_bytes (self : t) : outcome bytes :=
  let! head :=
    struct_pack fmt
      [x1 self; y1 self; x2 self; y2 self; entrance_id self;
       exit_type_id self; exit_location_id self; entrance_type_id self] in
  let! name := encode_ascii (exit_scene_name self) in
  let! pad := get_padding [exit_scene_name self] in
  Ok (head ++ name ++ [Byte.x00] ++ pad).

Definition field_names : list string :=
  ["x1"; "y1"; "x2"; "y2"; "entrance_id"; "exit_type_id";
   "exit_location_id"; "entrance_type_id"; "exit_scene_name"]%string.

Definition astuple (self : t) : list pyval :=
  [PInt (x1 self); PInt (y1 self); PInt (x2 self); PInt (y2 self);
   PInt (entrance_id self); PInt (exit_type_id self);
   PInt (exit_location_id self); PInt (entrance_type_id self);
   PStr (exit_scene_name self)].

(** [self._asdict()] *)
Definition _asdict (self : t) : pyval :=
  PDict (combine field_names (astuple self)).

(** [EntranceAndOrExit( **x )] *)
Definition of_kwargs (x : pyval) : outcome t :=
  match x with
  | PDict d =>
      if has_exact_keys field_names d then
        let! a := obind (dict_get d "x1") as_int in
        let! b := obind (dict_get d "y1") as_int in
        let! c := obind (dict_get d "x2") as_int in
        let! e := obind (dict_get d "y2") as_int in
        let! f := obind (dict_get d "entrance_id") as_int in
        let! g := obind (dict_get d "exit_type_id") as_int in
        let! h := obind (dict_get d "exit_location_id") as_int in
        let! i := obind (dict_get d "entrance_type_id") as_int in
        let! n := obind (dict_get d "exit_scene_name") as_str in
        Ok (mk a b c e f g h i n)
      else Raise TypeError
  | _ => Raise TypeError
  end.

End EntranceAndOrExit.

(** ** ShantaeCurseEblb *)

(** A [bytes] literal with ASCII text *)
Definition bytes_literal (s : string) : bytes :=
  map byte_of_ascii (list_ascii_of_string s).

(** [bytes(ints)]: every item must be in [range(256)] *)
Definition bytes_of_ints (l : list Z) : outcome bytes :=
  mapM (fun j => if (0 <=? j) && (j <? 256) then Ok (byte.of_Z j)
                 else Raise ValueError) l.

(** [list(s)] for a set [s] of strings built from [names]: each distinct name
    once, in an order the language leaves open. *)
Fixpoint distinct (l : list string) : bool :=
  match l with
  | [] => true
  | s :: l' => negb (existsb (String.eqb s) l') && distinct l'
  end.

Definition is_set_listing (names listing : list string) : bool :=
  distinct listing
  && forallb (fun s => existsb (String.eqb s) listing) names
  && forallb (fun s => existsb (String.eqb s) names) listing.

Module ShantaeCurseEblb.

Definition UNDERWORLD_TYPES_TYP : bytes :=
  bytes_literal "UNDERWORLD_TYPES_TYP" ++ [Byte.x00].

Record t : Type := mk {
  objects : list EblbObject.t;
  doors : list EntranceAndOrExit.t;
  camera_x1 : Z;
  camera_y1 : Z;
  camera_x2 : Z;
  camera_y2 : Z;
  tiles : list (list Z)
}.

(** The format strings ['<4H2I'] and ['<5i'] *)
Definition header_fmt : list code := [c_H; c_H; c_H; c_H; c_I; c_I].
Definition camera_fmt : list code := [c_i; c_i; c_i; c_i; c_i].

Record header : Type := mk_header {
  objects_count : Z;
  unknown_short : Z;
  doors_count : Z;
  underworld_types_count : Z;
  tiles_x : Z;
  tiles_y : Z
}.

(** [cls.UNDERWORLD_TYPES_TYP.removesuffix(b'\x00').decode('ascii')] *)
Definition magic_name : outcome string :=
  decode_ascii (removesuffix UNDERWORLD_TYPES_TYP [Byte.x00]).

(** [from_eblb_file], region by region in the order of the source.
    Header: lines 148-157. *)
Definition read_header : M BytesIO header :=
  seek 0 ;;;
  raw <- read 16 ;;
  fields <- lift (struct_unpack header_fmt raw) ;;
  match fields with
  | [oc; us; dc; uc; tx; ty] =>
      if negb (us =? 1) then raise ShantaeCurseEblbParsingError
      else
        magic <- read (length UNDERWORLD_TYPES_TYP) ;;
        if negb (bytes_eqb magic UNDERWORLD_TYPES_TYP)
        then raise ShantaeCurseEblbParsingError
        else ret (mk_header oc us dc uc tx ty)
  | _ => raise StructError
  end.

(** Type table: lines 159-164. *)
Definition read_type_table (count : Z) : M BytesIO (list string) :=
  underworld_types <-
    repeatM (Z.to_nat count)
      (new_string <- read_cstring ;; lift (decode_ascii new_string)) ;;
  name <- lift magic_name ;;
  pad <- lift (get_padding (name :: underworld_types)) ;;
  seek_cur (length pad) ;;;
  ret underworld_types.

(** Objects: lines 166-167. *)
Definition read_objects (count : Z) (underworld_types : list string)
  : M BytesIO (list EblbObject.t) :=
  repeatM (Z.to_nat count)
    (entry <- read 20 ;;
     lift (EblbObject.from_bytes entry underworld_types)).

(** Camera block: lines 169-172. *)
Definition read_camera : M BytesIO (Z * Z * Z * Z) :=
  raw <- read 20 ;;
  fields <- lift (struct_unpack camera_fmt raw) ;;
  match fields with
  | [cx1; cy1; cx2; cy2; unknown_int_should_be_0] =>
      if negb (unknown_int_should_be_0 =? 0)
      then raise ShantaeCurseEblbParsingError
      else ret (cx1, cy1, cx2, cy2)
  | _ => raise StructError
  end.

(** Doors: lines 174-178. *)
Definition read_doors (count : Z) : M BytesIO (list EntranceAndOrExit.t) :=
  repeatM (Z.to_nat count)
    (door_bytes <- read 28 ;;
     name <- read_cstring ;;
     exit_scene_name <- lift (decode_ascii name) ;;
     pad <- lift (get_padding [exit_scene_name]) ;;
     seek_cur (length pad) ;;;
     lift (EntranceAndOrExit.from_bytes door_bytes exit_scene_name)).

(** Tile grid: lines 180-183.  [range(0, n, 0)] raises [ValueError]. *)
Definition read_tiles (tx ty : Z) : M BytesIO (list (list Z)) :=
  self_tiles <- read_all ;;
  if negb (Z.of_nat (length self_tiles) =? tx * ty)
  then raise ShantaeCurseEblbBadData
  else if tx =? 0 then raise ValueError
  else
    ret (map (fun i => map byte.unsigned
                         (slice self_tiles i (i + Z.to_nat tx)))
           (range_step (length self_tiles) (Z.to_nat tx))).

Definition from_eblb_file : M BytesIO t :=
  h <- read_header ;;
  underworld_types <- read_type_table (underworld_types_count h) ;;
  self_objects <- read_objects (objects_count h) underworld_types ;;
  cam <- read_camera ;;
  self_doors <- read_doors (doors_count h) ;;
  self_tiles <- read_tiles (tiles_x h) (tiles_y h) ;;
  seek 0 ;;;
  let '(cx1, cy1, cx2, cy2) := cam in
  ret (mk self_objects self_doors cx1 cy1 cx2 cy2 self_tiles).

Definition camera_bbox (self : t) (image_size : option (Z * Z))
  : (Z * Z) * (Z * Z) :=
  match image_size with
  | None =>
      ((camera_x1 self, camera_y1 self), (camera_x2 self, camera_y2 self))
  | Some sz =>
      ((camera_x1 self, snd sz - camera_y1 self),
       (camera_x2 self, snd sz - camera_y2 self))
  end.

Definition check_eblb {S} (self : t) : M S unit :=
  forM_ (tiles self)
    (fun row =>
       row0 <- lift (getitem (tiles self) 0) ;;
       if negb (length row =? length row0)%nat
       then raise ShantaeCurseEblbBadData
       else ret tt).

(** [__bytes__].  [set_order] is the order in which
    [list({entry.underworld_type for entry in self.objects})] lists the
    distinct type names ([is_set_listing]).  The state is the contents of
    the local [eblb_file], empty when [BytesIO()] creates it. *)
Definition dunder_bytes (set_order : list string) (self : t)
  : M bytes bytes :=
  check_eblb self ;;;
  (fun _ => (Ok tt, [])) ;;;
  let underworld_types := set_order in
  row0 <- lift (getitem (tiles self) 0) ;;
  hdr <- lift (struct_pack header_fmt
                 [Z.of_nat (length (objects self)); 1;
                  Z.of_nat (length (doors self));
                  Z.of_nat (length underworld_types);
                  Z.of_nat (length row0);
                  Z.of_nat (length (tiles self))]) ;;
  write hdr ;;;
  names <- lift (mapM encode_ascii underworld_types) ;;
  name <- lift magic_name ;;
  pad <- lift (get_padding (name :: underworld_types)) ;;
  write (UNDERWORLD_TYPES_TYP ++ join [Byte.x00] names
           ++ [Byte.x00] ++ pad) ;;;
  forM_ (objects self)
    (fun entry =>
       b <- lift (EblbObject.to_bytes entry underworld_types) ;; write b) ;;;
  cam <- lift (struct_pack camera_fmt
                 [camera_x1 self; camera_y1 self;
                  camera_x2 self; camera_y2 self; 0]) ;;
  write cam ;;;
  forM_ (doors self)
    (fun door => b <- lift (EntranceAndOrExit.to_bytes door) ;; write b) ;;;
  tile_bytes <- lift (bytes_of_ints (List.concat (tiles self))) ;;
  write tile_bytes ;;;
  (fun buf => (Ok buf, buf)).

Definition field_names : list string :=
  ["objects"; "doors"; "camera_x1"; "camera_y1"; "camera_x2"; "camera_y2";
   "tiles"]%string.

(** [dataclasses.asdict(self)]: lists are copied item by item and a named
    tuple is rebuilt as a named tuple. *)
Definition asdict (self : t) : list (string * pyval) :=
  combine field_names
    [PList (map (fun x => PTuple (EblbObject.astuple x)) (objects self));
     PList (map (fun x => PTuple (EntranceAndOrExit.astuple x)) (doors self));
     PInt (camera_x1 self); PInt (camera_y1 self);
     PInt (camera_x2 self); PInt (camera_y2 self);
     PList (map (fun row => PList (map PInt row)) (tiles self))].

Definition to_dict (self : t) : list (string * pyval) :=
  let json_dict := asdict self in
  let json_dict :=
    dict_set json_dict "objects"
      (PList (map EblbObject._asdict (objects self))) in
  let json_dict :=
    dict_set json_dict "doors"
      (PList (map EntranceAndOrExit._asdict (doors self))) in
  json_dict.

(** [from_dict].  The two assignments into [json_dict] replace the lists of
    dicts by lists of records; the typed model keeps those lists beside the
    dict, whose keys (all that [cls( **json_dict )] checks) they leave as
    they are. *)
Definition from_dict (json_dict : list (string * pyval)) : outcome t :=
  let! objs := obind (dict_get json_dict "objects") as_list in
  let! objs := mapM EblbObject.of_kwargs objs in
  let! drs := obind (dict_get json_dict "doors") as_list in
  let! drs := mapM EntranceAndOrExit.of_kwargs drs in
  if has_exact_keys field_names json_dict then
    let! cx1 := obind (dict_get json_dict "camera_x1") as_int in
    let! cy1 := obind (dict_get json_dict "camera_y1") as_int in
    let! cx2 := obind (dict_get json_dict "camera_x2") as_int in
    let! cy2 := obind (dict_get json_dict "camera_y2") as_int in
    let! rows := obind (dict_get json_dict "tiles") as_list in
    let! tls := mapM (fun row => obind (as_list row) (mapM as_int)) rows in
    Ok (mk objs drs cx1 cy1 cx2 cy2 tls)
  else Raise TypeError.

End ShantaeCurseEblb.

(** [ShantaeCurseEblb.from_eblb_file(BytesIO(b))] *)
Definition decode (b : bytes) : outcome ShantaeCurseEblb.t :=
  fst (ShantaeCurseEblb.from_eblb_file (mkBytesIO b 0)).

(** [bytes(L)], for a given iteration order of the type-name set *)
Definition encode (set_order : list string) (L : ShantaeCurseEblb.t)
  : outcome bytes :=
  fst (ShantaeCurseEblb.dunder_bytes set_order L []).

(** ** Predicates used in the statements *)

Import ShantaeCurseEblb.

(** [s.isascii()] *)
Definition is_ascii (s : string) : bool :=
  forallb (fun c => (N_of_ascii c <? 128)%N) (list_ascii_of_string s).

(** No character of [s] is NUL *)
Definition nul_free (s : string) : bool :=
  forallb (fun c => negb (N_of_ascii c =? 0)%N) (list_ascii_of_string s).

(** A name that can be written null-terminated and read back *)
Definition ascii_name (s : string) : bool := is_ascii s && nul_free s.

(** [lo <= v <= hi] for the range of a format code *)
Definition fits (c : code) (v : Z) : bool := (lo_of c <=? v) && (v <=? hi_of c).

(** What [struct.unpack] gives back for a packed argument: the argument, or
    its truth value for [?]. *)
Definition as_packed (c : code) (v : Z) : Z :=
  match c with
  | c_bool => if v =? 0 then 0 else 1
  | _ => v
  end.

(** The checks [EblbObject.from_bytes] makes before it unpacks: length, the
    two boolean bytes, the two padding bytes. *)
Definition passes_checks (entry : bytes) : bool :=
  (length entry =? 20)%nat
  && ((EblbObject.byte_at entry 6 =? 0) || (EblbObject.byte_at entry 6 =? 1))
  && ((EblbObject.byte_at entry 7 =? 0) || (EblbObject.byte_at entry 7 =? 1))
  && (EblbObject.byte_at entry 18 + EblbObject.byte_at entry 19 =? 0).

(** The 1-based type index an object record stores in its first two bytes *)
Definition stored_index (entry : bytes) : Z := le_combine (firstn 2 entry).

(** Every numeric field of an object is in the range of the code
    ['<H2h2?4BhIBB'] packs it with. *)
Definition object_fits (o : EblbObject.t) : bool :=
  fits c_h (EblbObject.x_location o)
  && fits c_h (EblbObject.y_location o)
  && fits c_B (EblbObject.unknown_char8 o)
  && fits c_B (EblbObject.unknown_char9 o)
  && fits c_B (EblbObject.unknown_chara o)
  && fits c_B (EblbObject.unknown_charb o)
  && fits c_h (EblbObject.unknown_shortc o)
  && fits c_I (EblbObject.unknown_inte o).

(** Every numeric field of a door is in the range of the code ['<5iHIH']
    packs it with, and its scene name can be written null-terminated. *)
Definition door_fits (d : EntranceAndOrExit.t) : bool :=
  fits c_i (EntranceAndOrExit.x1 d)
  && fits c_i (EntranceAndOrExit.y1 d)
  && fits c_i (EntranceAndOrExit.x2 d)
  && fits c_i (EntranceAndOrExit.y2 d)
  && fits c_i (EntranceAndOrExit.entrance_id d)
  && fits c_H (EntranceAndOrExit.exit_type_id d)
  && fits c_I (EntranceAndOrExit.exit_location_id d)
  && fits c_H (EntranceAndOrExit.entrance_type_id d)
  && ascii_name (EntranceAndOrExit.exit_scene_name d).

(** A tile id is a byte value, as [bytes(...)] demands. *)
Definition tile_ok (j : Z) : bool := (0 <=? j) && (j <? 256).

(** The levels the file format can hold: at least one object; counts,
    coordinates and fields within their codes; names that can be written
    null-terminated; a grid of at least one row, all rows as wide as row 0
    and not empty, all tiles byte values. *)
Definition level_fits (L : t) : bool :=
  negb (length (objects L) =? 0)%nat
  && fits c_H (Z.of_nat (length (objects L)))
  && fits c_H (Z.of_nat (length (doors L)))
  && forallb (fun o => object_fits o
                       && ascii_name (EblbObject.underworld_type o))
       (objects L)
  && forallb door_fits (doors L)
  && fits c_i (camera_x1 L) && fits c_i (camera_y1 L)
  && fits c_i (camera_x2 L) && fits c_i (camera_y2 L)
  && match tiles L with
     | [] => false
     | row0 :: _ =>
         negb (length row0 =? 0)%nat
         && fits c_I (Z.of_nat (length row0))
         && fits c_I (Z.of_nat (length (tiles L)))
         && forallb (fun row => (length row =? length row0)%nat) (tiles L)
         && forallb (forallb tile_ok) (tiles L)
     end.

(** The regions of a file that [from_eblb_file] reads before the camera
    block: header, type table, objects. *)
Definition regions_before_camera
  : M BytesIO (header * list string * list EblbObject.t) :=
  h <- read_header ;;
  underworld_types <- read_type_table (underworld_types_count h) ;;
  self_objects <- read_objects (objects_count h) underworld_types ;;
  ret (h, underworld_types, self_objects).

(** The regions before the tile grid: the above, the camera block, doors. *)
Definition regions_before_tiles
  : M BytesIO (header * list EblbObject.t * (Z * Z * Z * Z)
               * list EntranceAndOrExit.t) :=
  x <- regions_before_camera ;;
  cam <- read_camera ;;
  self_doors <- read_doors (doors_count (fst (fst x))) ;;
  ret (fst (fst x), snd x, cam, self_doors).

(** [m], started where [input] is what comes next in the stream, returns [a]
    and leaves the position right after [input]. *)
Definition runs {A} (m : M BytesIO A) (input : bytes) (a : A) : Prop :=
  forall f rest,
    remaining f = input ++ rest ->
    exists f', m f = (Ok a, f')
               /\ getvalue f' = getvalue f /\ remaining f' = rest.

(** Every numeric field of a door is in the range of the code ['<5iHIH']
    packs it with; nothing is asked of the scene name. *)
Definition door_numbers_fit (d : EntranceAndOrExit.t) : bool :=
  fits c_i (EntranceAndOrExit.x1 d)
  && fits c_i (EntranceAndOrExit.y1 d)
  && fits c_i (EntranceAndOrExit.x2 d)
  && fits c_i (EntranceAndOrExit.y2 d)
  && fits c_i (EntranceAndOrExit.entrance_id d)
  && fits c_H (EntranceAndOrExit.exit_type_id d)
  && fits c_I (EntranceAndOrExit.exit_location_id d)
  && fits c_H (EntranceAndOrExit.entrance_type_id d).

(** A reader that leaves the contents of the file as they are, whatever it
    returns or raises. *)
Definition keeps_contents {A} (m : M BytesIO A) : Prop :=
  forall f, getvalue (snd (m f)) = getvalue f.

(** [d] without its entry for key [k] *)
Definition without_key (k : string) (d : list (string * pyval))
  : list (string * pyval) :=
  filter (fun kv => negb (String.eqb (fst kv) k)) d.

(** A box ((x1, y1), (x2, y2)) with its ordinates counted from height [h] *)
Definition flip_box (h : Z) (box : (Z * Z) * (Z * Z)) : (Z * Z) * (Z * Z) :=
  ((fst (fst box), h - snd (fst box)), (fst (snd box), h - snd (snd box))).

(** ** Sample files and levels *)

(** A file with header (0, [sentinel], 0, 1, 2, 2), the magic string, the
    table string "A" and its one byte of padding, no objects, the camera
    block (0, 0, 10, 10, [camera_tail]), no doors, and [tile_bytes]. *)
Definition synthetic_file (sentinel camera_tail : Z) (tile_bytes : list Z)
  : bytes :=
  le_split 2 0 ++ le_split 2 sentinel ++ le_split 2 0 ++ le_split 2 1
    ++ le_split 4 2 ++ le_split 4 2
    ++ UNDERWORLD_TYPES_TYP
    ++ bytes_literal "A" ++ [Byte.x00]
    ++ [Byte.x00]
    ++ le_split 4 0 ++ le_split 4 0 ++ le_split 4 10 ++ le_split 4 10
    ++ le_split 4 camera_tail
    ++ map byte.of_Z tile_bytes.

(** The buffer of the end-to-end example, and the level it holds *)
Definition synthetic_buffer : bytes := synthetic_file 1 0 [1; 2; 3; 4].

Definition synthetic_level : t := mk [] [] 0 0 10 10 [[1; 2]; [3; 4]].

(** The two-character name "A" followed by NUL *)
Definition nul_name : string := String "A" (String zero EmptyString).

Definition nul_named_level : t :=
  mk [EblbObject.mk nul_name 0 0 false false 0 0 0 0 0 0] [] 0 0 0 0 [[1]].

(** Three objects of two types, one door, a 2 x 2 grid *)
Definition sample_level : t :=
  mk [EblbObject.mk "A" (-3) 5 true false 1 2 3 255 (-1) 4294967295;
      EblbObject.mk "B" 7 (-8) false true 0 0 0 0 0 0;
      EblbObject.mk "A" 0 0 false false 0 0 0 0 0 0]
     [EntranceAndOrExit.mk 1 2 3 4 5 6 7 8 "abc"]
     0 0 10 10 [[1; 2]; [3; 4]].

(** The file [bytes(sample_level)] gives when the set of type names is
    listed as A, B *)
Definition sample_file : bytes :=
  match encode ["A"; "B"]%string sample_level with
  | Ok b => b
  | _ => []
  end.

(** ** Proof automation *)

Ltac split_andb :=
  repeat match goal with
         | H : _ && _ = true |- _ => apply andb_prop in H; destruct H
         end.

(** Evaluate a [struct_pack] whose integer arguments are known to fit. *)
Ltac pack_fits H :=
  cbn [struct_pack pack_one] in H; unfold fits in *;
  repeat match goal with
         | Hf : ?cond = true |- _ =>
             match type of H with
             | context [if cond then _ else _] => rewrite Hf in H
             end
         end;
  cbn [obind] in H.

(** * Properties *)

(** ** Geometry *)

(** C3. A door with corners (10,20,30,40): without an image size [bbox]
    returns ((10,40),(30,40)), the second corner's y in both points, not the
    unflipped corners ((10,20),(30,40)); with image height 100 it returns
    ((10,100-20),(30,100-40)). *)
Theorem door_bbox_10_20_30_40 :
  forall (eid ety elo ent : Z) (name : string) (width : Z),
    let door := EntranceAndOrExit.mk 10 20 30 40 eid ety elo ent name in
    EntranceAndOrExit.bbox door None = ((10, 40), (30, 40))
    /\ EntranceAndOrExit.bbox door None <> ((10, 20), (30, 40))
    /\ EntranceAndOrExit.bbox door (Some (width, 100))
       = ((10, 100 - 20), (30, 100 - 40)).
Proof.
  intros; subst door; cbn.
  repeat split; congruence.
Qed.

(** ** The rectangularity check *)

Section CheckEblb.

Context {S : Type}.
Variable row0 : list Z.

Lemma forM_check_bad :
  forall (rows : list (list Z)) (s : S),
    (exists row, In row rows /\ length row <> length row0) ->
    forM_ rows
      (fun row => if negb (length row =? length row0)%nat
                  then raise ShantaeCurseEblbBadData else ret tt) s
    = (Raise ShantaeCurseEblbBadData, s).
Proof.
  induction rows as [|r rows IH]; intros s [row [Hin Hne]].
  - destruct Hin.
  - cbn [forM_]. unfold bind at 1.
    destruct (Nat.eqb_spec (length r) (length row0)) as [E|E]; cbn.
    + apply IH. destruct Hin as [->|Hin]; [contradiction|eauto].
    + reflexivity.
Qed.

Lemma forM_check_ok :
  forall (rows : list (list Z)) (s : S),
    Forall (fun row => length row = length row0) rows ->
    forM_ rows
      (fun row => if negb (length row =? length row0)%nat
                  then raise ShantaeCurseEblbBadData else ret tt) s
    = (Ok tt, s).
Proof.
  induction rows as [|r rows IH]; intros s HF; [reflexivity|].
  inversion HF; subst. cbn [forM_]. unfold bind at 1.
  rewrite (proj2 (Nat.eqb_eq _ _)) by assumption. cbn. auto.
Qed.

End CheckEblb.

Lemma check_eblb_unfold :
  forall (S : Type) (self : ShantaeCurseEblb.t) (r : list Z) (rows : list (list Z)),
    ShantaeCurseEblb.tiles self = r :: rows ->
    @ShantaeCurseEblb.check_eblb S self
    = forM_ (r :: rows)
        (fun row => if negb (length row =? length r)%nat
                    then raise ShantaeCurseEblbBadData else ret tt).
Proof.
  intros S self r rows E. unfold ShantaeCurseEblb.check_eblb. rewrite E.
  reflexivity.
Qed.

(** C7. [bytes(L)] checks the grid before anything else: when some row's
    length differs from row 0's it raises the bad-data error with nothing
    written ([L] itself is a value, which the source never assigns to). *)
Theorem bytes_rejects_ragged_tiles :
  forall (set_order : list string) (L : ShantaeCurseEblb.t) (row : list Z),
    In row (ShantaeCurseEblb.tiles L) ->
    length row <> length (hd [] (ShantaeCurseEblb.tiles L)) ->
    ShantaeCurseEblb.dunder_bytes set_order L []
    = (Raise ShantaeCurseEblbBadData, []).
Proof.
  intros order L row Hin Hne.
  destruct (ShantaeCurseEblb.tiles L) as [|r rows] eqn:E; [destruct Hin|].
  unfold ShantaeCurseEblb.dunder_bytes.
  rewrite (check_eblb_unfold _ L r rows E).
  unfold bind at 1.
  rewrite (forM_check_bad r); [reflexivity|].
  exists row; split; [assumption|exact Hne].
Qed.

Lemma bytes_rejects_ragged_tiles_witness :
  ShantaeCurseEblb.dunder_bytes []
    (ShantaeCurseEblb.mk [] [] 0 0 0 0 [[1; 2]; [3]]) []
  = (Raise ShantaeCurseEblbBadData, []).
Proof.
  apply (bytes_rejects_ragged_tiles [] _ [3]).
  - simpl. right. left. reflexivity.
  - simpl. lia.
Defined.

(** C10. With no rows the check passes vacuously, and [bytes(L)] then
    raises [IndexError] on [self.tiles[0]], before anything is written: an
    error that is not a [ShantaeCurseEblbParsingError]. *)
Theorem bytes_of_empty_tiles_raises_IndexError :
  forall (set_order : list string) (objs : list EblbObject.t)
         (drs : list EntranceAndOrExit.t) (cx1 cy1 cx2 cy2 : Z),
    let L := ShantaeCurseEblb.mk objs drs cx1 cy1 cx2 cy2 [] in
    @ShantaeCurseEblb.check_eblb bytes L [] = (Ok tt, [])
    /\ ShantaeCurseEblb.dunder_bytes set_order L [] = (Raise IndexError, [])
    /\ is_parsing_error IndexError = false.
Proof.
  intros; subst L. repeat split.
Qed.

(** ** The [struct] module *)

Lemma mod_of_negative :
  forall m v, 0 < m -> - m <= v < 0 -> v mod m = v + m.
Proof.
  intros m v Hm Hv. symmetry. apply Z.mod_unique with (q := -1); lia.
Qed.

Lemma pack_one_length :
  forall c v b, pack_one c v = Ok b -> length b = size_of c.
Proof.
  intros c v b H. unfold pack_one in H.
  destruct c;
    try (destruct (_ && _); inversion H; subst; apply length_le_split);
    inversion H; reflexivity.
Qed.

Lemma pack_one_fits :
  forall c v, fits c v = true -> c <> c_bool ->
    pack_one c v = Ok (le_split (size_of c) v).
Proof.
  intros c v H Hc. unfold fits in H. unfold pack_one.
  destruct c; try rewrite H; try reflexivity. contradiction.
Qed.

Lemma pack_one_inv :
  forall c v b, pack_one c v = Ok b -> c <> c_bool ->
    fits c v = true /\ b = le_split (size_of c) v.
Proof.
  intros c v b H Hc. unfold pack_one in H. unfold fits.
  destruct c; try contradiction;
    destruct (_ && _); inversion H; split; reflexivity.
Qed.

Lemma unpack_one_le_split :
  forall c v, fits c v = true -> c <> c_bool ->
    unpack_one c (le_split (size_of c) v) = v.
Proof.
  intros c v H Hc. unfold fits in H.
  apply andb_prop in H as [Hlo Hhi].
  apply Z.leb_le in Hlo. apply Z.leb_le in Hhi.
  unfold unpack_one. rewrite le_combine_split.
  destruct c; try contradiction; cbn in Hlo, Hhi |- *.
  - rewrite Z.mod_small by lia. reflexivity.
  - destruct (Z.lt_ge_cases v 0) as [N|N].
    + rewrite (mod_of_negative 65536 v) by lia.
      destruct (Z.ltb_spec 32767 (v + 65536)); lia.
    + rewrite Z.mod_small by lia.
      destruct (Z.ltb_spec 32767 v); lia.
  - rewrite Z.mod_small by lia. reflexivity.
  - destruct (Z.lt_ge_cases v 0) as [N|N].
    + rewrite (mod_of_negative 4294967296 v) by lia.
      destruct (Z.ltb_spec 2147483647 (v + 4294967296)); lia.
    + rewrite Z.mod_small by lia.
      destruct (Z.ltb_spec 2147483647 v); lia.
  - rewrite Z.mod_small by lia. reflexivity.
Qed.

Lemma unpack_pack_one :
  forall c v b, pack_one c v = Ok b -> unpack_one c b = as_packed c v.
Proof.
  intros c v b H.
  assert (D : c = c_bool \/ c <> c_bool) by (destruct c; auto; right; discriminate).
  destruct D as [->|Hc].
  - cbn in H. inversion H; subst. cbn. destruct (v =? 0); reflexivity.
  - apply pack_one_inv in H as [Hf ->]; [|assumption].
    rewrite unpack_one_le_split by assumption.
    destruct c; try reflexivity. contradiction.
Qed.

(** A field decoded by an integer code lies in the code's range. *)
Lemma unpack_one_range :
  forall c b, length b = size_of c -> c <> c_bool ->
    lo_of c <= unpack_one c b <= hi_of c.
Proof.
  intros c b Hlen Hc.
  pose proof (le_combine_bound b) as Hb. rewrite Hlen in Hb.
  unfold unpack_one.
  destruct c; try contradiction; cbn in Hb |- *; try lia.
  - destruct (Z.ltb_spec 32767 (le_combine b)); lia.
  - destruct (Z.ltb_spec 2147483647 (le_combine b)); lia.
Qed.

Lemma struct_pack_length :
  forall f args b, struct_pack f args = Ok b -> length b = calcsize f.
Proof.
  induction f as [|c f IH]; intros [|v args] b H; cbn in H; try discriminate.
  - inversion H. reflexivity.
  - destruct (pack_one c v) as [b1| |] eqn:E1; cbn in H; try discriminate.
    destruct (struct_pack f args) as [b2| |] eqn:E2; cbn in H; try discriminate.
    inversion H; subst. rewrite length_app.
    rewrite (pack_one_length _ _ _ E1), (IH _ _ E2). reflexivity.
Qed.

Lemma unpack_fields_pack :
  forall f args b, struct_pack f args = Ok b ->
    unpack_fields f b = map (fun cv => as_packed (fst cv) (snd cv)) (combine f args).
Proof.
  induction f as [|c f IH]; intros [|v args] b H; cbn in H; try discriminate.
  - reflexivity.
  - destruct (pack_one c v) as [b1| |] eqn:E1; cbn in H; try discriminate.
    destruct (struct_pack f args) as [b2| |] eqn:E2; cbn in H; try discriminate.
    inversion H; subst. cbn [unpack_fields combine map fst snd].
    pose proof (pack_one_length _ _ _ E1) as L1.
    rewrite <- L1.
    rewrite firstn_app, Nat.sub_diag, firstn_all, firstn_O, app_nil_r.
    rewrite skipn_app, Nat.sub_diag, skipn_all, skipn_O. cbn [app].
    rewrite (unpack_pack_one _ _ _ E1), (IH _ _ E2). reflexivity.
Qed.

(** [struct.unpack(f, struct.pack(f, *args))] gives the arguments back. *)
Lemma struct_unpack_pack :
  forall f args b, struct_pack f args = Ok b ->
    struct_unpack f b
    = Ok (map (fun cv => as_packed (fst cv) (snd cv)) (combine f args)).
Proof.
  intros f args b H. unfold struct_unpack.
  rewrite (struct_pack_length _ _ _ H), Nat.eqb_refl.
  rewrite (unpack_fields_pack _ _ _ H). reflexivity.
Qed.

Lemma struct_pack_fits :
  forall f args,
    length f = length args ->
    Forall (fun cv => fst cv = c_bool \/ fits (fst cv) (snd cv) = true) (combine f args) ->
    exists b, struct_pack f args = Ok b.
Proof.
  induction f as [|c f IH]; intros [|v args] Hl HF; cbn in Hl; try discriminate.
  - eexists; reflexivity.
  - cbn in HF. inversion HF as [|? ? Hh Ht]; subst. cbn in Hh.
    destruct (IH args) as [b2 E2]; [lia|assumption|].
    cbn [struct_pack]. rewrite E2.
    destruct Hh as [->|Hh].
    + cbn. eexists; reflexivity.
    + assert (D : c = c_bool \/ c <> c_bool) by (destruct c; auto; right; discriminate).
      destruct D as [->|Hc]; [cbn; eexists; reflexivity|].
      rewrite (pack_one_fits _ _ Hh Hc). cbn. eexists; reflexivity.
Qed.

(** ** Object records *)

Lemma from_bytes_unchecked :
  forall entry types,
    passes_checks entry = false ->
    exists e, EblbObject.from_bytes entry types = Raise e
              /\ is_parsing_error e = true.
Proof.
  intros entry types H. unfold passes_checks in H.
  unfold EblbObject.from_bytes.
  destruct (length entry =? 20)%nat; cbn in H |- *; [|eauto].
  destruct ((EblbObject.byte_at entry 6 =? 0) || (EblbObject.byte_at entry 6 =? 1));
    cbn in H |- *; [|eauto].
  destruct ((EblbObject.byte_at entry 7 =? 0) || (EblbObject.byte_at entry 7 =? 1));
    cbn in H |- *; [|eauto].
  rewrite H. cbn. eauto.
Qed.

Lemma from_bytes_checked :
  forall entry,
    passes_checks entry = true ->
    exists x y b6 b7 c8 c9 ca cb sc ie,
      (-32768 <= sc <= 32767) /\ (0 <= ie <= 4294967295)
      /\ forall types,
          EblbObject.from_bytes entry types
          = let! ty := getitem types (stored_index entry - 1) in
            Ok (EblbObject.mk ty x y b6 b7 c8 c9 ca cb sc ie).
Proof.
  intros entry H. unfold passes_checks in H.
  apply andb_prop in H as [H H4]. apply andb_prop in H as [H H3].
  apply andb_prop in H as [H1 H2].
  pose proof H1 as Hlen. apply Nat.eqb_eq in Hlen.
  do 8 eexists.
  exists (unpack_one c_h (firstn 2 (skipn 12 entry))).
  exists (unpack_one c_I (firstn 4 (skipn 14 entry))).
  split; [|split].
  - apply (unpack_one_range c_h); [|discriminate].
    rewrite length_firstn, length_skipn, Hlen. reflexivity.
  - apply (unpack_one_range c_I); [|discriminate].
    rewrite length_firstn, length_skipn, Hlen. reflexivity.
  - intros types. unfold EblbObject.from_bytes, struct_unpack.
    rewrite H1, H2, H3, H4. cbn [negb].
    change (calcsize EblbObject.fmt) with 20%nat. rewrite H1.
    cbn [obind EblbObject.fmt unpack_fields size_of].
    rewrite !skipn_skipn. cbn [Nat.add].
    reflexivity.
Qed.

(** C4. A record that passes the checks and stores type index 0 is not
    rejected when the table is not empty: [underworld_types[0 - 1]] is the
    table's last entry. *)
Theorem from_bytes_index_zero_takes_last :
  forall (entry : bytes) (types : list string) (last : string),
    passes_checks entry = true ->
    stored_index entry = 0 ->
    exists o, EblbObject.from_bytes entry (types ++ [last]) = Ok o
              /\ EblbObject.underworld_type o = last.
Proof.
  intros entry types last Hc Hi.
  destruct (from_bytes_checked entry Hc)
    as (x & y & b6 & b7 & c8 & c9 & ca & cb & sc & ie & _ & _ & E).
  rewrite E, Hi. unfold getitem.
  rewrite length_app. cbn [length].
  change (0 - 1 <? 0) with true. cbv iota.
  replace (0 - 1 + Z.of_nat (length types + 1)) with (Z.of_nat (length types)) by lia.
  rewrite Nat2Z.id.
  destruct (Z.leb_spec 0 (Z.of_nat (length types))); [|lia].
  destruct (Z.ltb_spec (Z.of_nat (length types)) (Z.of_nat (length types + 1))); [|lia].
  cbn [andb]. rewrite nth_error_app2, Nat.sub_diag by lia. cbn.
  eexists; split; reflexivity.
Qed.

Lemma from_bytes_index_zero_takes_last_witness :
  exists o, EblbObject.from_bytes (repeat Byte.x00 20) (["A"%string] ++ ["B"%string]) = Ok o
            /\ EblbObject.underworld_type o = "B"%string.
Proof.
  apply (from_bytes_index_zero_takes_last (repeat Byte.x00 20) ["A"%string] "B"%string).
  - vm_compute. reflexivity.
  - vm_compute. reflexivity.
Defined.

(** An index past the end of the table does raise. *)
Lemma from_bytes_index_past_end :
  forall entry types,
    passes_checks entry = true ->
    Z.of_nat (length types) < stored_index entry ->
    EblbObject.from_bytes entry types = Raise IndexError.
Proof.
  intros entry types Hc Hi.
  destruct (from_bytes_checked entry Hc)
    as (x & y & b6 & b7 & c8 & c9 & ca & cb & sc & ie & _ & _ & E).
  rewrite E. unfold getitem.
  destruct (Z.ltb_spec (stored_index entry - 1) 0); [lia|].
  destruct (Z.ltb_spec (stored_index entry - 1) (Z.of_nat (length types))); [lia|].
  rewrite andb_false_r. reflexivity.
Qed.

Lemma getitem_in_range :
  forall (A : Type) (l : list A) (i : Z),
    0 <= i < Z.of_nat (length l) ->
    exists a, getitem l i = Ok a /\ nth_error l (Z.to_nat i) = Some a.
Proof.
  intros A l i Hi. unfold getitem.
  destruct (Z.ltb_spec i 0); [lia|].
  destruct (Z.leb_spec 0 i); [|lia].
  destruct (Z.ltb_spec i (Z.of_nat (length l))); [|lia]. cbn [andb].
  destruct (nth_error l (Z.to_nat i)) eqn:E; [eauto|].
  apply nth_error_None in E. lia.
Qed.

Lemma index_found :
  forall x l, In x l ->
    exists k, index x l = Ok k /\ (k < length l)%nat /\ nth_error l k = Some x.
Proof.
  induction l as [|y l IH]; intros Hin; [destruct Hin|].
  cbn [index]. destruct (String.eqb_spec y x) as [->|Hne].
  - exists O. cbn. repeat split. lia.
  - destruct IH as (k & E & Hk & Hn); [destruct Hin; [contradiction|assumption]|].
    rewrite E. cbn. exists (S k). cbn. repeat split; [lia|assumption].
Qed.

Lemma fits_index :
  forall k, Z.of_nat k < 65535 -> fits c_H (Z.of_nat k + 1) = true.
Proof.
  intros k Hk. unfold fits. cbn.
  apply andb_true_intro; split; [apply Z.leb_le|apply Z.leb_le]; lia.
Qed.

(** Encoding an object whose fields fit their codes gives a 20-byte record
    that decodes to the object, under the same table. *)
Lemma object_roundtrip :
  forall (o : EblbObject.t) (types : list string),
    object_fits o = true ->
    In (EblbObject.underworld_type o) types ->
    Z.of_nat (length types) <= 65535 ->
    exists b, EblbObject.to_bytes o types = Ok b
              /\ length b = 20%nat
              /\ EblbObject.from_bytes b types = Ok o.
Proof.
  intros [ty x y b6 b7 c8 c9 ca cb sc ie] types Hf Hin Hlen.
  unfold object_fits in Hf. cbn in Hf. split_andb.
  cbn [EblbObject.underworld_type] in Hin.
  destruct (index_found ty types Hin) as (k & Ek & Hk & Hn).
  assert (Hidx : fits c_H (Z.of_nat k + 1) = true) by (apply fits_index; lia).
  assert (Hz : fits c_B 0 = true) by reflexivity.
  unfold EblbObject.to_bytes. cbn [EblbObject.underworld_type EblbObject.x_location
    EblbObject.y_location EblbObject.unknown_bool6 EblbObject.unknown_bool7
    EblbObject.unknown_char8 EblbObject.unknown_char9 EblbObject.unknown_chara
    EblbObject.unknown_charb EblbObject.unknown_shortc EblbObject.unknown_inte].
  rewrite Ek. cbn [obind].
  destruct (struct_pack EblbObject.fmt
              [Z.of_nat k + 1; x; y; Z.b2z b6; Z.b2z b7; c8; c9; ca; cb; sc; ie; 0; 0])
    as [b| |] eqn:Hpack.
  2,3: exfalso; unfold EblbObject.fmt in Hpack; pack_fits Hpack; discriminate.
  exists b. split; [reflexivity|].
  pose proof (struct_pack_length _ _ _ Hpack) as Hl.
  change (calcsize EblbObject.fmt) with 20%nat in Hl.
  split; [assumption|].
  pose proof (struct_unpack_pack _ _ _ Hpack) as Hun.
  unfold EblbObject.fmt in Hpack. pack_fits Hpack.
  cbn [le_split size_of app] in Hpack.
  injection Hpack as Hb.
  unfold EblbObject.from_bytes. rewrite Hun. rewrite <- Hb.
  cbn [length Nat.eqb negb EblbObject.byte_at nth].
  change (byte.of_Z 0) with Byte.x00.
  assert (B6 : byte.unsigned (if Z.b2z b6 =? 0 then Byte.x00 else Byte.x01) = Z.b2z b6)
    by (destruct b6; reflexivity).
  assert (B7 : byte.unsigned (if Z.b2z b7 =? 0 then Byte.x00 else Byte.x01) = Z.b2z b7)
    by (destruct b7; reflexivity).
  unfold EblbObject.byte_at. cbn [nth]. rewrite B6, B7.
  replace ((Z.b2z b6 =? 0) || (Z.b2z b6 =? 1)) with true by (destruct b6; reflexivity).
  replace ((Z.b2z b7 =? 0) || (Z.b2z b7 =? 1)) with true by (destruct b7; reflexivity).
  cbn [negb obind map combine EblbObject.fmt as_packed fst snd].
  change (byte.unsigned Byte.x00 + byte.unsigned Byte.x00 =? 0) with true.
  cbn [negb].
  replace (Z.of_nat k + 1 - 1) with (Z.of_nat k) by lia.
  destruct (getitem_in_range _ types (Z.of_nat k)) as (a & Ea & Na); [lia|].
  rewrite Nat2Z.id, Hn in Na. inversion Na; subst a.
  rewrite Ea. cbn [obind].
  destruct b6, b7; reflexivity.
Qed.

(** C9 (as stated, refuted).  The 16-bit unknown field is packed and unpacked
    with code [h]: the record whose bytes 12-13 are [ff ff] decodes to
    [unknown_shortc = -1], and [to_bytes] raises [struct.error] on 65535. *)
Lemma unknown_shortc_is_not_unsigned :
  (exists o,
      EblbObject.from_bytes
        ([Byte.x01; Byte.x00] ++ repeat Byte.x00 10
           ++ [Byte.xff; Byte.xff] ++ repeat Byte.x00 6) ["A"%string] = Ok o
      /\ EblbObject.unknown_shortc o = -1
      /\ ~ (0 <= EblbObject.unknown_shortc o <= 65535))
  /\ EblbObject.to_bytes
       (EblbObject.mk "A" 0 0 false false 0 0 0 0 65535 0) ["A"%string]
     = Raise StructError.
Proof.
  split.
  - eexists. split; [vm_compute; reflexivity|]. cbn. split; [reflexivity|lia].
  - vm_compute. reflexivity.
Qed.

(** C9 (amended).  [unknown_shortc] is a signed 16-bit field and
    [unknown_inte] an unsigned 32-bit field: every record that decodes gives
    [unknown_shortc] in [-32768, 32767] and [unknown_inte] in [0, 2^32 - 1];
    a record that passes the checks and stores an index from 1 to the table's
    length does decode; and [to_bytes] accepts every value of those two
    ranges (the other fields fitting their codes, the type name in a table
    of at most 65535 names). *)
Theorem unknown_fields_ranges :
  (forall entry types o,
      EblbObject.from_bytes entry types = Ok o ->
      -32768 <= EblbObject.unknown_shortc o <= 32767
      /\ 0 <= EblbObject.unknown_inte o <= 2 ^ 32 - 1)
  /\ (forall entry types,
         passes_checks entry = true ->
         1 <= stored_index entry <= Z.of_nat (length types) ->
         exists o, EblbObject.from_bytes entry types = Ok o)
  /\ (forall ty x y b6 b7 c8 c9 ca cb sc ie types,
         fits c_h x = true -> fits c_h y = true ->
         fits c_B c8 = true -> fits c_B c9 = true ->
         fits c_B ca = true -> fits c_B cb = true ->
         In ty types -> Z.of_nat (length types) <= 65535 ->
         -32768 <= sc <= 32767 ->
         0 <= ie <= 2 ^ 32 - 1 ->
         exists b,
           EblbObject.to_bytes (EblbObject.mk ty x y b6 b7 c8 c9 ca cb sc ie) types
           = Ok b /\ length b = 20%nat).
Proof.
  split; [|split].
  - intros entry types o H.
    destruct (passes_checks entry) eqn:Hc.
    + destruct (from_bytes_checked entry Hc)
        as (x & y & b6 & b7 & c8 & c9 & ca & cb & sc & ie & Hs & Hi & E).
      rewrite E in H.
      destruct (getitem types (stored_index entry - 1)); cbn in H; try discriminate.
      inversion H; subst. cbn. change (2 ^ 32 - 1) with 4294967295. lia.
    + destruct (from_bytes_unchecked entry types Hc) as (e & E & _).
      rewrite E in H. discriminate.
  - intros entry types Hc Hi.
    destruct (from_bytes_checked entry Hc)
      as (x & y & b6 & b7 & c8 & c9 & ca & cb & sc & ie & _ & _ & E).
    rewrite E.
    destruct (getitem_in_range _ types (stored_index entry - 1)) as (a & Ea & _);
      [lia|].
    rewrite Ea. cbn. eauto.
  - intros ty x y b6 b7 c8 c9 ca cb sc ie types Hx Hy H8 H9 Ha Hb Hin Hlen Hs Hi.
    destruct (object_roundtrip (EblbObject.mk ty x y b6 b7 c8 c9 ca cb sc ie) types)
      as (b & E & L & _); [|assumption|assumption|eauto].
    unfold object_fits. cbn [EblbObject.x_location EblbObject.y_location
      EblbObject.unknown_char8 EblbObject.unknown_char9 EblbObject.unknown_chara
      EblbObject.unknown_charb EblbObject.unknown_shortc EblbObject.unknown_inte].
    rewrite Hx, Hy, H8, H9, Ha, Hb. cbn [andb].
    apply andb_true_intro; split; unfold fits; cbn;
      apply andb_true_intro; split; apply Z.leb_le;
      change (2 ^ 32 - 1) with 4294967295 in Hi; lia.
Qed.

Lemma unknown_fields_ranges_witness :
  (-32768 <= -1 <= 32767 /\ 0 <= 4294967295 <= 2 ^ 32 - 1)
  /\ (exists o, EblbObject.from_bytes
                  ([Byte.x01; Byte.x00] ++ repeat Byte.x00 10
                     ++ [Byte.xff; Byte.xff] ++ repeat Byte.xff 4 ++ repeat Byte.x00 2)
                  ["A"%string] = Ok o)
  /\ (exists b,
         EblbObject.to_bytes
           (EblbObject.mk "A" 0 0 false false 0 0 0 0 (-32768) 4294967295)
           ["A"%string] = Ok b /\ length b = 20%nat).
Proof.
  destruct unknown_fields_ranges as (H1 & H2 & H3).
  split; [|split].
  - apply (H1 ([Byte.x01; Byte.x00] ++ repeat Byte.x00 10
                 ++ [Byte.xff; Byte.xff] ++ repeat Byte.xff 4 ++ repeat Byte.x00 2)
              ["A"%string]
              (EblbObject.mk "A" 0 0 false false 0 0 0 0 (-1) 4294967295)).
    vm_compute. reflexivity.
  - apply H2; [vm_compute; reflexivity|vm_compute; split; discriminate].
  - apply H3; try reflexivity; try (simpl; lia).
    simpl. left. reflexivity.
Defined.

(** ** ASCII strings *)

Lemma encode_ascii_literal :
  forall s, is_ascii s = true -> encode_ascii s = Ok (bytes_literal s).
Proof.
  induction s as [|c s IH]; intros H; [reflexivity|].
  unfold is_ascii in H. cbn in H. apply andb_prop in H as [Hc Hs].
  cbn [encode_ascii]. rewrite Hc, (IH Hs). reflexivity.
Qed.

Lemma mapM_encode_ascii :
  forall strings, forallb is_ascii strings = true ->
    mapM encode_ascii strings = Ok (map bytes_literal strings).
Proof.
  induction strings as [|s l IH]; intros H; [reflexivity|].
  cbn in H. apply andb_prop in H as [Hs Hl].
  cbn [mapM map]. rewrite (encode_ascii_literal s Hs), (IH Hl). reflexivity.
Qed.

Lemma length_bytes_literal :
  forall s, length (bytes_literal s) = String.length s.
Proof.
  intros s. unfold bytes_literal. rewrite length_map.
  induction s; cbn; congruence.
Qed.

(** ** Padding *)

(** C6. For ASCII strings [get_padding] returns, without raising, 0 to 3
    zero bytes: the least number that brings the length of the null-joined
    strings plus the final null to a multiple of 4. *)
Theorem get_padding_minimal_alignment :
  forall strings : list string,
    forallb is_ascii strings = true ->
    exists encoded pad,
      mapM encode_ascii strings = Ok encoded
      /\ get_padding strings = Ok pad
      /\ pad = repeat Byte.x00 (length pad)
      /\ (length pad <= 3)%nat
      /\ ((length (join [Byte.x00] encoded ++ [Byte.x00]) + length pad) mod 4
          = 0)%nat
      /\ forall k : nat,
          ((length (join [Byte.x00] encoded ++ [Byte.x00]) + k) mod 4 = 0)%nat ->
          (length pad <= k)%nat.
Proof.
  intros strings H.
  exists (map bytes_literal strings).
  unfold get_padding. rewrite (mapM_encode_ascii strings H). cbn [obind].
  set (n := length (join [Byte.x00] (map bytes_literal strings) ++ [Byte.x00])).
  destruct (Nat.eqb_spec (n mod 4) 0) as [E|E].
  - exists []. cbn [length repeat]. repeat split; try lia.
    rewrite Nat.add_0_r. exact E.
  - exists (repeat Byte.x00 (4 - n mod 4)). rewrite repeat_length.
    pose proof (Nat.mod_upper_bound n 4 ltac:(lia)) as Hb.
    pose proof (Nat.div_mod_eq n 4) as Hd.
    repeat split; try lia.
    + replace (n + (4 - n mod 4))%nat with (0 + (n / 4 + 1) * 4)%nat by lia.
      rewrite Nat.Div0.mod_add. reflexivity.
    + intros k Hk.
      pose proof (Nat.div_mod_eq (n + k) 4) as Hd2. lia.
Qed.

Lemma get_padding_minimal_alignment_witness :
  exists encoded pad,
    mapM encode_ascii ["UNDERWORLD_TYPES_TYP"; "A"]%string = Ok encoded
    /\ get_padding ["UNDERWORLD_TYPES_TYP"; "A"]%string = Ok pad
    /\ pad = repeat Byte.x00 (length pad)
    /\ (length pad <= 3)%nat
    /\ ((length (join [Byte.x00] encoded ++ [Byte.x00]) + length pad) mod 4
        = 0)%nat
    /\ forall k : nat,
        ((length (join [Byte.x00] encoded ++ [Byte.x00]) + k) mod 4 = 0)%nat ->
        (length pad <= k)%nat.
Proof.
  apply (get_padding_minimal_alignment ["UNDERWORLD_TYPES_TYP"; "A"]%string).
  reflexivity.
Defined.

(** The padding of the empty list brings the lone terminator to 4 bytes. *)
Example get_padding_nil : get_padding [] = Ok [Byte.x00; Byte.x00; Byte.x00].
Proof. reflexivity. Qed.

(** The total is the characters, one separator between neighbours, and the
    terminator. *)
Lemma length_join_literals :
  forall strings,
    length (join [Byte.x00] (map bytes_literal strings))
    = (list_sum (map String.length strings) + (length strings - 1))%nat.
Proof.
  induction strings as [|s l IH]; [reflexivity|].
  cbn [map join]. destruct l as [|s' l'].
  - cbn [map list_sum length fold_right]. rewrite length_bytes_literal. lia.
  - cbn [map] in IH |- *. rewrite !length_app, IH, length_bytes_literal.
    cbn [list_sum length map fold_right]. lia.
Qed.

(** ** Structured descriptions *)

Lemma mapM_map_inverse :
  forall (A B : Type) (f : B -> outcome A) (g : A -> B) (l : list A),
    (forall a, f (g a) = Ok a) -> mapM f (map g l) = Ok l.
Proof.
  intros A B f g l H. induction l as [|a l IH]; [reflexivity|].
  cbn [map mapM]. rewrite H, IH. reflexivity.
Qed.

Lemma object_of_kwargs_asdict :
  forall o, EblbObject.of_kwargs (EblbObject._asdict o) = Ok o.
Proof. intros []. reflexivity. Qed.

Lemma door_of_kwargs_asdict :
  forall d, EntranceAndOrExit.of_kwargs (EntranceAndOrExit._asdict d) = Ok d.
Proof. intros []. reflexivity. Qed.

(** C8. [from_dict(L.to_dict())] is [L]: objects, doors, the four camera
    coordinates and the tile grid. *)
Theorem from_dict_to_dict :
  forall L : ShantaeCurseEblb.t,
    ShantaeCurseEblb.from_dict (ShantaeCurseEblb.to_dict L) = Ok L.
Proof.
  intros [objs drs cx1 cy1 cx2 cy2 tls].
  unfold ShantaeCurseEblb.from_dict, ShantaeCurseEblb.to_dict,
    ShantaeCurseEblb.asdict.
  cbn [ShantaeCurseEblb.objects ShantaeCurseEblb.doors ShantaeCurseEblb.tiles
       ShantaeCurseEblb.camera_x1 ShantaeCurseEblb.camera_y1
       ShantaeCurseEblb.camera_x2 ShantaeCurseEblb.camera_y2].
  cbn -[mapM map EblbObject.of_kwargs EblbObject._asdict
        EntranceAndOrExit.of_kwargs EntranceAndOrExit._asdict].
  rewrite (mapM_map_inverse _ _ _ _ objs object_of_kwargs_asdict).
  cbn [obind].
  rewrite (mapM_map_inverse _ _ _ _ drs door_of_kwargs_asdict).
  cbn [obind].
  rewrite (mapM_map_inverse _ _
             (fun row => obind (as_list row) (mapM as_int))
             (fun row => PList (map PInt row)) tls).
  - reflexivity.
  - intros row. cbn [as_list obind].
    apply mapM_map_inverse. reflexivity.
Qed.

(** ** The monad *)

Lemma bind_Ok :
  forall (S A B : Type) (m : M S A) (k : A -> M S B) (s s' : S) (a : A),
    m s = (Ok a, s') -> bind m k s = k a s'.
Proof. intros * H. unfold bind. rewrite H. reflexivity. Qed.

Lemma bind_Raise :
  forall (S A B : Type) (m : M S A) (k : A -> M S B) (s s' : S) (e : exn),
    m s = (Raise e, s') -> bind m k s = (Raise e, s').
Proof. intros * H. unfold bind. rewrite H. reflexivity. Qed.

Lemma bind_inv_Ok :
  forall (S A B : Type) (m : M S A) (k : A -> M S B) (s s2 : S) (b : B),
    bind m k s = (Ok b, s2) ->
    exists a s1, m s = (Ok a, s1) /\ k a s1 = (Ok b, s2).
Proof.
  intros * H. unfold bind in H.
  destruct (m s) as [[a|e|] s1]; try discriminate. eauto.
Qed.

(** ** Rejections *)

Lemma from_eblb_file_after_objects :
  forall f0 h types objs f,
    regions_before_camera f0 = (Ok (h, types, objs), f) ->
    from_eblb_file f0
    = (cam <- read_camera ;;
       self_doors <- read_doors (doors_count h) ;;
       self_tiles <- read_tiles (tiles_x h) (tiles_y h) ;;
       seek 0 ;;;
       let '(cx1, cy1, cx2, cy2) := cam in
       ret (mk objs self_doors cx1 cy1 cx2 cy2 self_tiles)) f.
Proof.
  intros f0 h types objs f H. unfold regions_before_camera in H.
  apply bind_inv_Ok in H as (h' & f1 & E1 & H).
  apply bind_inv_Ok in H as (ty' & f2 & E2 & H).
  apply bind_inv_Ok in H as (ob' & f3 & E3 & H).
  unfold ret in H. inversion H; subst.
  unfold from_eblb_file.
  rewrite (bind_Ok _ _ _ _ _ _ _ _ E1), (bind_Ok _ _ _ _ _ _ _ _ E2),
    (bind_Ok _ _ _ _ _ _ _ _ E3).
  reflexivity.
Qed.

Lemma from_eblb_file_after_doors :
  forall f0 h objs cam drs f,
    regions_before_tiles f0 = (Ok (h, objs, cam, drs), f) ->
    from_eblb_file f0
    = (self_tiles <- read_tiles (tiles_x h) (tiles_y h) ;;
       seek 0 ;;;
       let '(cx1, cy1, cx2, cy2) := cam in
       ret (mk objs drs cx1 cy1 cx2 cy2 self_tiles)) f.
Proof.
  intros f0 h objs cam drs f H. unfold regions_before_tiles in H.
  apply bind_inv_Ok in H as ([[h' ty'] ob'] & f1 & E1 & H).
  apply bind_inv_Ok in H as (cam' & f2 & E2 & H).
  apply bind_inv_Ok in H as (drs' & f3 & E3 & H).
  unfold ret in H. cbn [fst snd] in *. inversion H; subst.
  rewrite (from_eblb_file_after_objects _ _ _ _ _ E1).
  rewrite (bind_Ok _ _ _ _ _ _ _ _ E2), (bind_Ok _ _ _ _ _ _ _ _ E3).
  reflexivity.
Qed.

Lemma read_camera_bad_sentinel :
  forall f a b c d z,
    struct_unpack camera_fmt (firstn 20 (remaining f)) = Ok [a; b; c; d; z] ->
    z <> 0 ->
    fst (read_camera f) = Raise ShantaeCurseEblbParsingError.
Proof.
  intros f a b c d z Hu Hz. unfold read_camera, bind, read, lift.
  rewrite Hu. destruct (Z.eqb_spec z 0); [contradiction|]. reflexivity.
Qed.

Lemma fst_bind_Raise :
  forall (S A B : Type) (m : M S A) (k : A -> M S B) (s : S) (e : exn),
    fst (m s) = Raise e -> fst (bind m k s) = Raise e.
Proof.
  intros * H. unfold bind. destruct (m s) as [[a|e'|] s1]; cbn in H |- *;
    congruence.
Qed.

(** C5. Malformed input is rejected: an object record that is not 20 bytes
    long (19 or 21, say), one with a boolean byte 2, one with a non-zero
    padding byte; a header whose sentinel is not 1; a camera block whose
    trailing field is not 0; a tile payload whose length is not
    [tiles_x * tiles_y]. *)
Theorem malformed_input_rejected :
  (forall entry types,
      length entry <> 20%nat ->
      EblbObject.from_bytes entry types = Raise ShantaeCurseEblbParsingError)
  /\ (forall entry types,
         EblbObject.byte_at entry 6 = 2 \/ EblbObject.byte_at entry 7 = 2 ->
         EblbObject.from_bytes entry types
         = Raise ShantaeCurseEblbParsingError)
  /\ (forall entry types,
         EblbObject.byte_at entry 18 <> 0 \/ EblbObject.byte_at entry 19 <> 0 ->
         exists e, EblbObject.from_bytes entry types = Raise e
                   /\ is_parsing_error e = true)
  /\ (forall b oc us dc uc tx ty,
         struct_unpack header_fmt (firstn 16 b) = Ok [oc; us; dc; uc; tx; ty] ->
         us <> 1 ->
         decode b = Raise ShantaeCurseEblbParsingError)
  /\ (forall f0 x f a b c d z,
         regions_before_camera f0 = (Ok x, f) ->
         struct_unpack camera_fmt (firstn 20 (remaining f))
         = Ok [a; b; c; d; z] ->
         z <> 0 ->
         fst (from_eblb_file f0) = Raise ShantaeCurseEblbParsingError)
  /\ (forall f0 h objs cam drs f,
         regions_before_tiles f0 = (Ok (h, objs, cam, drs), f) ->
         Z.of_nat (length (remaining f)) <> tiles_x h * tiles_y h ->
         fst (from_eblb_file f0) = Raise ShantaeCurseEblbBadData).
Proof.
  repeat apply conj.
  - intros entry types H. unfold EblbObject.from_bytes.
    destruct (Nat.eqb_spec (length entry) 20); [contradiction|]. reflexivity.
  - intros entry types H. unfold EblbObject.from_bytes.
    destruct (length entry =? 20)%nat; cbn [negb]; [|reflexivity].
    destruct H as [H|H]; rewrite H; cbn; [reflexivity|].
    destruct (negb _); reflexivity.
  - intros entry types H. apply from_bytes_unchecked.
    unfold passes_checks.
    pose proof (byte.unsigned_range (nth 18 entry Byte.x00)) as R18.
    pose proof (byte.unsigned_range (nth 19 entry Byte.x00)) as R19.
    unfold EblbObject.byte_at in *.
    destruct (Z.eqb_spec (byte.unsigned (nth 18 entry Byte.x00)
                          + byte.unsigned (nth 19 entry Byte.x00)) 0);
      [lia|]. apply andb_false_r.
  - intros b oc us dc uc tx ty Hu Hs. unfold decode, from_eblb_file.
    apply fst_bind_Raise. unfold read_header, bind, seek, read, lift, remaining.
    cbn [getvalue tell skipn]. rewrite Hu.
    destruct (Z.eqb_spec us 1); [contradiction|]. reflexivity.
  - intros f0 [[h types] objs] f a b c d z Hp Hu Hz.
    rewrite (from_eblb_file_after_objects _ _ _ _ _ Hp).
    apply fst_bind_Raise. eapply read_camera_bad_sentinel; eassumption.
  - intros f0 h objs cam drs f Hp Hl.
    rewrite (from_eblb_file_after_doors _ _ _ _ _ _ Hp).
    apply fst_bind_Raise. unfold read_tiles, bind, read_all.
    destruct (Z.eqb_spec (Z.of_nat (length (remaining f))) (tiles_x h * tiles_y h));
      [contradiction|]. reflexivity.
Qed.

Lemma malformed_input_rejected_witness :
  EblbObject.from_bytes (repeat Byte.x00 19) ["A"%string]
  = Raise ShantaeCurseEblbParsingError
  /\ EblbObject.from_bytes (repeat Byte.x00 21) ["A"%string]
     = Raise ShantaeCurseEblbParsingError
  /\ EblbObject.from_bytes
       ([Byte.x01] ++ repeat Byte.x00 5 ++ [Byte.x02] ++ repeat Byte.x00 13)
       ["A"%string]
     = Raise ShantaeCurseEblbParsingError
  /\ (exists e,
         EblbObject.from_bytes
           ([Byte.x01] ++ repeat Byte.x00 18 ++ [Byte.x01]) ["A"%string]
         = Raise e /\ is_parsing_error e = true)
  /\ decode (synthetic_file 2 0 [1; 2; 3; 4])
     = Raise ShantaeCurseEblbParsingError
  /\ fst (from_eblb_file (mkBytesIO (synthetic_file 1 7 [1; 2; 3; 4]) 0))
     = Raise ShantaeCurseEblbParsingError
  /\ fst (from_eblb_file (mkBytesIO (synthetic_file 1 0 [1; 2; 3]) 0))
     = Raise ShantaeCurseEblbBadData.
Proof.
  destruct malformed_input_rejected as (H1 & H2 & H3 & H4 & H5 & H6).
  split; [apply H1; simpl; lia|].
  split; [apply H1; simpl; lia|].
  split; [apply H2; left; vm_compute; reflexivity|].
  split; [apply H3; right; vm_compute; discriminate|].
  split.
  { apply (H4 _ 0 2 0 1 2 2); [vm_compute; reflexivity|lia]. }
  split.
  { eapply (H5 _ _ _ 0 0 10 10 7).
    - vm_compute. reflexivity.
    - vm_compute. reflexivity.
    - lia. }
  eapply H6.
  - vm_compute. reflexivity.
  - vm_compute. discriminate.
Defined.

(** ** Stream readers *)

Lemma runs_ret : forall (A : Type) (a : A), runs (ret a) [] a.
Proof. intros A a f rest H. exists f. repeat split. exact H. Qed.

Lemma runs_lift :
  forall (A : Type) (a : A), runs (lift (Ok a)) [] a.
Proof. intros A a f rest H. exists f. repeat split. exact H. Qed.

Lemma runs_bind :
  forall (A B : Type) (m : M BytesIO A) (k : A -> M BytesIO B)
         (i1 i2 : bytes) (a : A) (b : B),
    runs m i1 a -> runs (k a) i2 b -> runs (bind m k) (i1 ++ i2) b.
Proof.
  intros A B m k i1 i2 a b Hm Hk f rest Hr.
  rewrite <- app_assoc in Hr.
  destruct (Hm f _ Hr) as (f1 & E1 & G1 & R1).
  destruct (Hk f1 _ R1) as (f2 & E2 & G2 & R2).
  exists f2. rewrite (bind_Ok _ _ _ _ _ _ _ _ E1). repeat split; congruence.
Qed.

Lemma runs_bind_pure :
  forall (A B : Type) (m : M BytesIO A) (k : A -> M BytesIO B)
         (i : bytes) (a : A) (b : B),
    runs m [] a -> runs (k a) i b -> runs (bind m k) i b.
Proof. intros * Hm Hk. apply (runs_bind _ _ m k [] i a b Hm Hk). Qed.

Lemma runs_bind_last :
  forall (A B : Type) (m : M BytesIO A) (k : A -> M BytesIO B)
         (i : bytes) (a : A) (b : B),
    runs m i a -> runs (k a) [] b -> runs (bind m k) i b.
Proof.
  intros * Hm Hk. rewrite <- (app_nil_r i).
  apply (runs_bind _ _ m k i [] a b Hm Hk).
Qed.

Lemma runs_eq :
  forall (A : Type) (m : M BytesIO A) (i i' : bytes) (a : A),
    runs m i a -> i = i' -> runs m i' a.
Proof. intros; subst; assumption. Qed.

Lemma runs_read :
  forall (n : nat) (chunk : bytes),
    length chunk = n -> runs (read n) chunk chunk.
Proof.
  intros n chunk Hl f rest Hr. unfold read. rewrite Hr.
  rewrite firstn_app, Hl, Nat.sub_diag, firstn_O, app_nil_r.
  rewrite <- Hl, firstn_all.
  eexists. split; [reflexivity|]. split; [reflexivity|].
  unfold remaining in *. cbn [getvalue tell].
  rewrite Nat.add_comm, <- skipn_skipn, Hr.
  rewrite skipn_app, Nat.sub_diag, skipn_all. reflexivity.
Qed.

Lemma runs_seek_cur :
  forall (n : nat) (pad : bytes),
    length pad = n -> runs (seek_cur n) pad tt.
Proof.
  intros n pad Hl f rest Hr. unfold seek_cur.
  eexists. split; [reflexivity|]. split; [reflexivity|].
  unfold remaining in *. cbn [getvalue tell].
  rewrite Nat.add_comm, <- skipn_skipn, Hr, <- Hl.
  rewrite skipn_app, Nat.sub_diag, skipn_all. reflexivity.
Qed.

Lemma runs_repeatM :
  forall (A : Type) (body : M BytesIO A) (chunks : list bytes) (results : list A),
    Forall2 (fun c r => runs body c r) chunks results ->
    runs (repeatM (length results) body) (List.concat chunks) results.
Proof.
  intros A body chunks results H.
  induction H as [|c r cs rs Hc _ IH].
  - apply runs_ret.
  - cbn [length repeatM List.concat].
    apply runs_bind with (a := r); [assumption|].
    apply runs_bind_last with (a := rs); [assumption|apply runs_ret].
Qed.

Lemma bytes_eqb_eq : forall a b, bytes_eqb a b = true <-> a = b.
Proof.
  intros a b. unfold bytes_eqb.
  destruct (list_eq_dec Byte.byte_eq_dec a b); split; congruence.
Qed.

Lemma iter_read1_string :
  forall (s : bytes),
    Forall (fun c => c <> Byte.x00) s ->
    forall (fuel : nat) (f : BytesIO) (rest : bytes),
      (length s < fuel)%nat ->
      remaining f = (s ++ [Byte.x00]) ++ rest ->
      exists f', iter_read1 fuel f = (Ok s, f')
                 /\ getvalue f' = getvalue f /\ remaining f' = rest.
Proof.
  induction s as [|c s IH]; intros Hs fuel f rest Hfuel Hr.
  - destruct fuel as [|fuel]; [cbn in Hfuel; lia|].
    cbn [iter_read1].
    destruct (runs_read 1 [Byte.x00] eq_refl f rest Hr) as (f1 & E1 & G1 & R1).
    rewrite (bind_Ok _ _ _ _ _ _ _ _ E1). cbn.
    exists f1. repeat split; assumption.
  - destruct fuel as [|fuel]; [cbn in Hfuel; lia|].
    inversion Hs as [|? ? Hc Hs']; subst.
    cbn [iter_read1].
    destruct (runs_read 1 [c] eq_refl f ((s ++ [Byte.x00]) ++ rest))
      as (f1 & E1 & G1 & R1); [rewrite Hr; reflexivity|].
    rewrite (bind_Ok _ _ _ _ _ _ _ _ E1).
    replace (bytes_eqb [c] [Byte.x00]) with false.
    2: { symmetry. destruct (bytes_eqb [c] [Byte.x00]) eqn:E; [|reflexivity].
         apply bytes_eqb_eq in E. congruence. }
    destruct (IH Hs' fuel f1 rest) as (f2 & E2 & G2 & R2);
      [cbn in Hfuel; lia|assumption|].
    rewrite (bind_Ok _ _ _ _ _ _ _ _ E2). cbn.
    exists f2. repeat split; congruence.
Qed.

Lemma runs_read_cstring :
  forall s : bytes,
    Forall (fun c => c <> Byte.x00) s ->
    runs read_cstring (s ++ [Byte.x00]) s.
Proof.
  intros s Hs f rest Hr. unfold read_cstring.
  apply iter_read1_string; [assumption| |assumption].
  rewrite Hr, !length_app. cbn. lia.
Qed.

(** ** ASCII text on the wire *)

Lemma unsigned_byte_of_ascii :
  forall c, byte.unsigned (byte_of_ascii c) = Z.of_N (N_of_ascii c).
Proof.
  intros c. unfold byte.unsigned. f_equal.
  apply Byte.to_of_N. symmetry. apply byte_of_ascii_via_N.
Qed.

Lemma decode_ascii_literal :
  forall s, is_ascii s = true -> decode_ascii (bytes_literal s) = Ok s.
Proof.
  induction s as [|c s IH]; intros H; [reflexivity|].
  unfold is_ascii in H. cbn in H. apply andb_prop in H as [Hc Hs].
  change (bytes_literal (String c s)) with (byte_of_ascii c :: bytes_literal s).
  cbn [decode_ascii]. rewrite unsigned_byte_of_ascii.
  apply N.ltb_lt in Hc.
  destruct (Z.ltb_spec (Z.of_N (N_of_ascii c)) 128); [|lia].
  rewrite (IH Hs). cbn [obind]. rewrite ascii_of_byte_of_ascii. reflexivity.
Qed.

Lemma literal_nul_free :
  forall s, nul_free s = true ->
    Forall (fun c => c <> Byte.x00) (bytes_literal s).
Proof.
  induction s as [|c s IH]; intros H; [constructor|].
  unfold nul_free in H. cbn in H. apply andb_prop in H as [Hc Hs].
  change (bytes_literal (String c s)) with (byte_of_ascii c :: bytes_literal s).
  constructor; [|apply IH; assumption].
  intros E. apply (f_equal byte.unsigned) in E.
  rewrite unsigned_byte_of_ascii in E. change (byte.unsigned Byte.x00) with 0 in E.
  apply negb_true_iff in Hc. apply N.eqb_neq in Hc. lia.
Qed.

(** A null-terminated ASCII string is read back as it was written. *)
Lemma runs_read_name :
  forall s, is_ascii s = true -> nul_free s = true ->
    runs (b <- read_cstring ;; lift (decode_ascii b))
         (bytes_literal s ++ [Byte.x00]) s.
Proof.
  intros s Ha Hn.
  apply runs_bind_last with (a := bytes_literal s).
  - apply runs_read_cstring, literal_nul_free, Hn.
  - rewrite (decode_ascii_literal s Ha). apply runs_lift.
Qed.

(** ** Regions of the file *)

Lemma get_padding_ascii :
  forall strings, forallb is_ascii strings = true ->
    exists pad, get_padding strings = Ok pad.
Proof.
  intros strings H. unfold get_padding.
  rewrite (mapM_encode_ascii strings H). cbn [obind].
  destruct (_ =? 0)%nat; eauto.
Qed.

Lemma magic_name_value : magic_name = Ok "UNDERWORLD_TYPES_TYP"%string.
Proof. reflexivity. Qed.

Lemma join_terminated :
  forall parts : list bytes,
    parts <> [] ->
    join [Byte.x00] parts ++ [Byte.x00]
    = List.concat (map (fun p => p ++ [Byte.x00]) parts).
Proof.
  induction parts as [|p l IH]; intros H; [contradiction|].
  destruct l as [|q l].
  - cbn. rewrite app_nil_r. reflexivity.
  - change (join [Byte.x00] (p :: q :: l))
      with (p ++ [Byte.x00] ++ join [Byte.x00] (q :: l)).
    rewrite <- !app_assoc. rewrite IH by discriminate.
    cbn [map List.concat]. rewrite <- !app_assoc. reflexivity.
Qed.

Lemma runs_read_type_table :
  forall (types : list string) (pad : bytes),
    types <> [] ->
    forallb ascii_name types = true ->
    get_padding ("UNDERWORLD_TYPES_TYP"%string :: types) = Ok pad ->
    runs (read_type_table (Z.of_nat (length types)))
         ((join [Byte.x00] (map bytes_literal types) ++ [Byte.x00]) ++ pad)
         types.
Proof.
  intros types pad Hne Hascii Hpad. unfold read_type_table.
  rewrite Nat2Z.id, join_terminated by (destruct types; [contradiction|discriminate]).
  rewrite map_map.
  apply runs_bind with (a := types).
  - apply runs_repeatM.
    clear Hne Hpad. induction types as [|s l IH]; [constructor|].
    cbn in Hascii. apply andb_prop in Hascii as [Hs Hl].
    apply andb_prop in Hs as [Ha Hn].
    constructor; [apply runs_read_name; assumption|apply IH; assumption].
  - rewrite magic_name_value.
    apply runs_bind_pure with (a := "UNDERWORLD_TYPES_TYP"%string);
      [apply runs_lift|].
    rewrite Hpad.
    apply runs_bind_pure with (a := pad); [apply runs_lift|].
    apply runs_bind_last with (a := tt);
      [apply runs_seek_cur; reflexivity|apply runs_ret].
Qed.

Lemma runs_read_objects :
  forall (types : list string) (objs : list EblbObject.t) (chunks : list bytes),
    Forall2 (fun o b => length b = 20%nat
                        /\ EblbObject.from_bytes b types = Ok o) objs chunks ->
    runs (read_objects (Z.of_nat (length objs)) types) (List.concat chunks) objs.
Proof.
  intros types objs chunks H. unfold read_objects. rewrite Nat2Z.id.
  apply runs_repeatM.
  induction H as [|o b os bs [Hl Hd] _ IH]; constructor; [|assumption].
  apply runs_bind_last with (a := b).
  - apply runs_read. assumption.
  - rewrite Hd. apply runs_lift.
Qed.

Lemma runs_read_camera :
  forall (cx1 cy1 cx2 cy2 : Z) (raw : bytes),
    struct_pack camera_fmt [cx1; cy1; cx2; cy2; 0] = Ok raw ->
    runs read_camera raw (cx1, cy1, cx2, cy2).
Proof.
  intros cx1 cy1 cx2 cy2 raw H. unfold read_camera.
  apply runs_bind_last with (a := raw).
  - apply runs_read. apply (struct_pack_length _ _ _ H).
  - rewrite (struct_unpack_pack _ _ _ H).
    cbn [camera_fmt combine map fst snd as_packed].
    apply runs_bind_pure with (a := [cx1; cy1; cx2; cy2; 0]);
      [apply runs_lift|].
    cbn. apply runs_ret.
Qed.

(** What [EntranceAndOrExit.to_bytes] writes for a door that fits. *)
Lemma door_to_bytes :
  forall d, door_fits d = true ->
    exists head pad,
      struct_pack EntranceAndOrExit.fmt
        [EntranceAndOrExit.x1 d; EntranceAndOrExit.y1 d;
         EntranceAndOrExit.x2 d; EntranceAndOrExit.y2 d;
         EntranceAndOrExit.entrance_id d; EntranceAndOrExit.exit_type_id d;
         EntranceAndOrExit.exit_location_id d;
         EntranceAndOrExit.entrance_type_id d] = Ok head
      /\ get_padding [EntranceAndOrExit.exit_scene_name d] = Ok pad
      /\ EntranceAndOrExit.to_bytes d
         = Ok (head ++ bytes_literal (EntranceAndOrExit.exit_scene_name d)
                 ++ [Byte.x00] ++ pad).
Proof.
  intros d H. unfold door_fits, ascii_name in H. split_andb.
  destruct (struct_pack_fits EntranceAndOrExit.fmt
              [EntranceAndOrExit.x1 d; EntranceAndOrExit.y1 d;
               EntranceAndOrExit.x2 d; EntranceAndOrExit.y2 d;
               EntranceAndOrExit.entrance_id d; EntranceAndOrExit.exit_type_id d;
               EntranceAndOrExit.exit_location_id d;
               EntranceAndOrExit.entrance_type_id d]) as [head Hh].
  { reflexivity. }
  { cbn [EntranceAndOrExit.fmt combine].
    repeat (constructor; [right; assumption|]). constructor. }
  destruct (get_padding_ascii [EntranceAndOrExit.exit_scene_name d]) as [pad Hp].
  { cbn. rewrite andb_true_r. assumption. }
  exists head, pad. split; [assumption|]. split; [assumption|].
  unfold EntranceAndOrExit.to_bytes. rewrite Hh. cbn [obind].
  rewrite encode_ascii_literal by assumption. cbn [obind].
  rewrite Hp. reflexivity.
Qed.

Lemma runs_read_door :
  forall d b, door_fits d = true ->
    EntranceAndOrExit.to_bytes d = Ok b ->
    runs (door_bytes <- read 28 ;;
          name <- read_cstring ;;
          exit_scene_name <- lift (decode_ascii name) ;;
          pad <- lift (get_padding [exit_scene_name]) ;;
          seek_cur (length pad) ;;;
          lift (EntranceAndOrExit.from_bytes door_bytes exit_scene_name))
         b d.
Proof.
  intros d b Hf Hb.
  destruct (door_to_bytes d Hf) as (head & pad & Hh & Hp & E).
  rewrite E in Hb. injection Hb as <-.
  unfold door_fits, ascii_name in Hf. split_andb.
  apply runs_bind with (a := head).
  { apply runs_read. apply (struct_pack_length _ _ _ Hh). }
  apply runs_eq
    with (i := (bytes_literal (EntranceAndOrExit.exit_scene_name d) ++ [Byte.x00])
               ++ pad);
    [|rewrite <- app_assoc; reflexivity].
  apply runs_bind with (a := bytes_literal (EntranceAndOrExit.exit_scene_name d)).
  { apply runs_read_cstring, literal_nul_free. assumption. }
  rewrite decode_ascii_literal by assumption.
  apply runs_bind_pure with (a := EntranceAndOrExit.exit_scene_name d);
    [apply runs_lift|].
  rewrite Hp.
  apply runs_bind_pure with (a := pad); [apply runs_lift|].
  apply runs_bind_last with (a := tt); [apply runs_seek_cur; reflexivity|].
  unfold EntranceAndOrExit.from_bytes.
  rewrite (struct_unpack_pack _ _ _ Hh).
  cbn [EntranceAndOrExit.fmt combine map fst snd as_packed obind].
  destruct d. apply runs_lift.
Qed.

Lemma runs_read_doors :
  forall (drs : list EntranceAndOrExit.t) (chunks : list bytes),
    Forall2 (fun d b => door_fits d = true
                        /\ EntranceAndOrExit.to_bytes d = Ok b) drs chunks ->
    runs (read_doors (Z.of_nat (length drs))) (List.concat chunks) drs.
Proof.
  intros drs chunks H. unfold read_doors. rewrite Nat2Z.id.
  apply runs_repeatM.
  induction H as [|d b ds bs [Hf Hb] _ IH]; constructor; [|assumption].
  apply runs_read_door; assumption.
Qed.

Lemma read_header_packed :
  forall (f : BytesIO) (hdr rest : bytes) (oc dc uc tx ty : Z),
    struct_pack header_fmt [oc; 1; dc; uc; tx; ty] = Ok hdr ->
    getvalue f = (hdr ++ UNDERWORLD_TYPES_TYP) ++ rest ->
    exists f1, read_header f = (Ok (mk_header oc 1 dc uc tx ty), f1)
               /\ getvalue f1 = getvalue f /\ remaining f1 = rest.
Proof.
  intros f hdr rest oc dc uc tx ty Hp Hg. unfold read_header.
  rewrite (bind_Ok _ _ _ _ _ f (mkBytesIO (getvalue f) 0) tt eq_refl).
  assert (R : runs
    (raw <- read 16 ;;
     fields <- lift (struct_unpack header_fmt raw) ;;
     match fields with
     | [oc; us; dc; uc; tx; ty] =>
         if negb (us =? 1) then raise ShantaeCurseEblbParsingError
         else
           magic <- read (length UNDERWORLD_TYPES_TYP) ;;
           if negb (bytes_eqb magic UNDERWORLD_TYPES_TYP)
           then raise ShantaeCurseEblbParsingError
           else ret (mk_header oc us dc uc tx ty)
     | _ => raise StructError
     end) (hdr ++ UNDERWORLD_TYPES_TYP) (mk_header oc 1 dc uc tx ty)).
  { apply runs_bind with (a := hdr).
    { apply runs_read. apply (struct_pack_length _ _ _ Hp). }
    rewrite (struct_unpack_pack _ _ _ Hp).
    cbn [header_fmt combine map fst snd as_packed].
    apply runs_bind_pure with (a := [oc; 1; dc; uc; tx; ty]); [apply runs_lift|].
    cbn [Z.eqb Pos.eqb negb].
    apply runs_bind_last with (a := UNDERWORLD_TYPES_TYP).
    { apply runs_read. reflexivity. }
    replace (bytes_eqb UNDERWORLD_TYPES_TYP UNDERWORLD_TYPES_TYP) with true
      by (symmetry; apply bytes_eqb_eq; reflexivity).
    apply runs_ret. }
  destruct (R (mkBytesIO (getvalue f) 0) rest) as (f1 & E1 & G1 & R1).
  { unfold remaining. cbn [getvalue tell skipn]. assumption. }
  exists f1. repeat split; assumption.
Qed.

(** ** The tile grid *)

Lemma rows_from_concat :
  forall (A : Type) (w : nat) (rows : list (list A)),
    Forall (fun r => length r = w) rows ->
    map (fun k => firstn w (skipn (k * w) (List.concat rows)))
        (seq 0 (length rows)) = rows.
Proof.
  intros A w rows H. induction H as [|r rs Hr _ IH]; [reflexivity|].
  cbn [length seq map List.concat]. f_equal.
  - cbn [Nat.mul skipn]. rewrite firstn_app, <- Hr, Nat.sub_diag, firstn_all.
    cbn [firstn]. apply app_nil_r.
  - rewrite <- seq_shift, map_map. rewrite <- IH at 2.
    apply map_ext. intros k. f_equal.
    replace (S k * w)%nat with (k * w + w)%nat by lia.
    rewrite <- skipn_skipn. f_equal.
    rewrite skipn_app, <- Hr, Nat.sub_diag, skipn_all. reflexivity.
Qed.

Lemma length_concat_rows :
  forall (A : Type) (w : nat) (rows : list (list A)),
    Forall (fun r => length r = w) rows ->
    length (List.concat rows) = (length rows * w)%nat.
Proof.
  intros A w rows H. induction H as [|r rs Hr _ IH]; [reflexivity|].
  cbn [List.concat length]. rewrite length_app, IH, Hr. cbn. lia.
Qed.

Lemma range_step_rows :
  forall h w : nat, (0 < w)%nat ->
    range_step (h * w) w = map (fun k => (k * w)%nat) (seq 0 h).
Proof.
  intros h w Hw. unfold range_step. do 2 f_equal.
  replace (h * w + w - 1)%nat with (h * w + (w - 1))%nat by lia.
  rewrite Nat.div_add_l by lia. rewrite Nat.div_small by lia. lia.
Qed.

Lemma bytes_of_ints_ok :
  forall l, forallb tile_ok l = true ->
    bytes_of_ints l = Ok (map byte.of_Z l).
Proof.
  induction l as [|j l IH]; intros H; [reflexivity|].
  cbn in H. apply andb_prop in H as [Hj Hl].
  unfold bytes_of_ints in *. cbn [mapM map].
  unfold tile_ok in Hj. rewrite Hj, (IH Hl). reflexivity.
Qed.

Lemma unsigned_of_tile :
  forall l, forallb tile_ok l = true ->
    map byte.unsigned (map byte.of_Z l) = l.
Proof.
  induction l as [|j l IH]; intros H; [reflexivity|].
  cbn in H. apply andb_prop in H as [Hj Hl].
  cbn [map]. rewrite (IH Hl). f_equal.
  rewrite byte.unsigned_of_Z. unfold byte.wrap.
  unfold tile_ok in Hj. apply andb_prop in Hj as [H0 H1].
  apply Z.leb_le in H0. apply Z.ltb_lt in H1.
  apply Z.mod_small. change (2 ^ 8) with 256. lia.
Qed.

Lemma unsigned_of_tiles :
  forall rows, forallb (forallb tile_ok) rows = true ->
    map (map byte.unsigned) (map (map byte.of_Z) rows) = rows.
Proof.
  induction rows as [|r rs IH]; intros H; [reflexivity|].
  cbn in H. apply andb_prop in H as [Hr Hrs].
  cbn [map]. rewrite (unsigned_of_tile r Hr), (IH Hrs). reflexivity.
Qed.

Lemma read_tiles_grid :
  forall (rows : list (list Z)) (w : nat) (f : BytesIO),
    (0 < w)%nat ->
    Forall (fun r => length r = w) rows ->
    forallb (forallb tile_ok) rows = true ->
    remaining f = map byte.of_Z (List.concat rows) ->
    exists f1,
      read_tiles (Z.of_nat w) (Z.of_nat (length rows)) f = (Ok rows, f1).
Proof.
  intros rows w f Hw Hrows Hok Hr.
  unfold read_tiles, bind, read_all. rewrite Hr.
  rewrite length_map, (length_concat_rows _ w rows Hrows).
  replace (Z.of_nat (length rows * w) =? Z.of_nat w * Z.of_nat (length rows))
    with true by (symmetry; apply Z.eqb_eq; lia).
  cbn [negb].
  destruct (Z.eqb_spec (Z.of_nat w) 0); [lia|].
  rewrite Nat2Z.id, (range_step_rows _ _ Hw), map_map.
  eexists. unfold ret. f_equal. f_equal.
  rewrite <- (unsigned_of_tiles rows Hok) at 2.
  rewrite <- (rows_from_concat _ w (map (map byte.of_Z) rows)).
  - rewrite map_map, length_map, concat_map.
    apply map_ext. intros k. unfold slice.
    replace (k * w + w - k * w)%nat with w by lia. reflexivity.
  - apply Forall_map. revert Hrows. apply Forall_impl.
    intros r Hl. rewrite length_map. assumption.
Qed.

(** ** Writing *)

Lemma bind_lift :
  forall (S A B : Type) (o : outcome A) (k : A -> M S B) (s : S) (a : A),
    o = Ok a -> bind (lift o) k s = k a s.
Proof. intros * H. subst o. reflexivity. Qed.

Lemma bind_write :
  forall (B : Type) (b : bytes) (k : unit -> M bytes B) (buf : bytes),
    bind (write b) k buf = k tt (buf ++ b).
Proof. reflexivity. Qed.

Lemma forM_write :
  forall (X : Type) (enc : X -> outcome bytes) (xs : list X)
         (chunks : list bytes),
    Forall2 (fun x c => enc x = Ok c) xs chunks ->
    forall buf : bytes,
      forM_ xs (fun x => b <- lift (enc x) ;; write b) buf
      = (Ok tt, buf ++ List.concat chunks).
Proof.
  intros X enc xs chunks H.
  induction H as [|x c xs cs Hx _ IH]; intros buf.
  - cbn. rewrite app_nil_r. reflexivity.
  - cbn [forM_ List.concat].
    rewrite (bind_Ok _ _ _ _ _ buf (buf ++ c) tt).
    + rewrite IH, app_assoc. reflexivity.
    + rewrite (bind_lift _ _ _ _ _ _ _ Hx). reflexivity.
Qed.

Lemma check_eblb_rectangular :
  forall (S : Type) (L : t) (r : list Z) (rows : list (list Z)) (s : S),
    tiles L = r :: rows ->
    Forall (fun row => length row = length r) (r :: rows) ->
    check_eblb L s = (Ok tt, s).
Proof.
  intros S L r rows s E H. rewrite (check_eblb_unfold S L r rows E).
  apply (forM_check_ok r). assumption.
Qed.

(** ** Listings of a set *)

Lemma existsb_eqb_In :
  forall (s : string) (l : list string),
    existsb (String.eqb s) l = true -> In s l.
Proof.
  intros s l H. apply existsb_exists in H as (x & Hin & E).
  apply String.eqb_eq in E. subst. assumption.
Qed.

Lemma distinct_NoDup :
  forall l, distinct l = true -> NoDup l.
Proof.
  induction l as [|s l IH]; intros H; [constructor|].
  cbn in H. apply andb_prop in H as [Hs Hl].
  constructor; [|apply IH; assumption].
  intros Hin. apply negb_true_iff in Hs.
  assert (E : existsb (String.eqb s) l = true).
  { apply existsb_exists. exists s. split; [assumption|apply String.eqb_refl]. }
  congruence.
Qed.

Lemma is_set_listing_spec :
  forall names listing,
    is_set_listing names listing = true ->
    NoDup listing /\ incl names listing /\ incl listing names.
Proof.
  intros names listing H. unfold is_set_listing in H.
  apply andb_prop in H as [H H3]. apply andb_prop in H as [H1 H2].
  split; [|split].
  - apply distinct_NoDup. assumption.
  - intros s Hs. rewrite forallb_forall in H2.
    apply existsb_eqb_In, H2, Hs.
  - intros s Hs. rewrite forallb_forall in H3.
    apply existsb_eqb_In, H3, Hs.
Qed.

Lemma forallb_concat :
  forall (A : Type) (p : A -> bool) (ls : list (list A)),
    forallb (forallb p) ls = true -> forallb p (List.concat ls) = true.
Proof.
  induction ls as [|l ls IH]; intros H; [reflexivity|].
  cbn in H. apply andb_prop in H as [Hl Hls].
  cbn [List.concat]. rewrite forallb_app, Hl, (IH Hls). reflexivity.
Qed.

Lemma objects_encoded :
  forall (types : list string) (objs : list EblbObject.t),
    Z.of_nat (length types) <= 65535 ->
    incl (map EblbObject.underworld_type objs) types ->
    forallb (fun o => object_fits o
                      && ascii_name (EblbObject.underworld_type o)) objs = true ->
    exists chunks,
      Forall2 (fun o b => EblbObject.to_bytes o types = Ok b) objs chunks
      /\ Forall2 (fun o b => length b = 20%nat
                             /\ EblbObject.from_bytes b types = Ok o)
           objs chunks.
Proof.
  intros types objs Hlen. induction objs as [|o os IH]; intros Hin Hf.
  - exists []. split; constructor.
  - cbn in Hf. apply andb_prop in Hf as [Ho Hos].
    apply andb_prop in Ho as [Ho _].
    destruct (object_roundtrip o types Ho) as (b & Eb & Lb & Db);
      [apply Hin; left; reflexivity|assumption|].
    destruct IH as (cs & C1 & C2);
      [intros s Hs; apply Hin; right; assumption|assumption|].
    exists (b :: cs). split; constructor; auto.
Qed.

Lemma doors_encoded :
  forall drs : list EntranceAndOrExit.t,
    forallb door_fits drs = true ->
    exists chunks,
      Forall2 (fun d b => EntranceAndOrExit.to_bytes d = Ok b) drs chunks
      /\ Forall2 (fun d b => door_fits d = true
                             /\ EntranceAndOrExit.to_bytes d = Ok b)
           drs chunks.
Proof.
  induction drs as [|d ds IH]; intros Hf.
  - exists []. split; constructor.
  - cbn in Hf. apply andb_prop in Hf as [Hd Hds].
    destruct (door_to_bytes d Hd) as (head & pad & _ & _ & E).
    destruct (IH Hds) as (cs & C1 & C2).
    eexists (_ :: cs). split; constructor; eauto.
Qed.

(** ** The round trip *)

Lemma fits_le :
  forall c a b, 0 <= a <= b -> fits c b = true -> lo_of c <= 0 -> fits c a = true.
Proof.
  intros c a b Hab Hb Hlo. unfold fits in *.
  apply andb_prop in Hb as [H1 H2].
  apply Z.leb_le in H1. apply Z.leb_le in H2.
  apply andb_true_intro; split; apply Z.leb_le; lia.
Qed.

(** X21. A level encodes, and the bytes decode to the same level
    (objects, doors, camera, tiles), for every order in which the set of type
    names is listed, when it has at least one object, its tiles have at
    least one row and rows of one non-zero width, every tile is a byte
    value, every number fits the code it is packed with, the counts fit
    theirs, and the type and scene names are ASCII without NUL. *)
Theorem decode_encode_roundtrip :
  forall (L : t) (set_order : list string),
    level_fits L = true ->
    is_set_listing (map EblbObject.underworld_type (objects L)) set_order
    = true ->
    exists b, encode set_order L = Ok b /\ decode b = Ok L.
Proof.
  intros [objs drs cx1 cy1 cx2 cy2 tls] order Hfit Hset.
  unfold level_fits in Hfit.
  cbn [objects doors camera_x1 camera_y1 camera_x2 camera_y2 tiles] in Hfit, Hset.
  destruct tls as [|row0 rows]; [rewrite andb_false_r in Hfit; discriminate|].
  apply andb_prop in Hfit as [Hfit HT].
  apply andb_prop in Hfit as [Hfit Hc4].
  apply andb_prop in Hfit as [Hfit Hc3].
  apply andb_prop in Hfit as [Hfit Hc2].
  apply andb_prop in Hfit as [Hfit Hc1].
  apply andb_prop in Hfit as [Hfit Hdrs].
  apply andb_prop in Hfit as [Hfit Hobjs].
  apply andb_prop in Hfit as [Hfit Hnd].
  apply andb_prop in Hfit as [Hne Hno].
  apply andb_prop in HT as [HT Hk].
  apply andb_prop in HT as [HT Hr].
  apply andb_prop in HT as [HT Hh].
  apply andb_prop in HT as [Hn Hw].
  apply is_set_listing_spec in Hset as (Hnodup & Hinc1 & Hinc2).
  (* the table *)
  assert (Horder_ne : order <> []).
  { destruct objs as [|o os]; [discriminate|].
    intros ->. apply (Hinc1 (EblbObject.underworld_type o)). left. reflexivity. }
  assert (Hlen_order : (length order <= length objs)%nat).
  { rewrite <- (length_map EblbObject.underworld_type objs).
    apply NoDup_incl_length; assumption. }
  assert (Hno' : fits c_H (Z.of_nat (length order)) = true).
  { apply (fits_le c_H _ (Z.of_nat (length objs))); [lia|assumption|].
    cbn. lia. }
  assert (Hlen65535 : Z.of_nat (length order) <= 65535).
  { unfold fits in Hno'. apply andb_prop in Hno' as [_ H].
    apply Z.leb_le in H. exact H. }
  assert (Hascii : forallb ascii_name order = true).
  { apply forallb_forall. intros s Hs. apply Hinc2 in Hs.
    apply in_map_iff in Hs as (o & <- & Ho).
    rewrite forallb_forall in Hobjs. specialize (Hobjs o Ho).
    apply andb_prop in Hobjs as [_ H]. exact H. }
  assert (Hascii' : forallb is_ascii ("UNDERWORLD_TYPES_TYP"%string :: order) = true).
  { cbn [forallb]. apply andb_true_intro; split; [reflexivity|].
    apply forallb_forall. intros s Hs. rewrite forallb_forall in Hascii.
    specialize (Hascii s Hs). unfold ascii_name in Hascii.
    apply andb_prop in Hascii as [H _]. exact H. }
  assert (Hascii'' : forallb is_ascii order = true).
  { cbn [forallb] in Hascii'. apply andb_prop in Hascii' as [_ H]. exact H. }
  destruct (get_padding_ascii _ Hascii') as [pad Hpad].
  (* the fixed records *)
  destruct (struct_pack_fits header_fmt
              [Z.of_nat (length objs); 1; Z.of_nat (length drs);
               Z.of_nat (length order); Z.of_nat (length row0);
               Z.of_nat (length (row0 :: rows))]) as [hdr Hhdr].
  { reflexivity. }
  { cbn [header_fmt combine].
    repeat (constructor; [right; first [assumption|reflexivity]|]). constructor. }
  destruct (struct_pack_fits camera_fmt [cx1; cy1; cx2; cy2; 0]) as [cam Hcam].
  { reflexivity. }
  { cbn [camera_fmt combine].
    repeat (constructor; [right; first [assumption|reflexivity]|]). constructor. }
  destruct (objects_encoded order objs Hlen65535 Hinc1 Hobjs)
    as (ochunks & Hoenc & Hodec).
  destruct (doors_encoded drs Hdrs) as (dchunks & Hdenc & Hddec).
  pose proof (bytes_of_ints_ok _ (forallb_concat _ _ _ Hk)) as Htb.
  (* the grid *)
  assert (Hrows : Forall (fun r => length r = length row0) (row0 :: rows)).
  { apply Forall_forall. intros r Hin. rewrite forallb_forall in Hr.
    apply Nat.eqb_eq, Hr, Hin. }
  assert (Hwpos : (0 < length row0)%nat).
  { apply negb_true_iff, Nat.eqb_neq in Hn. lia. }
  set (table := (join [Byte.x00] (map bytes_literal order) ++ [Byte.x00]) ++ pad).
  set (tbytes := map byte.of_Z (List.concat (row0 :: rows))) in *.
  exists ((hdr ++ UNDERWORLD_TYPES_TYP)
            ++ table ++ List.concat ochunks ++ cam ++ List.concat dchunks
            ++ tbytes).
  split.
  - unfold encode, dunder_bytes.
    cbn [objects doors camera_x1 camera_y1 camera_x2 camera_y2 tiles].
    rewrite (bind_Ok _ _ _ _ _ [] [] tt
               (check_eblb_rectangular _
                  (mk objs drs cx1 cy1 cx2 cy2 (row0 :: rows))
                  row0 rows [] eq_refl Hrows)).
    rewrite (bind_Ok bytes unit bytes (fun _ => (Ok tt, [])) _ [] [] tt eq_refl).
    cbv zeta.
    rewrite (bind_lift _ _ _ _ _ _ row0 eq_refl).
    rewrite (bind_lift _ _ _ _ _ _ hdr Hhdr).
    rewrite bind_write.
    rewrite (bind_lift _ _ _ _ _ _ _ (mapM_encode_ascii order Hascii'')).
    rewrite (bind_lift _ _ _ _ _ _ _ magic_name_value).
    rewrite (bind_lift _ _ _ _ _ _ pad Hpad).
    rewrite bind_write.
    rewrite (bind_Ok _ _ _ _ _ _ _ tt (forM_write _ _ _ _ Hoenc _)).
    rewrite (bind_lift _ _ _ _ _ _ cam Hcam).
    rewrite bind_write.
    rewrite (bind_Ok _ _ _ _ _ _ _ tt (forM_write _ _ _ _ Hdenc _)).
    rewrite (bind_lift _ _ _ _ _ _ tbytes Htb).
    rewrite bind_write.
    cbn [fst]. f_equal. unfold write, table. cbn [app].
    repeat rewrite <- app_assoc. reflexivity.
  - unfold decode, from_eblb_file.
    destruct (read_header_packed
                (mkBytesIO ((hdr ++ UNDERWORLD_TYPES_TYP)
                  ++ table ++ List.concat ochunks ++ cam ++ List.concat dchunks
                  ++ tbytes) 0) hdr _ _ _ _ _ _ Hhdr eq_refl)
      as (f1 & E1 & G1 & R1).
    rewrite (bind_Ok _ _ _ _ _ _ _ _ E1).
    cbn [underworld_types_count objects_count doors_count tiles_x tiles_y].
    destruct (runs_read_type_table order pad Horder_ne Hascii Hpad f1 _ R1)
      as (f2 & E2 & G2 & R2).
    rewrite (bind_Ok _ _ _ _ _ _ _ _ E2).
    destruct (runs_read_objects order objs ochunks Hodec f2 _ R2)
      as (f3 & E3 & G3 & R3).
    rewrite (bind_Ok _ _ _ _ _ _ _ _ E3).
    destruct (runs_read_camera cx1 cy1 cx2 cy2 cam Hcam f3 _ R3)
      as (f4 & E4 & G4 & R4).
    rewrite (bind_Ok _ _ _ _ _ _ _ _ E4).
    destruct (runs_read_doors drs dchunks Hddec f4 _ R4)
      as (f5 & E5 & G5 & R5).
    rewrite (bind_Ok _ _ _ _ _ _ _ _ E5).
    destruct (read_tiles_grid (row0 :: rows) (length row0) f5 Hwpos Hrows Hk R5)
      as (f6 & E6).
    rewrite (bind_Ok _ _ _ _ _ _ _ _ E6).
    reflexivity.
Qed.

Lemma is_set_listing_nil :
  forall listing, is_set_listing [] listing = true -> listing = [].
Proof.
  intros [|s l] H; [reflexivity|].
  unfold is_set_listing in H. cbn in H.
  rewrite andb_false_r in H. discriminate.
Qed.

(** Names are written null-terminated: a level with a rectangular grid
    whose one type name is "A" followed by NUL encodes, and the bytes decode
    to a level whose object is of type "A". *)
Lemma roundtrip_changes_name_with_nul :
  @check_eblb bytes nul_named_level [] = (Ok tt, [])
  /\ is_set_listing
       (map EblbObject.underworld_type (objects nul_named_level)) [nul_name]
     = true
  /\ exists b L',
      encode [nul_name] nul_named_level = Ok b
      /\ decode b = Ok L'
      /\ map EblbObject.underworld_type (objects L') = ["A"%string]
      /\ L' <> nul_named_level.
Proof.
  split; [vm_compute; reflexivity|].
  split; [vm_compute; reflexivity|].
  eexists. eexists.
  split; [vm_compute; reflexivity|].
  split; [vm_compute; reflexivity|].
  split; [reflexivity|].
  intros E. apply (f_equal objects) in E. cbn in E. discriminate.
Qed.

(** The encoder writes the table's terminator even for an empty table, a byte
    the decoder does not read: a level without objects does not decode. *)
Example roundtrip_fails_without_objects :
  exists b,
    encode [] (mk [] [] 0 0 0 0 [[1]]) = Ok b
    /\ decode b = Raise ShantaeCurseEblbBadData.
Proof.
  eexists. split; [vm_compute; reflexivity|].
  vm_compute. reflexivity.
Qed.

(** Rows of width 0 are written, and not read back: [range(0, 0, 0)]. *)
Example roundtrip_fails_zero_width :
  exists b,
    encode ["A"%string]
      (mk [EblbObject.mk "A" 0 0 false false 0 0 0 0 0 0] [] 0 0 0 0 [[]])
    = Ok b
    /\ decode b = Raise ValueError.
Proof.
  eexists. split; [vm_compute; reflexivity|].
  vm_compute. reflexivity.
Qed.

Lemma decode_encode_roundtrip_witness :
  exists b, encode ["B"; "A"]%string sample_level = Ok b
            /\ decode b = Ok sample_level.
Proof.
  apply (decode_encode_roundtrip sample_level ["B"; "A"]%string).
  - vm_compute. reflexivity.
  - vm_compute. reflexivity.
Defined.

(** ** The end-to-end example *)

(** C2 (as stated, refuted). The synthetic buffer decodes, and no listing of
    the decoded level's (empty) set of type names re-encodes to it. *)
Lemma synthetic_buffer_not_reproduced :
  decode synthetic_buffer = Ok synthetic_level
  /\ forall set_order,
      is_set_listing
        (map EblbObject.underworld_type (objects synthetic_level)) set_order
      = true ->
      encode set_order synthetic_level <> Ok synthetic_buffer.
Proof.
  split; [vm_compute; reflexivity|].
  intros order H. apply is_set_listing_nil in H. subst order.
  intros E. vm_compute in E. discriminate.
Qed.

(** C2 (amended). The synthetic buffer decodes to a level with tiles
    [[1,2],[3,4]] and camera box ((0,0),(10,10)); re-encoding it succeeds and
    writes a header whose type count is 0, the table being rebuilt from the
    objects, so the output is not the input buffer. *)
Theorem synthetic_buffer_decodes :
  decode synthetic_buffer = Ok synthetic_level
  /\ tiles synthetic_level = [[1; 2]; [3; 4]]
  /\ camera_bbox synthetic_level None = ((0, 0), (10, 10))
  /\ forall set_order,
      is_set_listing
        (map EblbObject.underworld_type (objects synthetic_level)) set_order
      = true ->
      exists b,
        encode set_order synthetic_level = Ok b
        /\ struct_unpack header_fmt (firstn 16 b) = Ok [0; 1; 0; 0; 2; 2]
        /\ b <> synthetic_buffer.
Proof.
  split; [vm_compute; reflexivity|].
  split; [reflexivity|].
  split; [reflexivity|].
  intros order H. apply is_set_listing_nil in H. subst order.
  eexists. split; [vm_compute; reflexivity|].
  split; [vm_compute; reflexivity|].
  intros E. vm_compute in E. discriminate.
Qed.

Lemma synthetic_buffer_decodes_witness :
  exists b,
    encode [] synthetic_level = Ok b
    /\ struct_unpack header_fmt (firstn 16 b) = Ok [0; 1; 0; 0; 2; 2]
    /\ b <> synthetic_buffer.
Proof.
  destruct synthetic_buffer_decodes as (_ & _ & _ & H).
  apply (H []). vm_compute. reflexivity.
Defined.

(** * Further properties *)

(** ** The rectangularity check, in full *)

Lemma forM_check_decides :
  forall (S : Type) (row0 : list Z) (rows : list (list Z)) (s : S),
    forM_ rows
      (fun row => if negb (length row =? length row0)%nat
                  then raise ShantaeCurseEblbBadData else ret tt) s
    = (if forallb (fun row => (length row =? length row0)%nat) rows
       then Ok tt else Raise ShantaeCurseEblbBadData, s).
Proof.
  intros S row0 rows s. induction rows as [|r rows IH]; [reflexivity|].
  cbn [forM_ forallb]. unfold bind at 1.
  destruct (length r =? length row0)%nat; cbn; [exact IH|reflexivity].
Qed.

(** X1. [check_eblb] returns exactly when every row is as long as row 0 (so
    also for no rows and for rows of width 0), and otherwise raises the
    bad-data error; it raises nothing else and touches no state. *)
Theorem check_eblb_decides_rectangular :
  forall (S : Type) (L : t) (s : S),
    check_eblb L s
    = (if forallb (fun row => (length row =? length (hd [] (tiles L)))%nat)
            (tiles L)
       then Ok tt else Raise ShantaeCurseEblbBadData, s).
Proof.
  intros S L s. destruct (tiles L) as [|r rows] eqn:E.
  - unfold check_eblb. rewrite E. reflexivity.
  - rewrite (check_eblb_unfold S L r rows E). apply forM_check_decides.
Qed.

(** ** Padding of text that is not ASCII *)

Lemma encode_ascii_not_ascii :
  forall s, is_ascii s = false -> encode_ascii s = Raise UnicodeEncodeError.
Proof.
  induction s as [|c s IH]; intros H; [discriminate|].
  unfold is_ascii in H. cbn in H. cbn [encode_ascii].
  destruct (N_of_ascii c <? 128)%N; [|reflexivity].
  cbn in H. rewrite (IH H). reflexivity.
Qed.

Lemma mapM_encode_not_ascii :
  forall strings, forallb is_ascii strings = false ->
    mapM encode_ascii strings = Raise UnicodeEncodeError.
Proof.
  induction strings as [|s l IH]; intros H; [discriminate|].
  cbn in H. cbn [mapM].
  destruct (is_ascii s) eqn:Hs.
  - rewrite (encode_ascii_literal s Hs). cbn in H |- *. rewrite (IH H). reflexivity.
  - rewrite (encode_ascii_not_ascii s Hs). reflexivity.
Qed.

(** X2. [get_padding] raises [UnicodeEncodeError] as soon as one of the
    strings holds a character outside ASCII; with C6 this decides its
    outcome for every list of strings. *)
Theorem get_padding_rejects_non_ascii :
  forall strings : list string,
    forallb is_ascii strings = false ->
    get_padding strings = Raise UnicodeEncodeError.
Proof.
  intros strings H. unfold get_padding.
  rewrite (mapM_encode_not_ascii strings H). reflexivity.
Qed.

Lemma get_padding_rejects_non_ascii_witness :
  get_padding ["A"%string; String (ascii_of_nat 233) EmptyString]
  = Raise UnicodeEncodeError.
Proof.
  apply get_padding_rejects_non_ascii. vm_compute. reflexivity.
Defined.

(** ** Object boxes *)

(** X3. An object's box is 16 wide and 32 high.  Without an image size its
    first y is the larger one (y + 32, then y); with an image size both are
    reflected in the image height, which puts the smaller first, and the x
    coordinates are the same. *)
Theorem object_bbox_shape :
  forall (o : EblbObject.t) (sz : Z * Z),
    let '(xa, ya, xb, yb) := EblbObject.bbox o None in
    let '(xa', ya', xb', yb') := EblbObject.bbox o (Some sz) in
    xa = EblbObject.x_location o /\ xb - xa = 16 /\ ya - yb = 32
    /\ yb = EblbObject.y_location o
    /\ xa' = xa /\ xb' = xb
    /\ ya' = snd sz - ya /\ yb' = snd sz - yb /\ yb' - ya' = 32.
Proof.
  intros o sz. unfold EblbObject.bbox, EblbObject.X_LENGTH, EblbObject.Y_LENGTH.
  repeat split; lia.
Qed.

(** ** Object records, both directions *)

(** X4. An object whose fields fit their codes and whose type name is in the
    table (a table of at most 65535 names, duplicates allowed) is written as
    a 20-byte record that passes the decoder's checks and decodes, under the
    same table, to the object. *)
Theorem object_record_roundtrip :
  forall (o : EblbObject.t) (types : list string),
    object_fits o = true ->
    In (EblbObject.underworld_type o) types ->
    Z.of_nat (length types) <= 65535 ->
    exists b,
      EblbObject.to_bytes o types = Ok b
      /\ length b = 20%nat
      /\ passes_checks b = true
      /\ EblbObject.from_bytes b types = Ok o.
Proof.
  intros o types Hf Hin Hlen.
  destruct (object_roundtrip o types Hf Hin Hlen) as (b & E & L & D).
  exists b. repeat split; try assumption.
  destruct (passes_checks b) eqn:Hc; [reflexivity|].
  destruct (from_bytes_unchecked b types Hc) as (e & E' & _). congruence.
Qed.

Lemma object_record_roundtrip_witness :
  exists b,
    EblbObject.to_bytes
      (EblbObject.mk "B" (-3) 5 true false 1 2 3 255 (-1) 4294967295)
      ["A"; "B"; "B"]%string = Ok b
    /\ length b = 20%nat
    /\ passes_checks b = true
    /\ EblbObject.from_bytes b ["A"; "B"; "B"]%string
       = Ok (EblbObject.mk "B" (-3) 5 true false 1 2 3 255 (-1) 4294967295).
Proof.
  apply object_record_roundtrip.
  - vm_compute. reflexivity.
  - simpl. right. left. reflexivity.
  - simpl. lia.
Defined.

Lemma index_absent :
  forall x l, ~ In x l -> index x l = Raise ValueError.
Proof.
  induction l as [|y l IH]; intros H; [reflexivity|].
  cbn [index]. destruct (String.eqb_spec y x) as [->|Hne].
  - exfalso. apply H. left. reflexivity.
  - rewrite IH; [reflexivity|]. intros Hin. apply H. right. assumption.
Qed.

Lemma struct_pack_unfit :
  forall f args,
    forallb (fun cv => match fst cv with
                       | c_bool => true
                       | c => fits c (snd cv)
                       end) (combine f args) = false ->
    struct_pack f args = Raise StructError.
Proof.
  induction f as [|c f IH]; intros [|v args] H; try reflexivity;
    try discriminate.
  cbn [combine forallb fst snd] in H. cbn [struct_pack].
  unfold pack_one. unfold fits in H.
  destruct c;
    try (destruct ((lo_of _ <=? v) && (v <=? hi_of _));
         cbn [andb] in H; [rewrite (IH args H)|]; reflexivity).
  cbn [andb] in H. rewrite (IH args H). reflexivity.
Qed.

(** X5. What [to_bytes] raises: [ValueError] when the object's type name is
    not in the table, whatever its fields; [struct.error] when the name is in
    the table and the 1-based index or one of the numeric fields is out of
    the range of its code. *)
Theorem to_bytes_errors :
  (forall o types,
      ~ In (EblbObject.underworld_type o) types ->
      EblbObject.to_bytes o types = Raise ValueError)
  /\ (forall o types k,
         index (EblbObject.underworld_type o) types = Ok k ->
         fits c_H (Z.of_nat k + 1) && object_fits o = false ->
         EblbObject.to_bytes o types = Raise StructError).
Proof.
  split.
  - intros o types H. unfold EblbObject.to_bytes.
    rewrite (index_absent _ _ H). reflexivity.
  - intros [ty x y b6 b7 c8 c9 ca cb sc ie] types k Ek H.
    unfold EblbObject.to_bytes. rewrite Ek. cbn [obind].
    apply struct_pack_unfit.
    unfold object_fits in H.
    cbn [EblbObject.x_location EblbObject.y_location EblbObject.unknown_bool6
         EblbObject.unknown_bool7 EblbObject.unknown_char8
         EblbObject.unknown_char9 EblbObject.unknown_chara
         EblbObject.unknown_charb EblbObject.unknown_shortc
         EblbObject.unknown_inte EblbObject.fmt combine forallb fst snd]
      in H |- *.
    destruct (fits c_H (Z.of_nat k + 1)), (fits c_h x), (fits c_h y),
      (fits c_B c8), (fits c_B c9), (fits c_B ca), (fits c_B cb),
      (fits c_h sc), (fits c_I ie); cbn in H |- *;
      first [reflexivity|discriminate].
Qed.

Lemma to_bytes_errors_witness :
  EblbObject.to_bytes (EblbObject.mk "C" 0 0 false false 0 0 0 0 0 0)
    ["A"; "B"]%string = Raise ValueError
  /\ EblbObject.to_bytes (EblbObject.mk "B" 40000 0 false false 0 0 0 0 0 0)
       ["A"; "B"]%string = Raise StructError.
Proof.
  destruct to_bytes_errors as (H1 & H2). split.
  - apply H1. simpl. intros [H|[H|H]]; [discriminate|discriminate|exact H].
  - apply (H2 _ _ 1%nat); vm_compute; reflexivity.
Defined.

Lemma getitem_outcome :
  forall (A : Type) (l : list A) (i : Z),
    (- Z.of_nat (length l) <= i < Z.of_nat (length l) ->
     exists a, getitem l i = Ok a)
    /\ (~ (- Z.of_nat (length l) <= i < Z.of_nat (length l)) ->
        getitem l i = Raise IndexError).
Proof.
  intros A l i. unfold getitem. split; intros H.
  - destruct (Z.ltb_spec i 0).
    + destruct (Z.leb_spec 0 (i + Z.of_nat (length l))); [|lia].
      destruct (Z.ltb_spec (i + Z.of_nat (length l)) (Z.of_nat (length l)));
        [|lia].
      cbn [andb].
      destruct (nth_error l (Z.to_nat (i + Z.of_nat (length l)))) eqn:E;
        [eauto|]. apply nth_error_None in E. lia.
    + destruct (Z.leb_spec 0 i); [|lia].
      destruct (Z.ltb_spec i (Z.of_nat (length l))); [|lia].
      cbn [andb].
      destruct (nth_error l (Z.to_nat i)) eqn:E; [eauto|].
      apply nth_error_None in E. lia.
  - destruct (Z.ltb_spec i 0).
    + destruct (Z.leb_spec 0 (i + Z.of_nat (length l))); [|reflexivity].
      destruct (Z.ltb_spec (i + Z.of_nat (length l)) (Z.of_nat (length l)));
        [lia|reflexivity].
    + destruct (Z.leb_spec 0 i); [|lia].
      destruct (Z.ltb_spec i (Z.of_nat (length l))); [lia|reflexivity].
Qed.

Lemma stored_index_nonneg : forall entry, 0 <= stored_index entry.
Proof. intros entry. apply le_combine_bound. Qed.

(** X6. [from_bytes] returns an object exactly for the records that pass its
    length, boolean and padding checks and store an index from 0 to the
    length of a non-empty table.  A record that passes the checks with any
    other index, or with an empty table, raises [IndexError], which is not a
    [ShantaeCurseEblbParsingError]. *)
Theorem from_bytes_succeeds_iff :
  forall (entry : bytes) (types : list string),
    ((exists o, EblbObject.from_bytes entry types = Ok o)
     <-> passes_checks entry = true
         /\ stored_index entry <= Z.of_nat (length types)
         /\ types <> [])
    /\ (passes_checks entry = true ->
        ~ (stored_index entry <= Z.of_nat (length types) /\ types <> []) ->
        EblbObject.from_bytes entry types = Raise IndexError)
    /\ is_parsing_error IndexError = false.
Proof.
  intros entry types.
  pose proof (stored_index_nonneg entry) as Hnn.
  assert (Hrange :
    (stored_index entry <= Z.of_nat (length types) /\ types <> [])
    <-> - Z.of_nat (length types) <= stored_index entry - 1
        < Z.of_nat (length types)).
  { destruct types as [|t0 ts]; cbn [length]; split.
    - intros [_ H]. contradiction.
    - lia.
    - intros [H _]. lia.
    - intros H. split; [lia|discriminate]. }
  destruct (getitem_outcome _ types (stored_index entry - 1)) as [Gok Gbad].
  split; [|split; [|reflexivity]].
  - split.
    + intros [o H]. destruct (passes_checks entry) eqn:Hc.
      * split; [reflexivity|]. apply Hrange.
        destruct (from_bytes_checked entry Hc)
          as (x & y & b6 & b7 & c8 & c9 & ca & cb & sc & ie & _ & _ & E).
        rewrite E in H.
        destruct (Z_le_dec (- Z.of_nat (length types)) (stored_index entry - 1));
          [destruct (Z_lt_dec (stored_index entry - 1)
                      (Z.of_nat (length types)))|].
        { lia. }
        { rewrite Gbad in H by lia. discriminate. }
        rewrite Gbad in H by lia. discriminate.
      * destruct (from_bytes_unchecked entry types Hc) as (e & E & _).
        congruence.
    + intros (Hc & Hi).
      destruct (from_bytes_checked entry Hc)
        as (x & y & b6 & b7 & c8 & c9 & ca & cb & sc & ie & _ & _ & E).
      rewrite E. destruct Gok as [a Ea]; [apply Hrange; exact Hi|].
      rewrite Ea. cbn. eauto.
  - intros Hc Hn.
    destruct (from_bytes_checked entry Hc)
      as (x & y & b6 & b7 & c8 & c9 & ca & cb & sc & ie & _ & _ & E).
    rewrite E, Gbad; [reflexivity|]. intros H. apply Hn, Hrange, H.
Qed.

Lemma from_bytes_succeeds_iff_witness :
  (exists o, EblbObject.from_bytes (repeat Byte.x00 20) ["A"; "B"]%string
             = Ok o)
  /\ EblbObject.from_bytes (repeat Byte.x00 20) [] = Raise IndexError.
Proof.
  split.
  - apply (proj1 (from_bytes_succeeds_iff (repeat Byte.x00 20)
                    ["A"; "B"]%string)).
    split; [reflexivity|]. split; [vm_compute; discriminate|discriminate].
  - apply (proj1 (proj2 (from_bytes_succeeds_iff (repeat Byte.x00 20) []))).
    + reflexivity.
    + intros [_ H]. apply H. reflexivity.
Defined.

Lemma pack_unpack_one :
  forall c b, length b = size_of c -> c <> c_bool ->
    pack_one c (unpack_one c b) = Ok b.
Proof.
  intros c b Hlen Hc.
  pose proof (unpack_one_range c b Hlen Hc) as [Hlo Hhi].
  rewrite pack_one_fits; [|unfold fits; apply andb_true_intro; split;
                           apply Z.leb_le; assumption|assumption].
  f_equal. rewrite le_split_mod.
  pose proof (le_combine_bound b) as Hb. rewrite Hlen in Hb.
  assert (E : unpack_one c b mod 2 ^ (Z.of_nat (size_of c) * 8)
              = le_combine b).
  { unfold unpack_one.
    destruct c; try contradiction; cbn in Hb |- *.
    - apply Z.mod_small; lia.
    - destruct (Z.ltb_spec 32767 (le_combine b)).
      + rewrite mod_of_negative; lia.
      + apply Z.mod_small; lia.
    - apply Z.mod_small; lia.
    - destruct (Z.ltb_spec 2147483647 (le_combine b)).
      + rewrite mod_of_negative; lia.
      + apply Z.mod_small; lia.
    - apply Z.mod_small; lia. }
  rewrite E, <- Hlen. apply split_le_combine.
Qed.

Lemma index_nth_NoDup :
  forall (types : list string) (k : nat) (x : string),
    NoDup types -> nth_error types k = Some x -> index x types = Ok k.
Proof.
  induction types as [|y l IH]; intros k x Hnd Hn.
  - destruct k; discriminate.
  - inversion Hnd as [|? ? Hnotin Hnd']; subst.
    destruct k as [|k]; cbn in Hn.
    + inversion Hn; subst. cbn [index]. rewrite String.eqb_refl. reflexivity.
    + cbn [index]. destruct (String.eqb_spec y x) as [->|Hne].
      * exfalso. apply Hnotin. eapply nth_error_In; eassumption.
      * rewrite (IH k x Hnd' Hn). reflexivity.
Qed.

Lemma bool_byte :
  forall b : byte,
    (byte.unsigned b =? 0) || (byte.unsigned b =? 1) = true ->
    pack_one c_bool (Z.b2z (negb (unpack_one c_bool [b] =? 0))) = Ok [b].
Proof.
  intros b H. apply orb_prop in H.
  destruct H as [H|H]; apply Z.eqb_eq in H.
  - replace b with Byte.x00 by (apply byte.unsigned_inj; rewrite H; reflexivity).
    reflexivity.
  - replace b with Byte.x01 by (apply byte.unsigned_inj; rewrite H; reflexivity).
    reflexivity.
Qed.

(** X7. Over a table without repeated names, [to_bytes] undoes [from_bytes]
    on every record that stores an index of at least 1: the object decoded
    from the 20 bytes is encoded to the same 20 bytes. *)
Theorem record_bytes_roundtrip :
  forall (entry : bytes) (types : list string) (o : EblbObject.t),
    NoDup types ->
    EblbObject.from_bytes entry types = Ok o ->
    1 <= stored_index entry ->
    EblbObject.to_bytes o types = Ok entry.
Proof.
  intros entry types o Hnd Hfrom Hidx.
  destruct (passes_checks entry) eqn:Hc;
    [|destruct (from_bytes_unchecked entry types Hc) as (e & E & _);
      congruence].
  unfold passes_checks in Hc.
  apply andb_prop in Hc as [Hc H4]. apply andb_prop in Hc as [Hc H3].
  apply andb_prop in Hc as [H1 H2].
  pose proof H1 as Hlen. apply Nat.eqb_eq in Hlen.
  do 20 (destruct entry as [|? entry]; [discriminate Hlen|]).
  destruct entry; [|discriminate Hlen]. clear Hlen.
  unfold EblbObject.from_bytes, struct_unpack in Hfrom.
  rewrite H1, H2, H3, H4 in Hfrom. cbn [negb] in Hfrom.
  change (calcsize EblbObject.fmt) with 20%nat in Hfrom.
  rewrite H1 in Hfrom.
  unfold EblbObject.fmt in Hfrom.
  cbn [obind unpack_fields size_of firstn skipn] in Hfrom.
  unfold stored_index in Hidx. cbn [firstn] in Hidx.
  change (unpack_one c_H [b; b0]) with (le_combine [b; b0]) in Hfrom.
  destruct (getitem_in_range _ types (le_combine [b; b0] - 1))
    as (ty & Eg & En).
  { split; [lia|].
    destruct (Z.ltb_spec (le_combine [b; b0] - 1) (Z.of_nat (length types)));
      [assumption|].
    exfalso. revert Hfrom. unfold getitem.
    destruct (Z.ltb_spec (le_combine [b; b0] - 1) 0); [lia|].
    destruct (Z.ltb_spec (le_combine [b; b0] - 1) (Z.of_nat (length types)));
      [lia|].
    rewrite andb_false_r. discriminate. }
  rewrite Eg in Hfrom. cbn [obind] in Hfrom.
  injection Hfrom as Ho. subst o.
  unfold EblbObject.to_bytes.
  cbn [EblbObject.underworld_type EblbObject.x_location
       EblbObject.y_location EblbObject.unknown_bool6
       EblbObject.unknown_bool7 EblbObject.unknown_char8
       EblbObject.unknown_char9 EblbObject.unknown_chara
       EblbObject.unknown_charb EblbObject.unknown_shortc
       EblbObject.unknown_inte].
  rewrite (index_nth_NoDup types _ ty Hnd En). cbn [obind].
  replace (Z.of_nat (Z.to_nat (le_combine [b; b0] - 1)) + 1)
    with (unpack_one c_H [b; b0])
    by (change (unpack_one c_H [b; b0]) with (le_combine [b; b0]); lia).
  unfold EblbObject.byte_at in H2, H3, H4. cbn [nth] in H2, H3, H4.
  assert (Hpad : b17 = Byte.x00 /\ b18 = Byte.x00).
  { apply Z.eqb_eq in H4.
    pose proof (byte.unsigned_range b17). pose proof (byte.unsigned_range b18).
    split; apply byte.unsigned_inj;
      change (byte.unsigned Byte.x00) with 0; lia. }
  destruct Hpad as [-> ->].
  assert (E : struct_pack EblbObject.fmt
                [unpack_one c_H [b; b0]; unpack_one c_h [b1; b2];
                 unpack_one c_h [b3; b4];
                 Z.b2z (negb (unpack_one c_bool [b5] =? 0));
                 Z.b2z (negb (unpack_one c_bool [b6] =? 0));
                 unpack_one c_B [b7]; unpack_one c_B [b8];
                 unpack_one c_B [b9]; unpack_one c_B [b10];
                 unpack_one c_h [b11; b12];
                 unpack_one c_I [b13; b14; b15; b16]; 0; 0]
              = Ok [b; b0; b1; b2; b3; b4; b5; b6; b7; b8; b9; b10; b11; b12;
                    b13; b14; b15; b16; Byte.x00; Byte.x00]).
  { unfold EblbObject.fmt. cbn [struct_pack].
    rewrite !pack_unpack_one by (reflexivity || discriminate).
    rewrite !bool_byte by assumption.
    reflexivity. }
  exact E.
Qed.

Lemma record_bytes_roundtrip_witness :
  let entry := le_split 2 2 ++ le_split 2 (-3) ++ le_split 2 7
               ++ [Byte.x01; Byte.x00; Byte.x05; Byte.x06; Byte.x07; Byte.xff]
               ++ le_split 2 (-1) ++ le_split 4 4000000000
               ++ [Byte.x00; Byte.x00] in
  exists o, EblbObject.from_bytes entry ["A"; "B"]%string = Ok o
            /\ EblbObject.to_bytes o ["A"; "B"]%string = Ok entry.
Proof.
  intros entry. eexists. split; [vm_compute; reflexivity|].
  apply (record_bytes_roundtrip entry ["A"; "B"]%string).
  - repeat constructor; cbn; intuition discriminate.
  - vm_compute. reflexivity.
  - vm_compute. discriminate.
Defined.

Lemma unpack_one_fits :
  forall c b, length b = size_of c -> c <> c_bool ->
    fits c (unpack_one c b) = true.
Proof.
  intros c b Hl Hc. destruct (unpack_one_range c b Hl Hc).
  unfold fits. apply andb_true_intro. split; apply Z.leb_le; assumption.
Qed.

(** X8. [EntranceAndOrExit.from_bytes] checks nothing but the length: every
    28-byte record decodes, to a door whose eight numbers are in the ranges
    of their codes and whose scene name is the argument as given; a record
    of any other length raises [struct.error]. *)
Theorem door_from_bytes_any_28 :
  forall (entry : bytes) (exit_name : string),
    (length entry = 28%nat ->
     exists d, EntranceAndOrExit.from_bytes entry exit_name = Ok d
               /\ EntranceAndOrExit.exit_scene_name d = exit_name
               /\ door_numbers_fit d = true)
    /\ (length entry <> 28%nat ->
        EntranceAndOrExit.from_bytes entry exit_name = Raise StructError).
Proof.
  intros entry exit_name. unfold EntranceAndOrExit.from_bytes, struct_unpack.
  change (calcsize EntranceAndOrExit.fmt) with 28%nat.
  split; intros H.
  - rewrite H. cbn [Nat.eqb obind].
    unfold EntranceAndOrExit.fmt. cbn [unpack_fields].
    eexists. split; [reflexivity|]. split; [reflexivity|].
    unfold door_numbers_fit.
    cbn [EntranceAndOrExit.x1 EntranceAndOrExit.y1 EntranceAndOrExit.x2
         EntranceAndOrExit.y2 EntranceAndOrExit.entrance_id
         EntranceAndOrExit.exit_type_id EntranceAndOrExit.exit_location_id
         EntranceAndOrExit.entrance_type_id].
    rewrite !unpack_one_fits;
      try discriminate; try reflexivity;
      rewrite length_firstn, ?length_skipn, H; reflexivity.
  - apply Nat.eqb_neq in H. rewrite H. reflexivity.
Qed.

Lemma door_from_bytes_any_28_witness :
  (exists d, EntranceAndOrExit.from_bytes (repeat Byte.xff 28) "x" = Ok d
             /\ EntranceAndOrExit.exit_scene_name d = "x"%string
             /\ door_numbers_fit d = true)
  /\ EntranceAndOrExit.from_bytes (repeat Byte.xff 27) "x"
     = Raise StructError.
Proof.
  split.
  - apply (proj1 (door_from_bytes_any_28 (repeat Byte.xff 28) "x")).
    reflexivity.
  - apply (proj2 (door_from_bytes_any_28 (repeat Byte.xff 27) "x")).
    discriminate.
Defined.

Lemma get_padding_one :
  forall s pad, is_ascii s = true -> get_padding [s] = Ok pad ->
    ((String.length s + 1 + length pad) mod 4 = 0)%nat
    /\ (length pad <= 3)%nat.
Proof.
  intros s pad Hs H. unfold get_padding in H.
  cbn [mapM] in H. rewrite (encode_ascii_literal s Hs) in H.
  cbn [obind join] in H.
  rewrite length_app, length_bytes_literal in H. cbn [length] in H.
  set (n := (String.length s + 1)%nat) in *.
  pose proof (Nat.mod_upper_bound n 4 ltac:(lia)) as Hb.
  pose proof (Nat.div_mod_eq n 4) as Hd.
  destruct (Nat.eqb_spec (n mod 4) 0) as [E|E].
  - assert (pad = []) by congruence. subst pad.
    cbn [length]. rewrite Nat.add_0_r. split; [exact E|lia].
  - assert (pad = repeat Byte.x00 (4 - n mod 4)) by congruence. subst pad.
    rewrite repeat_length. split; [|lia].
    replace (n + (4 - n mod 4))%nat with (0 + (n / 4 + 1) * 4)%nat by lia.
    rewrite Nat.Div0.mod_add. reflexivity.
Qed.

(** X9. A door that fits is written as a record whose length is a multiple
    of 4: 28 bytes of numbers that decode back to the door under its scene
    name, then the name, a NUL and at most 3 bytes of padding. *)
Theorem door_record_aligned :
  forall d : EntranceAndOrExit.t,
    door_fits d = true ->
    exists b,
      EntranceAndOrExit.to_bytes d = Ok b
      /\ (length b mod 4 = 0)%nat
      /\ (29 + String.length (EntranceAndOrExit.exit_scene_name d)
          <= length b
          <= 32 + String.length (EntranceAndOrExit.exit_scene_name d))%nat
      /\ EntranceAndOrExit.from_bytes (firstn 28 b)
           (EntranceAndOrExit.exit_scene_name d) = Ok d
      /\ firstn (String.length (EntranceAndOrExit.exit_scene_name d) + 1)
           (skipn 28 b)
         = bytes_literal (EntranceAndOrExit.exit_scene_name d) ++ [Byte.x00].
Proof.
  intros d Hf.
  destruct (door_to_bytes d Hf) as (head & pad & Hh & Hp & E).
  pose proof (struct_pack_length _ _ _ Hh) as Hl.
  change (calcsize EntranceAndOrExit.fmt) with 28%nat in Hl.
  assert (Ha : is_ascii (EntranceAndOrExit.exit_scene_name d) = true).
  { unfold door_fits, ascii_name in Hf. split_andb. assumption. }
  destruct (get_padding_one _ _ Ha Hp) as [Hm Hp3].
  exists (head ++ bytes_literal (EntranceAndOrExit.exit_scene_name d)
            ++ [Byte.x00] ++ pad).
  split; [exact E|].
  rewrite !length_app, length_bytes_literal, Hl. cbn [length].
  split; [|split; [lia|split]].
  - replace (28 + (String.length (EntranceAndOrExit.exit_scene_name d)
                   + (1 + length pad)))%nat
      with ((String.length (EntranceAndOrExit.exit_scene_name d) + 1
             + length pad) + 7 * 4)%nat by lia.
    rewrite Nat.Div0.mod_add. exact Hm.
  - rewrite firstn_app, <- Hl, firstn_all, Nat.sub_diag. cbn [firstn].
    rewrite app_nil_r.
    unfold EntranceAndOrExit.from_bytes.
    rewrite (struct_unpack_pack _ _ _ Hh).
    cbn [EntranceAndOrExit.fmt combine map fst snd as_packed obind].
    destruct d. reflexivity.
  - rewrite skipn_app, <- Hl, skipn_all, Nat.sub_diag. cbn [skipn app].
    change (bytes_literal (EntranceAndOrExit.exit_scene_name d)
              ++ Byte.x00 :: pad)
      with (bytes_literal (EntranceAndOrExit.exit_scene_name d)
              ++ [Byte.x00] ++ pad).
    rewrite app_assoc.
    rewrite firstn_app.
    rewrite length_app, length_bytes_literal. cbn [length].
    rewrite Nat.sub_diag. cbn [firstn]. rewrite app_nil_r.
    apply firstn_all2. rewrite length_app, length_bytes_literal. cbn. lia.
Qed.

Lemma door_record_aligned_witness :
  exists b,
    EntranceAndOrExit.to_bytes
      (EntranceAndOrExit.mk 10 20 30 40 1 2 3 4 "ab") = Ok b
    /\ (length b mod 4 = 0)%nat
    /\ (29 + 2 <= length b <= 32 + 2)%nat
    /\ EntranceAndOrExit.from_bytes (firstn 28 b) "ab"
       = Ok (EntranceAndOrExit.mk 10 20 30 40 1 2 3 4 "ab")
    /\ firstn (2 + 1) (skipn 28 b) = bytes_literal "ab" ++ [Byte.x00].
Proof.
  apply (door_record_aligned (EntranceAndOrExit.mk 10 20 30 40 1 2 3 4 "ab")).
  reflexivity.
Defined.

(** X10. [EntranceAndOrExit.to_bytes] packs the numbers before it encodes
    the name: a number outside its code's range raises [struct.error]
    whatever the name is, and with all numbers in range a scene name that is
    not ASCII raises [UnicodeEncodeError]. *)
Theorem door_to_bytes_errors :
  forall d : EntranceAndOrExit.t,
    (door_numbers_fit d = false ->
     EntranceAndOrExit.to_bytes d = Raise StructError)
    /\ (door_numbers_fit d = true ->
        is_ascii (EntranceAndOrExit.exit_scene_name d) = false ->
        EntranceAndOrExit.to_bytes d = Raise UnicodeEncodeError).
Proof.
  intros d. unfold EntranceAndOrExit.to_bytes. split.
  - intros H. rewrite struct_pack_unfit; [reflexivity|].
    unfold EntranceAndOrExit.fmt. cbn [combine forallb fst snd].
    unfold door_numbers_fit in H. rewrite andb_true_r, !andb_assoc.
    exact H.
  - intros H Ha.
    destruct (struct_pack_fits EntranceAndOrExit.fmt
                [EntranceAndOrExit.x1 d; EntranceAndOrExit.y1 d;
                 EntranceAndOrExit.x2 d; EntranceAndOrExit.y2 d;
                 EntranceAndOrExit.entrance_id d;
                 EntranceAndOrExit.exit_type_id d;
                 EntranceAndOrExit.exit_location_id d;
                 EntranceAndOrExit.entrance_type_id d]) as [head Hh].
    { reflexivity. }
    { unfold door_numbers_fit in H. split_andb.
      cbn [EntranceAndOrExit.fmt combine].
      repeat (constructor; [right; assumption|]). constructor. }
    rewrite Hh. cbn [obind].
    rewrite (encode_ascii_not_ascii _ Ha). reflexivity.
Qed.

Lemma door_to_bytes_errors_witness :
  EntranceAndOrExit.to_bytes
    (EntranceAndOrExit.mk 0 0 0 0 0 (-1) 0 0
       (String (ascii_of_nat 233) EmptyString)) = Raise StructError
  /\ EntranceAndOrExit.to_bytes
       (EntranceAndOrExit.mk 0 0 0 0 0 0 0 0
          (String (ascii_of_nat 233) EmptyString)) = Raise UnicodeEncodeError.
Proof.
  split.
  - apply (proj1 (door_to_bytes_errors _)). reflexivity.
  - apply (proj2 (door_to_bytes_errors _)); reflexivity.
Defined.

(** ** The reader and its file *)

Lemma keeps_lift : forall A (o : outcome A), keeps_contents (lift o).
Proof. intros A o f. reflexivity. Qed.

Lemma keeps_ret : forall A (a : A), keeps_contents (ret a).
Proof. intros A a f. reflexivity. Qed.

Lemma keeps_raise : forall A e, keeps_contents (@raise BytesIO A e).
Proof. intros A e f. reflexivity. Qed.

Lemma keeps_read : forall n, keeps_contents (read n).
Proof. intros n f. reflexivity. Qed.

Lemma keeps_read_all : keeps_contents read_all.
Proof. intros f. reflexivity. Qed.

Lemma keeps_seek : forall n, keeps_contents (seek n).
Proof. intros n f. reflexivity. Qed.

Lemma keeps_seek_cur : forall n, keeps_contents (seek_cur n).
Proof. intros n f. reflexivity. Qed.

Lemma keeps_bind :
  forall A B (m : M BytesIO A) (k : A -> M BytesIO B),
    keeps_contents m -> (forall a, keeps_contents (k a)) ->
    keeps_contents (bind m k).
Proof.
  intros A B m k Hm Hk f. unfold bind. specialize (Hm f).
  destruct (m f) as [[a|e|] f1]; cbn [snd] in *; [|assumption|assumption].
  rewrite (Hk a f1). assumption.
Qed.

Lemma keeps_repeatM :
  forall A (body : M BytesIO A) n,
    keeps_contents body -> keeps_contents (repeatM n body).
Proof.
  intros A body n Hb. induction n as [|n IH]; cbn [repeatM].
  - apply keeps_ret.
  - apply keeps_bind; [assumption|]. intros a.
    apply keeps_bind; [assumption|]. intros l. apply keeps_ret.
Qed.

Lemma keeps_iter_read1 : forall fuel, keeps_contents (iter_read1 fuel).
Proof.
  induction fuel as [|fuel IH]; cbn [iter_read1].
  - apply keeps_lift.
  - apply keeps_bind; [apply keeps_read|]. intros [|c b].
    + apply keeps_lift.
    + destruct (bytes_eqb (c :: b) [Byte.x00]); [apply keeps_ret|].
      apply keeps_bind; [assumption|]. intros rest. apply keeps_ret.
Qed.

Lemma keeps_read_cstring : keeps_contents read_cstring.
Proof. intros f. unfold read_cstring. apply keeps_iter_read1. Qed.

Create HintDb keeps.

#[local] Hint Resolve keeps_lift keeps_ret keeps_raise keeps_read
  keeps_read_all keeps_seek keeps_seek_cur keeps_read_cstring : keeps.

Ltac keeps_step :=
  first [ apply keeps_bind; [|intros ?]
        | apply keeps_repeatM
        | solve [auto with keeps] ].

Lemma keeps_read_header : keeps_contents read_header.
Proof.
  unfold read_header. repeat keeps_step.
  repeat match goal with
         | |- keeps_contents (match ?l with _ => _ end) =>
             destruct l; try apply keeps_raise
         end.
  keeps_step; [keeps_step|]. destruct (negb _); auto with keeps.
Qed.

Lemma keeps_read_type_table : forall n, keeps_contents (read_type_table n).
Proof. intros n. unfold read_type_table. repeat keeps_step. Qed.

Lemma keeps_read_objects :
  forall n types, keeps_contents (read_objects n types).
Proof. intros n types. unfold read_objects. repeat keeps_step. Qed.

Lemma keeps_read_camera : keeps_contents read_camera.
Proof.
  unfold read_camera. repeat keeps_step.
  repeat match goal with
         | |- keeps_contents (match ?l with _ => _ end) =>
             destruct l; try apply keeps_raise
         end.
  apply keeps_ret.
Qed.

Lemma keeps_read_doors : forall n, keeps_contents (read_doors n).
Proof. intros n. unfold read_doors. repeat keeps_step. Qed.

Lemma keeps_read_tiles : forall tx ty, keeps_contents (read_tiles tx ty).
Proof.
  intros tx ty. unfold read_tiles. repeat keeps_step.
  destruct (negb _); [apply keeps_raise|].
  destruct (tx =? 0); auto with keeps.
Qed.

Lemma keeps_from_eblb_file : keeps_contents from_eblb_file.
Proof.
  unfold from_eblb_file.
  apply keeps_bind; [apply keeps_read_header|]. intros h.
  apply keeps_bind; [apply keeps_read_type_table|]. intros types.
  apply keeps_bind; [apply keeps_read_objects|]. intros objs.
  apply keeps_bind; [apply keeps_read_camera|]. intros [[[cx1 cy1] cx2] cy2].
  apply keeps_bind; [apply keeps_read_doors|]. intros drs.
  apply keeps_bind; [apply keeps_read_tiles|]. intros tls.
  apply keeps_bind; [apply keeps_seek|]. intros _. apply keeps_ret.
Qed.

Lemma read_header_from_start :
  forall f, read_header f = read_header (mkBytesIO (getvalue f) 0).
Proof. intros f. reflexivity. Qed.

Lemma from_eblb_file_from_start :
  forall f, from_eblb_file f = from_eblb_file (mkBytesIO (getvalue f) 0).
Proof.
  intros f. unfold from_eblb_file.
  unfold bind at 1. rewrite (read_header_from_start f). reflexivity.
Qed.

Lemma from_eblb_file_inv :
  forall f f' L,
    from_eblb_file f = (Ok L, f') ->
    exists h types f1 f2 f3 f4 f5 f6,
      read_header f = (Ok h, f1)
      /\ read_type_table (underworld_types_count h) f1 = (Ok types, f2)
      /\ read_objects (objects_count h) types f2 = (Ok (objects L), f3)
      /\ read_camera f3
         = (Ok (camera_x1 L, camera_y1 L, camera_x2 L, camera_y2 L), f4)
      /\ read_doors (doors_count h) f4 = (Ok (doors L), f5)
      /\ read_tiles (tiles_x h) (tiles_y h) f5 = (Ok (tiles L), f6)
      /\ f' = mkBytesIO (getvalue f6) 0.
Proof.
  intros f f' L H. unfold from_eblb_file in H.
  apply bind_inv_Ok in H as (h & f1 & H1 & H).
  apply bind_inv_Ok in H as (types & f2 & H2 & H).
  apply bind_inv_Ok in H as (objs & f3 & H3 & H).
  apply bind_inv_Ok in H as ([[[cx1 cy1] cx2] cy2] & f4 & H4 & H).
  apply bind_inv_Ok in H as (drs & f5 & H5 & H).
  apply bind_inv_Ok in H as (tls & f6 & H6 & H).
  cbn in H. injection H as <- <-.
  exists h, types, f1, f2, f3, f4, f5, f6. cbn.
  repeat split; assumption.
Qed.

(** X11. [from_eblb_file] only reads: whatever it returns or raises, the
    contents of the file are what they were; its outcome does not depend on
    where the file was positioned at the call; and when it returns a level
    the file is positioned at 0. *)
Theorem from_eblb_file_only_reads :
  forall f : BytesIO,
    getvalue (snd (from_eblb_file f)) = getvalue f
    /\ fst (from_eblb_file f) = decode (getvalue f)
    /\ (forall L, fst (from_eblb_file f) = Ok L ->
                  tell (snd (from_eblb_file f)) = 0%nat).
Proof.
  intros f. split; [apply keeps_from_eblb_file|]. split.
  - unfold decode. rewrite (from_eblb_file_from_start f). reflexivity.
  - intros L H. destruct (from_eblb_file f) as [o f'] eqn:E.
    cbn [fst snd] in *. subst o.
    apply from_eblb_file_inv in E
      as (h & types & f1 & f2 & f3 & f4 & f5 & f6 & _ & _ & _ & _ & _ & _ & ->).
    reflexivity.
Qed.

Lemma from_eblb_file_only_reads_witness :
  fst (from_eblb_file (mkBytesIO synthetic_buffer 7)) = Ok synthetic_level
  /\ tell (snd (from_eblb_file (mkBytesIO synthetic_buffer 7))) = 0%nat.
Proof.
  assert (H : fst (from_eblb_file (mkBytesIO synthetic_buffer 7))
              = Ok synthetic_level) by (vm_compute; reflexivity).
  split; [exact H|].
  exact (proj2 (proj2 (from_eblb_file_only_reads
                         (mkBytesIO synthetic_buffer 7)))
           synthetic_level H).
Defined.

Lemma fst_bind_Diverge :
  forall (S A B : Type) (m : M S A) (k : A -> M S B) (s : S),
    fst (m s) = Diverge -> fst (bind m k s) = Diverge.
Proof.
  intros * H. unfold bind. destruct (m s) as [[a|e'|] s1]; cbn in H |- *;
    congruence.
Qed.

(** X12. A file shorter than the 16-byte header raises [struct.error], not
    one of the parser's own errors; a file that holds a whole header and
    does not continue with the 21 bytes [UNDERWORLD_TYPES_TYP\0] raises
    [ShantaeCurseEblbParsingError], whatever the header says. *)
Theorem decode_header_rejections :
  forall b : bytes,
    ((length b < 16)%nat ->
     decode b = Raise StructError
     /\ is_parsing_error StructError = false)
    /\ ((16 <= length b)%nat ->
        firstn 21 (skipn 16 b) <> UNDERWORLD_TYPES_TYP ->
        decode b = Raise ShantaeCurseEblbParsingError).
Proof.
  intros b. unfold decode, from_eblb_file. split.
  - intros H. split; [|reflexivity]. apply fst_bind_Raise.
    unfold read_header, bind, seek, read, lift, remaining, struct_unpack.
    cbn [getvalue tell skipn fst snd].
    change (calcsize header_fmt) with 16%nat.
    rewrite length_firstn.
    destruct (Nat.eqb_spec (Nat.min 16 (length b)) 16); [lia|]. reflexivity.
  - intros H Hm. apply fst_bind_Raise.
    unfold read_header, bind, seek, read, lift, remaining, struct_unpack.
    cbn [getvalue tell skipn fst snd].
    change (calcsize header_fmt) with 16%nat.
    rewrite length_firstn.
    replace (Nat.min 16 (length b)) with 16%nat by lia.
    cbn [Nat.eqb header_fmt unpack_fields Nat.add].
    destruct (negb _); [reflexivity|].
    change (length UNDERWORLD_TYPES_TYP) with 21%nat.
    cbn [getvalue tell].
    destruct (bytes_eqb (firstn 21 (skipn 16 b)) UNDERWORLD_TYPES_TYP) eqn:E.
    + apply bytes_eqb_eq in E. contradiction.
    + reflexivity.
Qed.

Lemma decode_header_rejections_witness :
  decode (repeat Byte.x00 15) = Raise StructError
  /\ decode (le_split 2 0 ++ le_split 2 1 ++ repeat Byte.x00 40)
     = Raise ShantaeCurseEblbParsingError.
Proof.
  split.
  - apply (proj1 (decode_header_rejections (repeat Byte.x00 15))).
    apply Nat.ltb_lt. reflexivity.
  - apply (proj2 (decode_header_rejections
                    (le_split 2 0 ++ le_split 2 1 ++ repeat Byte.x00 40))).
    + apply Nat.leb_le. reflexivity.
    + vm_compute. discriminate.
Defined.

Lemma remaining_after_one :
  forall (f : BytesIO) (c : byte) (r : bytes),
    remaining f = c :: r ->
    remaining (mkBytesIO (getvalue f) (tell f + 1)) = r.
Proof.
  intros f c r H. unfold remaining in *. cbn [getvalue tell].
  rewrite Nat.add_comm, <- skipn_skipn, H. reflexivity.
Qed.

Lemma iter_read1_unterminated :
  forall (fuel : nat) (f : BytesIO),
    Forall (fun c => c <> Byte.x00) (remaining f) ->
    fst (iter_read1 fuel f) = Diverge.
Proof.
  induction fuel as [|fuel IH]; intros f H; [reflexivity|].
  cbn [iter_read1]. unfold bind at 1. unfold read.
  destruct (remaining f) as [|c r] eqn:E; [reflexivity|].
  cbn [firstn length].
  inversion H as [|? ? Hc Hr]; subst.
  destruct (bytes_eqb [c] [Byte.x00]) eqn:Eb.
  - apply bytes_eqb_eq in Eb. congruence.
  - apply fst_bind_Diverge. apply IH.
    rewrite (remaining_after_one f c r E). assumption.
Qed.

(** X13. When the header announces at least one type name and no NUL byte
    follows the magic string, the read loop of the first name reaches the
    end of the file and goes on reading: [from_eblb_file] neither returns a
    level nor raises one of its errors. *)
Theorem unterminated_name_never_returns :
  forall (hdr rest : bytes) (oc dc uc tx ty : Z),
    struct_pack header_fmt [oc; 1; dc; uc; tx; ty] = Ok hdr ->
    1 <= uc ->
    Forall (fun c => c <> Byte.x00) rest ->
    decode ((hdr ++ UNDERWORLD_TYPES_TYP) ++ rest) = Diverge.
Proof.
  intros hdr rest oc dc uc tx ty Hh Huc Hrest. unfold decode.
  destruct (read_header_packed
              (mkBytesIO ((hdr ++ UNDERWORLD_TYPES_TYP) ++ rest) 0)
              hdr rest oc dc uc tx ty Hh eq_refl) as (f1 & E1 & _ & Hr).
  unfold from_eblb_file. rewrite (bind_Ok _ _ _ _ _ _ _ _ E1).
  apply fst_bind_Diverge.
  cbn [underworld_types_count]. unfold read_type_table.
  apply fst_bind_Diverge.
  destruct (Z.to_nat uc) as [|n] eqn:En; [lia|].
  cbn [repeatM]. apply fst_bind_Diverge. apply fst_bind_Diverge.
  unfold read_cstring. apply iter_read1_unterminated.
  rewrite Hr. assumption.
Qed.

Lemma unterminated_name_never_returns_witness :
  decode ((le_split 2 0 ++ le_split 2 1 ++ le_split 2 0 ++ le_split 2 1
             ++ le_split 4 0 ++ le_split 4 0)
            ++ UNDERWORLD_TYPES_TYP ++ [Byte.x41; Byte.x42]) = Diverge.
Proof.
  rewrite app_assoc.
  apply (unterminated_name_never_returns _ _ 0 0 1 0 0).
  - reflexivity.
  - lia.
  - repeat constructor; discriminate.
Defined.

(** ** What a decoded level satisfies *)

Lemma Ok_inj : forall (A : Type) (a b : A), Ok a = Ok b -> a = b.
Proof. intros A a b H. congruence. Qed.

Lemma repeatM_inv :
  forall (S A : Type) (P : A -> Prop) (body : M S A),
    (forall s a s', body s = (Ok a, s') -> P a) ->
    forall (n : nat) (s s' : S) (l : list A),
      repeatM n body s = (Ok l, s') -> length l = n /\ Forall P l.
Proof.
  intros S A P body Hb. induction n as [|n IH]; intros s s' l H.
  - cbn in H. injection H as <- _. split; [reflexivity|constructor].
  - cbn [repeatM] in H.
    apply bind_inv_Ok in H as (a & s1 & Ha & H).
    apply bind_inv_Ok in H as (rest & s2 & Hr & H).
    cbn in H. injection H as <- _.
    destruct (IH _ _ _ Hr) as [Hl HF].
    split; [cbn; congruence|].
    constructor; [apply (Hb _ _ _ Ha)|assumption].
Qed.

Lemma iter_read1_nul_free :
  forall (fuel : nat) (f f' : BytesIO) (s : bytes),
    iter_read1 fuel f = (Ok s, f') -> Forall (fun c => c <> Byte.x00) s.
Proof.
  induction fuel as [|fuel IH]; intros f f' s H; [discriminate|].
  cbn [iter_read1] in H. unfold bind at 1 in H. unfold read in H.
  destruct (remaining f) as [|c r]; [discriminate|].
  cbn [firstn length] in H.
  destruct (bytes_eqb [c] [Byte.x00]) eqn:Eb.
  - cbn in H. injection H as <- _. constructor.
  - apply bind_inv_Ok in H as (rest & f1 & Hr & H).
    cbn in H. injection H as <- _.
    constructor; [|apply (IH _ _ _ Hr)].
    intros ->. unfold bytes_eqb in Eb.
    destruct (list_eq_dec Byte.byte_eq_dec [Byte.x00] [Byte.x00]);
      [discriminate|congruence].
Qed.

Lemma unsigned_as_ascii :
  forall c : byte, byte.unsigned c = Z.of_N (N_of_ascii (ascii_of_byte c)).
Proof.
  intros c. rewrite <- unsigned_byte_of_ascii, byte_of_ascii_of_byte.
  reflexivity.
Qed.

Lemma decode_ascii_inv :
  forall (b : bytes) (s : string),
    decode_ascii b = Ok s ->
    is_ascii s = true
    /\ (Forall (fun c => c <> Byte.x00) b -> nul_free s = true).
Proof.
  induction b as [|c b IH]; intros s H.
  - cbn in H. injection H as <-. split; reflexivity.
  - cbn [decode_ascii] in H.
    destruct (Z.ltb_spec (byte.unsigned c) 128) as [Hc|]; [|discriminate].
    destruct (decode_ascii b) as [s'| |]; try discriminate.
    cbn [obind] in H. injection H as <-.
    destruct (IH s' eq_refl) as [Ha Hn].
    rewrite unsigned_as_ascii in Hc.
    split.
    + unfold is_ascii. cbn [list_ascii_of_string forallb].
      apply andb_true_intro. split; [apply N.ltb_lt; lia|exact Ha].
    + intros HF. inversion HF as [|? ? Hc0 Hb0]; subst.
      unfold nul_free. cbn [list_ascii_of_string forallb].
      apply andb_true_intro. split; [|apply Hn; assumption].
      apply negb_true_iff, N.eqb_neq. intros E. apply Hc0.
      apply byte.unsigned_inj. rewrite unsigned_as_ascii, E. reflexivity.
Qed.

Lemma read_name_ascii :
  forall (f : BytesIO) (s : string) (f' : BytesIO),
    (new_string <- read_cstring ;; lift (decode_ascii new_string)) f
    = (Ok s, f') ->
    ascii_name s = true.
Proof.
  intros f s f' H.
  apply bind_inv_Ok in H as (raw & f1 & Hr & H).
  unfold read_cstring in Hr. apply iter_read1_nul_free in Hr.
  unfold lift in H. injection H as H _.
  destruct (decode_ascii_inv raw s H) as [Ha Hn].
  unfold ascii_name. rewrite Ha, (Hn Hr). reflexivity.
Qed.

Lemma read_type_table_inv :
  forall (n : Z) (f f' : BytesIO) (types : list string),
    read_type_table n f = (Ok types, f') ->
    length types = Z.to_nat n
    /\ Forall (fun s => ascii_name s = true) types.
Proof.
  intros n f f' types H. unfold read_type_table in H.
  apply bind_inv_Ok in H as (l & f1 & Hl & H).
  apply bind_inv_Ok in H as (name & f2 & _ & H).
  apply bind_inv_Ok in H as (pad & f3 & _ & H).
  apply bind_inv_Ok in H as (u & f4 & _ & H).
  cbn in H. injection H as <- _.
  apply (repeatM_inv _ _ (fun s => ascii_name s = true) _ read_name_ascii
           _ _ _ _ Hl).
Qed.

Lemma getitem_In :
  forall (A : Type) (l : list A) (i : Z) (a : A),
    getitem l i = Ok a -> In a l.
Proof.
  intros A l i a H. unfold getitem in H.
  destruct ((0 <=? _) && _); [|discriminate].
  destruct (nth_error l _) eqn:E; [|discriminate].
  injection H as <-. eapply nth_error_In. eassumption.
Qed.

Lemma from_bytes_fits :
  forall (entry : bytes) (types : list string) (o : EblbObject.t),
    EblbObject.from_bytes entry types = Ok o ->
    object_fits o = true /\ In (EblbObject.underworld_type o) types.
Proof.
  intros entry types o H.
  destruct (passes_checks entry) eqn:Hc;
    [|destruct (from_bytes_unchecked entry types Hc) as (e & E & _);
      congruence].
  unfold passes_checks in Hc.
  apply andb_prop in Hc as [Hc H4]. apply andb_prop in Hc as [Hc H3].
  apply andb_prop in Hc as [H1 H2].
  pose proof H1 as Hlen. apply Nat.eqb_eq in Hlen.
  unfold EblbObject.from_bytes, struct_unpack in H.
  rewrite H1, H2, H3, H4 in H. cbn [negb] in H.
  change (calcsize EblbObject.fmt) with 20%nat in H. rewrite H1 in H.
  cbn [obind EblbObject.fmt unpack_fields size_of] in H.
  rewrite !skipn_skipn in H. cbn [Nat.add] in H.
  destruct (getitem types _) as [ty| |] eqn:Eg; try discriminate.
  cbn [obind] in H. apply getitem_In in Eg.
  assert (Ho : o = EblbObject.mk ty
            (unpack_one c_h (firstn 2 (skipn 2 entry)))
            (unpack_one c_h (firstn 2 (skipn 4 entry)))
            (negb (unpack_one c_bool (firstn 1 (skipn 6 entry)) =? 0))
            (negb (unpack_one c_bool (firstn 1 (skipn 7 entry)) =? 0))
            (unpack_one c_B (firstn 1 (skipn 8 entry)))
            (unpack_one c_B (firstn 1 (skipn 9 entry)))
            (unpack_one c_B (firstn 1 (skipn 10 entry)))
            (unpack_one c_B (firstn 1 (skipn 11 entry)))
            (unpack_one c_h (firstn 2 (skipn 12 entry)))
            (unpack_one c_I (firstn 4 (skipn 14 entry)))) by congruence.
  subst o. split; [|exact Eg].
  unfold object_fits.
  cbn [EblbObject.x_location EblbObject.y_location EblbObject.unknown_char8
       EblbObject.unknown_char9 EblbObject.unknown_chara
       EblbObject.unknown_charb EblbObject.unknown_shortc
       EblbObject.unknown_inte].
  rewrite !unpack_one_fits; try discriminate; try reflexivity;
    rewrite length_firstn, length_skipn, Hlen; reflexivity.
Qed.

Lemma read_objects_inv :
  forall (n : Z) (types : list string) (f f' : BytesIO)
         (objs : list EblbObject.t),
    read_objects n types f = (Ok objs, f') ->
    length objs = Z.to_nat n
    /\ Forall (fun o => object_fits o = true
                        /\ In (EblbObject.underworld_type o) types) objs.
Proof.
  intros n types f f' objs H. unfold read_objects in H.
  refine (repeatM_inv _ _ _ _ _ _ _ _ _ H).
  intros s a s' Hb.
  apply bind_inv_Ok in Hb as (entry & f1 & _ & Hb).
  unfold lift in Hb. injection Hb as Hb _.
  apply (from_bytes_fits _ _ _ Hb).
Qed.

Lemma door_from_bytes_fits :
  forall (entry : bytes) (name : string) (d : EntranceAndOrExit.t),
    EntranceAndOrExit.from_bytes entry name = Ok d ->
    door_numbers_fit d = true /\ EntranceAndOrExit.exit_scene_name d = name.
Proof.
  intros entry name d H.
  unfold EntranceAndOrExit.from_bytes, struct_unpack in H.
  change (calcsize EntranceAndOrExit.fmt) with 28%nat in H.
  destruct (Nat.eqb_spec (length entry) 28) as [Hlen|]; [|discriminate].
  cbn [obind EntranceAndOrExit.fmt unpack_fields] in H.
  apply Ok_inj in H. subst d. split; [|reflexivity].
  unfold door_numbers_fit.
  cbn [EntranceAndOrExit.x1 EntranceAndOrExit.y1 EntranceAndOrExit.x2
       EntranceAndOrExit.y2 EntranceAndOrExit.entrance_id
       EntranceAndOrExit.exit_type_id EntranceAndOrExit.exit_location_id
       EntranceAndOrExit.entrance_type_id].
  rewrite !unpack_one_fits;
    try discriminate; try reflexivity;
    rewrite length_firstn, ?length_skipn, Hlen; reflexivity.
Qed.

Lemma door_fits_split :
  forall d, door_fits d
            = door_numbers_fit d
              && ascii_name (EntranceAndOrExit.exit_scene_name d).
Proof. reflexivity. Qed.

Lemma read_doors_inv :
  forall (n : Z) (f f' : BytesIO) (drs : list EntranceAndOrExit.t),
    read_doors n f = (Ok drs, f') ->
    length drs = Z.to_nat n /\ Forall (fun d => door_fits d = true) drs.
Proof.
  intros n f f' drs H. unfold read_doors in H.
  refine (repeatM_inv _ _ _ _ _ _ _ _ _ H).
  intros s d s' Hb.
  apply bind_inv_Ok in Hb as (door_bytes & f1 & _ & Hb).
  apply bind_inv_Ok in Hb as (raw & f2 & Hraw & Hb).
  apply bind_inv_Ok in Hb as (name & f3 & Hname & Hb).
  apply bind_inv_Ok in Hb as (pad & f4 & _ & Hb).
  apply bind_inv_Ok in Hb as (u & f5 & _ & Hb).
  unfold lift in Hb, Hname. injection Hb as Hb _. injection Hname as Hname _.
  unfold read_cstring in Hraw. apply iter_read1_nul_free in Hraw.
  destruct (decode_ascii_inv raw name Hname) as [Ha Hn].
  destruct (door_from_bytes_fits _ _ _ Hb) as [Hd He].
  rewrite door_fits_split, Hd, He. unfold ascii_name.
  rewrite Ha, (Hn Hraw). reflexivity.
Qed.

Lemma read_header_inv :
  forall (f f1 : BytesIO) (h : header),
    read_header f = (Ok h, f1) ->
    fits c_H (objects_count h) = true
    /\ fits c_H (doors_count h) = true
    /\ fits c_H (underworld_types_count h) = true
    /\ fits c_I (tiles_x h) = true
    /\ fits c_I (tiles_y h) = true
    /\ struct_unpack header_fmt (firstn 16 (getvalue f))
       = Ok [objects_count h; 1; doors_count h; underworld_types_count h;
             tiles_x h; tiles_y h].
Proof.
  intros f f1 h H. unfold read_header in H.
  apply bind_inv_Ok in H as (u & f2 & Hs & H).
  apply bind_inv_Ok in H as (raw & f3 & Hr & H).
  apply bind_inv_Ok in H as (fields & f4 & Hf & H).
  unfold seek in Hs. apply pair_equal_spec in Hs as [_ <-].
  unfold read, remaining in Hr. cbn [getvalue tell skipn] in Hr.
  apply pair_equal_spec in Hr as [Hr _]. apply Ok_inj in Hr. subst raw.
  unfold lift in Hf. apply pair_equal_spec in Hf as [Hf _].
  rewrite Hf.
  unfold struct_unpack in Hf.
  change (calcsize header_fmt) with 16%nat in Hf.
  destruct (Nat.eqb_spec (length (firstn 16 (getvalue f))) 16) as [Hlen|];
    [|discriminate].
  apply Ok_inj in Hf. subst fields. cbn [header_fmt unpack_fields] in H |- *.
  destruct (Z.eqb_spec
              (unpack_one c_H
                 (firstn (size_of c_H)
                    (skipn (size_of c_H) (firstn 16 (getvalue f))))) 1)
    as [E1|]; [|discriminate].
  cbn [negb] in H.
  apply bind_inv_Ok in H as (magic & f5 & _ & H).
  destruct (negb _); [discriminate|].
  unfold ret in H. apply pair_equal_spec in H as [H _].
  apply Ok_inj in H. subst h.
  cbn [objects_count doors_count underworld_types_count tiles_x tiles_y].
  rewrite E1.
  repeat split;
    try (apply unpack_one_fits; [|discriminate];
         rewrite length_firstn, ?length_skipn, Hlen; reflexivity).
Qed.

Lemma read_camera_inv :
  forall (f f' : BytesIO) (a b c d : Z),
    read_camera f = (Ok (a, b, c, d), f') ->
    fits c_i a = true /\ fits c_i b = true
    /\ fits c_i c = true /\ fits c_i d = true.
Proof.
  intros f f' a b c d H. unfold read_camera in H.
  apply bind_inv_Ok in H as (raw & f1 & _ & H).
  apply bind_inv_Ok in H as (fields & f2 & Hf & H).
  unfold lift in Hf. apply pair_equal_spec in Hf as [Hf _].
  unfold struct_unpack in Hf.
  change (calcsize camera_fmt) with 20%nat in Hf.
  destruct (Nat.eqb_spec (length raw) 20) as [Hlen|]; [|discriminate].
  apply Ok_inj in Hf. subst fields. cbn [camera_fmt unpack_fields] in H.
  destruct (negb _); [discriminate|].
  unfold ret in H. apply pair_equal_spec in H as [H _].
  apply Ok_inj in H.
  apply pair_equal_spec in H as [H Hd].
  apply pair_equal_spec in H as [H Hc].
  apply pair_equal_spec in H as [Ha Hb].
  subst a b c d.
  repeat split;
    (apply unpack_one_fits; [|discriminate];
     rewrite length_firstn, ?length_skipn, Hlen; reflexivity).
Qed.

Lemma read_tiles_inv :
  forall (tx ty : Z) (f f' : BytesIO) (tls : list (list Z)),
    0 <= tx ->
    read_tiles tx ty f = (Ok tls, f') ->
    1 <= tx
    /\ Z.of_nat (length tls) = ty
    /\ Forall (fun row => Z.of_nat (length row) = tx
                          /\ forallb tile_ok row = true) tls.
Proof.
  intros tx ty f f' tls Htx H. unfold read_tiles in H.
  apply bind_inv_Ok in H as (st & f1 & _ & H).
  destruct (Z.eqb_spec (Z.of_nat (length st)) (tx * ty)) as [Hlen|];
    [|discriminate].
  cbn [negb] in H.
  destruct (Z.eqb_spec tx 0) as [|Hnz]; [discriminate|].
  cbn in H. injection H as <- _.
  assert (Hty : 0 <= ty) by nia.
  set (w := Z.to_nat tx). set (h := Z.to_nat ty).
  assert (Hw : (0 < w)%nat) by lia.
  assert (Hst : length st = (h * w)%nat) by nia.
  rewrite Hst, (range_step_rows h w Hw), map_map.
  split; [lia|]. split.
  - rewrite length_map, length_seq. lia.
  - apply Forall_forall. intros row Hin.
    apply in_map_iff in Hin as (k & <- & Hk).
    apply in_seq in Hk. unfold slice. split.
    + rewrite length_map, length_firstn, length_skipn, Hst. nia.
    + apply forallb_forall. intros j Hj.
      apply in_map_iff in Hj as (c & <- & _).
      pose proof (byte.unsigned_range c). unfold tile_ok.
      apply andb_true_intro. split; [apply Z.leb_le|apply Z.ltb_lt]; lia.
Qed.

Lemma decode_inv :
  forall (b : bytes) (L : t),
    decode b = Ok L ->
    exists h types,
      struct_unpack header_fmt (firstn 16 b)
      = Ok [objects_count h; 1; doors_count h; underworld_types_count h;
            tiles_x h; tiles_y h]
      /\ fits c_H (objects_count h) = true
      /\ fits c_H (doors_count h) = true
      /\ fits c_I (tiles_x h) = true
      /\ fits c_I (tiles_y h) = true
      /\ Forall (fun s => ascii_name s = true) types
      /\ length (objects L) = Z.to_nat (objects_count h)
      /\ Forall (fun o => object_fits o = true
                          /\ In (EblbObject.underworld_type o) types)
           (objects L)
      /\ fits c_i (camera_x1 L) = true /\ fits c_i (camera_y1 L) = true
      /\ fits c_i (camera_x2 L) = true /\ fits c_i (camera_y2 L) = true
      /\ length (doors L) = Z.to_nat (doors_count h)
      /\ Forall (fun d => door_fits d = true) (doors L)
      /\ 1 <= tiles_x h
      /\ Z.of_nat (length (tiles L)) = tiles_y h
      /\ Forall (fun row => Z.of_nat (length row) = tiles_x h
                            /\ forallb tile_ok row = true) (tiles L).
Proof.
  intros b L H. unfold decode in H.
  destruct (from_eblb_file (mkBytesIO b 0)) as [o f'] eqn:E.
  cbn [fst] in H. subst o.
  apply from_eblb_file_inv in E
    as (h & types & f1 & f2 & f3 & f4 & f5 & f6
        & Hh & Ht & Ho & Hc & Hd & Hg & _).
  apply read_header_inv in Hh as (Hoc & Hdc & Huc & Htx & Hty & Hu).
  cbn [getvalue] in Hu.
  apply read_type_table_inv in Ht as [_ Ht].
  apply read_objects_inv in Ho as [Hol Ho].
  apply read_camera_inv in Hc as (Hc1 & Hc2 & Hc3 & Hc4).
  apply read_doors_inv in Hd as [Hdl Hd].
  apply read_tiles_inv in Hg as (Hg1 & Hg2 & Hg3).
  2:{ unfold fits in Htx. apply andb_prop in Htx as [Htx _].
      apply Z.leb_le in Htx. exact Htx. }
  exists h, types. repeat (split; [assumption|]). assumption.
Qed.

Lemma fits_of_nat :
  forall (c : code) (n : nat) (z : Z),
    fits c z = true -> n = Z.to_nat z -> fits c (Z.of_nat n) = true.
Proof.
  intros c n z H ->. unfold fits in *.
  apply andb_prop in H as [Hlo Hhi].
  apply Z.leb_le in Hlo. apply Z.leb_le in Hhi.
  apply andb_true_intro.
  destruct c; cbn in Hlo, Hhi |- *; split; apply Z.leb_le; lia.
Qed.

(** X14. A level that [from_eblb_file] returns, once it has at least one
    object and one row of tiles, is a level the format can hold: counts and
    fields within their codes, type and scene names ASCII without NUL, and
    a grid whose rows all have the header's width, which is at least 1,
    with every tile a byte value. *)
Theorem decoded_level_fits :
  forall (b : bytes) (L : t),
    decode b = Ok L ->
    objects L <> [] ->
    tiles L <> [] ->
    level_fits L = true.
Proof.
  intros b L H Hobj Htl.
  apply decode_inv in H
    as (h & types & _ & Hoc & Hdc & Htx & Hty & Ht & Hol & Ho
        & Hc1 & Hc2 & Hc3 & Hc4 & Hdl & Hd & Hg1 & Hg2 & Hg3).
  unfold level_fits.
  rewrite (fits_of_nat _ _ _ Hoc Hol), (fits_of_nat _ _ _ Hdc Hdl).
  rewrite Hc1, Hc2, Hc3, Hc4.
  assert (E1 : negb (length (objects L) =? 0)%nat = true).
  { destruct (objects L); [contradiction|reflexivity]. }
  assert (E2 : forallb (fun o => object_fits o
                          && ascii_name (EblbObject.underworld_type o))
                 (objects L) = true).
  { apply forallb_forall. intros o Hin.
    rewrite Forall_forall in Ho, Ht. destruct (Ho o Hin) as [Hf Hty'].
    rewrite Hf, (Ht _ Hty'). reflexivity. }
  assert (E3 : forallb door_fits (doors L) = true).
  { apply forallb_forall. rewrite Forall_forall in Hd. exact Hd. }
  rewrite E1, E2, E3. cbn [andb].
  destruct (tiles L) as [|row0 rows] eqn:Eg; [contradiction|].
  rewrite Forall_forall in Hg3.
  destruct (Hg3 row0 (or_introl eq_refl)) as [Hw0 _].
  assert (E4 : negb (length row0 =? 0)%nat = true).
  { apply negb_true_iff, Nat.eqb_neq. lia. }
  rewrite E4, Hw0, Htx, Hg2, Hty. cbn [andb].
  apply andb_true_intro. split; apply forallb_forall; intros row Hin.
  - apply Nat.eqb_eq. destruct (Hg3 row Hin). lia.
  - apply (Hg3 row Hin).
Qed.

Lemma decoded_level_fits_witness :
  decode sample_file = Ok sample_level /\ level_fits sample_level = true.
Proof.
  assert (H : decode sample_file = Ok sample_level)
    by (vm_compute; reflexivity).
  split; [exact H|].
  apply (decoded_level_fits sample_file sample_level H); discriminate.
Defined.

(** X15. A level that [from_eblb_file] returns has the shape its header
    announces: as many objects and doors as the two counts, [tiles_y] rows
    of [tiles_x] tiles each, and [tiles_x] is at least 1: no file whose
    header gives a width of 0 is decoded. *)
Theorem decoded_level_matches_header :
  forall (b : bytes) (L : t),
    decode b = Ok L ->
    exists oc dc uc tx ty,
      struct_unpack header_fmt (firstn 16 b) = Ok [oc; 1; dc; uc; tx; ty]
      /\ Z.of_nat (length (objects L)) = oc
      /\ Z.of_nat (length (doors L)) = dc
      /\ Z.of_nat (length (tiles L)) = ty
      /\ Forall (fun row => Z.of_nat (length row) = tx) (tiles L)
      /\ 1 <= tx.
Proof.
  intros b L H.
  apply decode_inv in H
    as (h & types & Hu & Hoc & Hdc & Htx & Hty & Ht & Hol & Ho
        & Hc1 & Hc2 & Hc3 & Hc4 & Hdl & Hd & Hg1 & Hg2 & Hg3).
  exists (objects_count h), (doors_count h), (underworld_types_count h),
         (tiles_x h), (tiles_y h).
  unfold fits in Hoc, Hdc.
  apply andb_prop in Hoc as [Hoc _]. apply Z.leb_le in Hoc.
  apply andb_prop in Hdc as [Hdc _]. apply Z.leb_le in Hdc.
  cbn in Hoc, Hdc.
  repeat split; try assumption; try lia.
  eapply Forall_impl; [|exact Hg3]. intros row [Hr _]. exact Hr.
Qed.

Lemma decoded_level_matches_header_witness :
  exists oc dc uc tx ty,
    struct_unpack header_fmt (firstn 16 sample_file)
    = Ok [oc; 1; dc; uc; tx; ty]
    /\ Z.of_nat (length (objects sample_level)) = oc
    /\ Z.of_nat (length (doors sample_level)) = dc
    /\ Z.of_nat (length (tiles sample_level)) = ty
    /\ Forall (fun row => Z.of_nat (length row) = tx) (tiles sample_level)
    /\ 1 <= tx.
Proof.
  apply (decoded_level_matches_header sample_file sample_level).
  vm_compute. reflexivity.
Defined.

(** X16. [check_eblb] never raises on a level that [from_eblb_file]
    returned: what is decoded passes the first step of [__bytes__]. *)
Theorem decoded_level_passes_check :
  forall (b : bytes) (L : t),
    decode b = Ok L ->
    forall (S : Type) (s : S), check_eblb L s = (Ok tt, s).
Proof.
  intros b L H S s.
  apply decode_inv in H
    as (h & types & _ & _ & _ & _ & _ & _ & _ & _
        & _ & _ & _ & _ & _ & _ & _ & _ & Hg3).
  destruct (tiles L) as [|row0 rows] eqn:Eg.
  - unfold check_eblb. rewrite Eg. reflexivity.
  - apply (check_eblb_rectangular S L row0 rows s Eg).
    rewrite Forall_forall in Hg3 |- *. intros row Hin.
    destruct (Hg3 row Hin) as [Hr _].
    destruct (Hg3 row0 (or_introl eq_refl)) as [Hr0 _]. lia.
Qed.

Lemma decoded_level_passes_check_witness :
  check_eblb sample_level tt = (Ok tt, tt).
Proof.
  apply (decoded_level_passes_check sample_file sample_level).
  vm_compute. reflexivity.
Defined.

(** ** What [__bytes__] writes *)

Lemma get_padding_aligns :
  forall (strings : list string) (pad : bytes),
    forallb is_ascii strings = true ->
    get_padding strings = Ok pad ->
    Nat.divide 4
      (length (join [Byte.x00] (map bytes_literal strings) ++ [Byte.x00])
       + length pad).
Proof.
  intros strings pad Ha H. unfold get_padding in H.
  rewrite (mapM_encode_ascii strings Ha) in H. cbn [obind] in H.
  set (n := length (join [Byte.x00] (map bytes_literal strings)
                      ++ [Byte.x00])) in *.
  pose proof (Nat.mod_upper_bound n 4 ltac:(lia)) as Hb.
  pose proof (Nat.div_mod_eq n 4) as Hd.
  destruct (Nat.eqb_spec (n mod 4) 0) as [E|E]; apply Ok_inj in H; subst pad.
  - exists (n / 4)%nat. cbn [length]. lia.
  - exists (n / 4 + 1)%nat. rewrite repeat_length. lia.
Qed.

Lemma door_record_div4 :
  forall (d : EntranceAndOrExit.t) (b : bytes),
    door_fits d = true -> EntranceAndOrExit.to_bytes d = Ok b ->
    Nat.divide 4 (length b).
Proof.
  intros d b Hf Hb.
  destruct (door_to_bytes d Hf) as (head & pad & Hh & Hp & E).
  rewrite E in Hb. apply Ok_inj in Hb. subst b.
  pose proof (struct_pack_length _ _ _ Hh) as Hl.
  change (calcsize EntranceAndOrExit.fmt) with 28%nat in Hl.
  assert (Ha : forallb is_ascii [EntranceAndOrExit.exit_scene_name d] = true).
  { unfold door_fits, ascii_name in Hf. split_andb. cbn.
    rewrite andb_true_r. assumption. }
  destruct (get_padding_aligns _ _ Ha Hp) as [q Hq].
  cbn [map join] in Hq. rewrite length_app in Hq. cbn [length] in Hq.
  exists (q + 7)%nat. rewrite !length_app, Hl. cbn [length]. lia.
Qed.

Lemma concat_div4 :
  forall chunks : list bytes,
    Forall (fun c => Nat.divide 4 (length c)) chunks ->
    Nat.divide 4 (length (List.concat chunks)).
Proof.
  intros chunks H. induction H as [|c cs Hc _ IH]; cbn [List.concat].
  - exists O. reflexivity.
  - rewrite length_app. apply Nat.divide_add_r; assumption.
Qed.

Lemma Forall2_right :
  forall (A B : Type) (R : A -> B -> Prop) (P : B -> Prop)
         (xs : list A) (cs : list B),
    (forall x c, R x c -> P c) -> Forall2 R xs cs -> Forall P cs.
Proof.
  intros A B R P xs cs HR H. induction H; constructor; eauto.
Qed.

(** The pieces [__bytes__] writes for a level that fits, in order. *)
Lemma encode_parts :
  forall (L : t) (order : list string),
    level_fits L = true ->
    is_set_listing (map EblbObject.underworld_type (objects L)) order
    = true ->
    exists hdr pad ochunks cam dchunks,
      struct_pack header_fmt
        [Z.of_nat (length (objects L)); 1; Z.of_nat (length (doors L));
         Z.of_nat (length order); Z.of_nat (length (hd [] (tiles L)));
         Z.of_nat (length (tiles L))] = Ok hdr
      /\ order <> []
      /\ forallb is_ascii ("UNDERWORLD_TYPES_TYP"%string :: order) = true
      /\ get_padding ("UNDERWORLD_TYPES_TYP"%string :: order) = Ok pad
      /\ Forall2 (fun o b => length b = 20%nat
                             /\ EblbObject.from_bytes b order = Ok o)
           (objects L) ochunks
      /\ struct_pack camera_fmt
           [camera_x1 L; camera_y1 L; camera_x2 L; camera_y2 L; 0] = Ok cam
      /\ Forall2 (fun d b => door_fits d = true
                             /\ EntranceAndOrExit.to_bytes d = Ok b)
           (doors L) dchunks
      /\ encode order L
         = Ok ((hdr ++ UNDERWORLD_TYPES_TYP)
                 ++ ((join [Byte.x00] (map bytes_literal order)
                        ++ [Byte.x00]) ++ pad)
                 ++ List.concat ochunks ++ cam ++ List.concat dchunks
                 ++ map byte.of_Z (List.concat (tiles L))).
Proof.
  intros [objs drs cx1 cy1 cx2 cy2 tls] order Hfit Hset.
  unfold level_fits in Hfit.
  cbn [objects doors camera_x1 camera_y1 camera_x2 camera_y2 tiles]
    in Hfit, Hset |- *.
  destruct tls as [|row0 rows]; [rewrite andb_false_r in Hfit; discriminate|].
  apply andb_prop in Hfit as [Hfit HT].
  apply andb_prop in Hfit as [Hfit Hc4].
  apply andb_prop in Hfit as [Hfit Hc3].
  apply andb_prop in Hfit as [Hfit Hc2].
  apply andb_prop in Hfit as [Hfit Hc1].
  apply andb_prop in Hfit as [Hfit Hdrs].
  apply andb_prop in Hfit as [Hfit Hobjs].
  apply andb_prop in Hfit as [Hfit Hnd].
  apply andb_prop in Hfit as [Hne Hno].
  apply andb_prop in HT as [HT Hk].
  apply andb_prop in HT as [HT Hr].
  apply andb_prop in HT as [HT Hh].
  apply andb_prop in HT as [Hn Hw].
  apply is_set_listing_spec in Hset as (Hnodup & Hinc1 & Hinc2).
  assert (Horder_ne : order <> []).
  { destruct objs as [|o os]; [discriminate|].
    intros ->. apply (Hinc1 (EblbObject.underworld_type o)). left.
    reflexivity. }
  assert (Hlen_order : (length order <= length objs)%nat).
  { rewrite <- (length_map EblbObject.underworld_type objs).
    apply NoDup_incl_length; assumption. }
  assert (Hno' : fits c_H (Z.of_nat (length order)) = true).
  { apply (fits_le c_H _ (Z.of_nat (length objs))); [lia|assumption|].
    cbn. lia. }
  assert (Hlen65535 : Z.of_nat (length order) <= 65535).
  { unfold fits in Hno'. apply andb_prop in Hno' as [_ H].
    apply Z.leb_le in H. exact H. }
  assert (Hascii' :
    forallb is_ascii ("UNDERWORLD_TYPES_TYP"%string :: order) = true).
  { cbn [forallb]. apply andb_true_intro; split; [reflexivity|].
    apply forallb_forall. intros s Hs. apply Hinc2 in Hs.
    apply in_map_iff in Hs as (o & <- & Ho).
    rewrite forallb_forall in Hobjs. specialize (Hobjs o Ho).
    apply andb_prop in Hobjs as [_ H]. unfold ascii_name in H.
    apply andb_prop in H as [H _]. exact H. }
  assert (Hascii'' : forallb is_ascii order = true).
  { cbn [forallb] in Hascii'. apply andb_prop in Hascii' as [_ H]. exact H. }
  destruct (get_padding_ascii _ Hascii') as [pad Hpad].
  destruct (struct_pack_fits header_fmt
              [Z.of_nat (length objs); 1; Z.of_nat (length drs);
               Z.of_nat (length order); Z.of_nat (length row0);
               Z.of_nat (length (row0 :: rows))]) as [hdr Hhdr].
  { reflexivity. }
  { cbn [header_fmt combine].
    repeat (constructor; [right; first [assumption|reflexivity]|]).
    constructor. }
  destruct (struct_pack_fits camera_fmt [cx1; cy1; cx2; cy2; 0])
    as [cam Hcam].
  { reflexivity. }
  { cbn [camera_fmt combine].
    repeat (constructor; [right; first [assumption|reflexivity]|]).
    constructor. }
  destruct (objects_encoded order objs Hlen65535 Hinc1 Hobjs)
    as (ochunks & Hoenc & Hodec).
  destruct (doors_encoded drs Hdrs) as (dchunks & Hdenc & Hddec).
  pose proof (bytes_of_ints_ok _ (forallb_concat _ _ _ Hk)) as Htb.
  assert (Hrows : Forall (fun r => length r = length row0) (row0 :: rows)).
  { apply Forall_forall. intros r Hin. rewrite forallb_forall in Hr.
    apply Nat.eqb_eq, Hr, Hin. }
  exists hdr, pad, ochunks, cam, dchunks. cbn [hd].
  repeat (split; [assumption|]).
  unfold encode, dunder_bytes.
  cbn [objects doors camera_x1 camera_y1 camera_x2 camera_y2 tiles].
  rewrite (bind_Ok _ _ _ _ _ [] [] tt
             (check_eblb_rectangular _
                (mk objs drs cx1 cy1 cx2 cy2 (row0 :: rows))
                row0 rows [] eq_refl Hrows)).
  rewrite (bind_Ok bytes unit bytes (fun _ => (Ok tt, [])) _ [] [] tt eq_refl).
  cbv zeta.
  rewrite (bind_lift _ _ _ _ _ _ row0 eq_refl).
  rewrite (bind_lift _ _ _ _ _ _ hdr Hhdr).
  rewrite bind_write.
  rewrite (bind_lift _ _ _ _ _ _ _ (mapM_encode_ascii order Hascii'')).
  rewrite (bind_lift _ _ _ _ _ _ _ magic_name_value).
  rewrite (bind_lift _ _ _ _ _ _ pad Hpad).
  rewrite bind_write.
  rewrite (bind_Ok _ _ _ _ _ _ _ tt (forM_write _ _ _ _ Hoenc _)).
  rewrite (bind_lift _ _ _ _ _ _ cam Hcam).
  rewrite bind_write.
  rewrite (bind_Ok _ _ _ _ _ _ _ tt (forM_write _ _ _ _ Hdenc _)).
  rewrite (bind_lift _ _ _ _ _ _ _ Htb).
  rewrite bind_write.
  cbn [fst]. f_equal. unfold write. cbn [app].
  repeat rewrite <- app_assoc. reflexivity.
Qed.

(** X17. For a level with at least one object that fits the format as
    [level_fits] asks (counts and numbers within their codes, type and scene
    names ASCII without NUL, at least one row, rows of one non-zero width,
    tiles byte values), [__bytes__] writes a header that states the level's
    counts (objects, doors, distinct type names, row width, rows), then the
    magic string, and the tile bytes come last, one byte per tile in row
    order, after a prefix whose length is a multiple of 4.  For a level
    without objects and doors the prefix is 61 bytes
    ([encode_without_objects]). *)
Theorem bytes_layout :
  forall (L : t) (order : list string),
    level_fits L = true ->
    is_set_listing (map EblbObject.underworld_type (objects L)) order
    = true ->
    exists prefix,
      encode order L
      = Ok (prefix ++ map byte.of_Z (List.concat (tiles L)))
      /\ (length prefix mod 4 = 0)%nat
      /\ struct_unpack header_fmt (firstn 16 prefix)
         = Ok [Z.of_nat (length (objects L)); 1;
               Z.of_nat (length (doors L)); Z.of_nat (length order);
               Z.of_nat (length (hd [] (tiles L)));
               Z.of_nat (length (tiles L))]
      /\ firstn 21 (skipn 16 prefix) = UNDERWORLD_TYPES_TYP.
Proof.
  intros L order Hfit Hset.
  destruct (encode_parts L order Hfit Hset)
    as (hdr & pad & ochunks & cam & dchunks
        & Hhdr & Hne & Ha & Hpad & Ho & Hcam & Hd & E).
  pose proof (struct_pack_length _ _ _ Hhdr) as Hlh.
  change (calcsize header_fmt) with 16%nat in Hlh.
  pose proof (struct_pack_length _ _ _ Hcam) as Hlc.
  change (calcsize camera_fmt) with 20%nat in Hlc.
  exists ((hdr ++ UNDERWORLD_TYPES_TYP)
            ++ ((join [Byte.x00] (map bytes_literal order) ++ [Byte.x00])
                  ++ pad)
            ++ List.concat ochunks ++ cam ++ List.concat dchunks).
  split; [|split; [|split]].
  - rewrite E. f_equal. repeat rewrite <- app_assoc. reflexivity.
  - apply Nat.Lcm0.mod_divide.
    destruct (get_padding_aligns _ _ Ha Hpad) as [q1 Hq1].
    assert (Hj : length (join [Byte.x00]
                           (map bytes_literal
                              ("UNDERWORLD_TYPES_TYP"%string :: order))
                           ++ [Byte.x00])
                 = (length UNDERWORLD_TYPES_TYP
                    + length (join [Byte.x00] (map bytes_literal order)
                                ++ [Byte.x00]))%nat).
    { destruct order as [|s order']; [contradiction|].
      rewrite <- length_app. f_equal. }
    destruct (concat_div4 ochunks) as [q2 Hq2].
    { refine (Forall2_right _ _ _ _ _ _ _ Ho).
      intros o c [Hl _]. exists 5%nat. rewrite Hl. reflexivity. }
    destruct (concat_div4 dchunks) as [q3 Hq3].
    { refine (Forall2_right _ _ _ _ _ _ _ Hd).
      intros d c [Hf Hb]. apply (door_record_div4 d c Hf Hb). }
    exists (q1 + q2 + q3 + 9)%nat.
    rewrite !length_app in *. lia.
  - rewrite <- !app_assoc, firstn_app, <- Hlh, firstn_all, Nat.sub_diag.
    cbn [firstn]. rewrite app_nil_r.
    rewrite (struct_unpack_pack _ _ _ Hhdr). reflexivity.
  - rewrite <- !app_assoc, skipn_app, (skipn_all2 hdr) by lia.
    rewrite Hlh, Nat.sub_diag. cbn [skipn app].
    rewrite firstn_app.
    change (length UNDERWORLD_TYPES_TYP) with 21%nat.
    rewrite Nat.sub_diag. cbn [firstn]. apply app_nil_r.
Qed.

Lemma bytes_layout_witness :
  exists prefix,
    encode ["A"; "B"]%string sample_level
    = Ok (prefix ++ map byte.of_Z (List.concat (tiles sample_level)))
    /\ (length prefix mod 4 = 0)%nat
    /\ struct_unpack header_fmt (firstn 16 prefix)
       = Ok [Z.of_nat (length (objects sample_level)); 1;
             Z.of_nat (length (doors sample_level));
             Z.of_nat (length ["A"; "B"]%string);
             Z.of_nat (length (hd [] (tiles sample_level)));
             Z.of_nat (length (tiles sample_level))]
    /\ firstn 21 (skipn 16 prefix) = UNDERWORLD_TYPES_TYP.
Proof.
  apply (bytes_layout sample_level ["A"; "B"]%string); reflexivity.
Defined.

(** X18. A level whose counts do not fit the header's fields (more than
    65535 objects, doors or distinct type names, or a grid side of 2^32 or
    more) passes [check_eblb] and then raises [struct.error] when the header
    is packed, before anything is written. *)
Theorem bytes_count_overflow :
  forall (L : t) (order : list string) (row0 : list Z) (rows : list (list Z)),
    tiles L = row0 :: rows ->
    Forall (fun r => length r = length row0) (row0 :: rows) ->
    fits c_H (Z.of_nat (length (objects L)))
    && fits c_H (Z.of_nat (length (doors L)))
    && fits c_H (Z.of_nat (length order))
    && fits c_I (Z.of_nat (length row0))
    && fits c_I (Z.of_nat (length (tiles L))) = false ->
    dunder_bytes order L [] = (Raise StructError, []).
Proof.
  intros L order row0 rows Et Hrows Hf. unfold dunder_bytes.
  rewrite (bind_Ok _ _ _ _ _ [] [] tt
             (check_eblb_rectangular _ L row0 rows [] Et Hrows)).
  rewrite (bind_Ok bytes unit bytes (fun _ => (Ok tt, [])) _ [] [] tt eq_refl).
  cbv zeta. rewrite Et.
  rewrite (bind_lift _ _ _ _ _ _ row0 eq_refl).
  rewrite struct_pack_unfit; [reflexivity|].
  unfold header_fmt. cbn [combine forallb fst snd].
  rewrite Et in Hf.
  change (fits c_H 1) with true. rewrite andb_true_r.
  rewrite !andb_assoc. rewrite andb_true_r. exact Hf.
Qed.

Lemma bytes_count_overflow_witness :
  dunder_bytes []
    (mk [] (repeat (EntranceAndOrExit.mk 0 0 0 0 0 0 0 0 "")
              (Z.to_nat 65536)) 0 0 0 0 [[1]]) []
  = (Raise StructError, []).
Proof.
  apply (bytes_count_overflow _ [] [1] []).
  - reflexivity.
  - repeat constructor.
  - vm_compute. reflexivity.
Defined.

Lemma to_dict_lists_parse :
  forall (L : t),
    mapM EblbObject.of_kwargs (map EblbObject._asdict (objects L))
    = Ok (objects L)
    /\ mapM EntranceAndOrExit.of_kwargs
         (map EntranceAndOrExit._asdict (doors L)) = Ok (doors L).
Proof.
  intros L. split.
  - apply mapM_map_inverse, object_of_kwargs_asdict.
  - apply mapM_map_inverse, door_of_kwargs_asdict.
Qed.

(** X19. [from_dict] on a description that lacks one of the seven keys
    raises [KeyError] when the key is 'objects' or 'doors', which it
    indexes itself, and [TypeError] for any other, which only the
    constructor misses; a description with a key that is no field raises
    [TypeError]. *)
Theorem from_dict_key_errors :
  forall (L : t),
    (forall k, In k field_names ->
       from_dict (without_key k (to_dict L))
       = Raise (if String.eqb k "objects" || String.eqb k "doors"
                then KeyError else TypeError))
    /\ (forall k v, ~ In k field_names ->
          from_dict (to_dict L ++ [(k, v)]) = Raise TypeError).
Proof.
  intros L. destruct (to_dict_lists_parse L) as [Ho Hd]. split.
  - intros k Hin. unfold field_names in Hin. cbn [In] in Hin.
    unfold from_dict, to_dict, asdict, without_key.
    decompose [or] Hin; try contradiction; subst k;
      cbn -[mapM map EblbObject.of_kwargs EblbObject._asdict
            EntranceAndOrExit.of_kwargs EntranceAndOrExit._asdict];
      try reflexivity;
      rewrite ?Ho; cbn [obind]; try reflexivity;
      rewrite ?Hd; reflexivity.
  - intros k v Hk.
    assert (Hne : forall f, In f field_names -> String.eqb f k = false).
    { intros f Hf. apply String.eqb_neq. intros ->. contradiction. }
    assert (Hex : existsb (String.eqb k) field_names = false).
    { destruct (existsb (String.eqb k) field_names) eqn:E; [|reflexivity].
      apply existsb_eqb_In in E. contradiction. }
    unfold from_dict, to_dict, asdict.
    cbn -[mapM map EblbObject.of_kwargs EblbObject._asdict
          EntranceAndOrExit.of_kwargs EntranceAndOrExit._asdict
          has_exact_keys].
    rewrite Ho. cbn [obind]. rewrite Hd. cbn [obind].
    unfold has_exact_keys. cbn [map fst app forallb].
    rewrite Hex, !andb_false_r. reflexivity.
Qed.

Lemma from_dict_key_errors_witness :
  from_dict (without_key "doors" (to_dict sample_level)) = Raise KeyError
  /\ from_dict (without_key "tiles" (to_dict sample_level)) = Raise TypeError
  /\ from_dict (to_dict sample_level ++ [("name"%string, PStr "x")])
     = Raise TypeError.
Proof.
  split; [|split].
  - apply (proj1 (from_dict_key_errors sample_level) "doors"%string).
    cbn. tauto.
  - apply (proj1 (from_dict_key_errors sample_level) "tiles"%string).
    cbn. tauto.
  - apply (proj2 (from_dict_key_errors sample_level)).
    cbn. intros H. decompose [or] H; discriminate || contradiction.
Defined.

(** X20. Giving an image size to [camera_bbox] flips the ordinates of the
    box it returns without one, whatever the level; for a door's [bbox] the
    same holds only when [y1] and [y2] are equal, as the box without an image
    size never reads [y1]. *)
Theorem bbox_flip_consistency :
  forall (sz : Z * Z),
    (forall L : t,
       camera_bbox L (Some sz) = flip_box (snd sz) (camera_bbox L None))
    /\ (forall d : EntranceAndOrExit.t,
          EntranceAndOrExit.bbox d (Some sz)
          = flip_box (snd sz) (EntranceAndOrExit.bbox d None)
          <-> EntranceAndOrExit.y1 d = EntranceAndOrExit.y2 d)
    /\ (forall d y,
          EntranceAndOrExit.bbox
            (EntranceAndOrExit.mk (EntranceAndOrExit.x1 d) y
               (EntranceAndOrExit.x2 d) (EntranceAndOrExit.y2 d)
               (EntranceAndOrExit.entrance_id d)
               (EntranceAndOrExit.exit_type_id d)
               (EntranceAndOrExit.exit_location_id d)
               (EntranceAndOrExit.entrance_type_id d)
               (EntranceAndOrExit.exit_scene_name d)) None
          = EntranceAndOrExit.bbox d None).
Proof.
  intros sz. split; [|split].
  - intros L. reflexivity.
  - intros d. unfold EntranceAndOrExit.bbox, flip_box. cbn [fst snd].
    split.
    + intros H. apply pair_equal_spec in H as [H _].
      apply pair_equal_spec in H as [_ H]. lia.
    + intros ->. reflexivity.
  - intros d y. reflexivity.
Qed.

Lemma bbox_flip_consistency_witness :
  EntranceAndOrExit.bbox
    (EntranceAndOrExit.mk 10 20 30 20 0 0 0 0 "") (Some (640, 100))
  = flip_box 100
      (EntranceAndOrExit.bbox
         (EntranceAndOrExit.mk 10 20 30 20 0 0 0 0 "") None).
Proof.
  apply (proj2 (proj1 (proj2 (bbox_flip_consistency (640, 100)))
                  (EntranceAndOrExit.mk 10 20 30 20 0 0 0 0 ""))).
  reflexivity.
Defined.

(** ** The round trip of a level without objects *)

Lemma check_eblb_keeps_state :
  forall (S : Type) (L : t) (s : S), snd (check_eblb L s) = s.
Proof.
  intros S L s. destruct (tiles L) as [|r rows] eqn:E.
  - unfold check_eblb. rewrite E. reflexivity.
  - rewrite (check_eblb_unfold S L r rows E), forM_check_decides.
    reflexivity.
Qed.

Lemma check_eblb_Ok_rows :
  forall (S : Type) (L : t) (s : S) (r : list Z) (rows : list (list Z)),
    tiles L = r :: rows ->
    fst (check_eblb L s) = Ok tt ->
    Forall (fun row => length row = length r) (r :: rows).
Proof.
  intros S L s r rows E H.
  rewrite (check_eblb_unfold S L r rows E), forM_check_decides in H.
  cbn [fst] in H.
  destruct (forallb _ (r :: rows)) eqn:Hf; [|discriminate].
  apply Forall_forall. intros row Hin. rewrite forallb_forall in Hf.
  apply Nat.eqb_eq, Hf, Hin.
Qed.

Lemma mapM_length :
  forall (A B : Type) (f : A -> outcome B) (l : list A) (l' : list B),
    mapM f l = Ok l' -> length l' = length l.
Proof.
  intros A B f. induction l as [|a l IH]; intros l' H.
  - cbn in H. apply Ok_inj in H. subst l'. reflexivity.
  - cbn [mapM] in H. destruct (f a) as [b| |]; try discriminate.
    destruct (mapM f l) as [bs| |]; try discriminate.
    cbn [obind] in H. apply Ok_inj in H. subst l'.
    cbn [length]. rewrite (IH bs eq_refl). reflexivity.
Qed.

Lemma padding_of_magic_name :
  get_padding ["UNDERWORLD_TYPES_TYP"%string]
  = Ok [Byte.x00; Byte.x00; Byte.x00].
Proof. reflexivity. Qed.

(** What [__bytes__] writes for a level without objects and doors: after
    the magic string a terminator and three bytes of padding. *)
Lemma encode_without_objects :
  forall (cx1 cy1 cx2 cy2 : Z) (tls : list (list Z)) (b : bytes),
    encode [] (mk [] [] cx1 cy1 cx2 cy2 tls) = Ok b ->
    exists (hdr cam tb : bytes) (row0 : list Z),
      struct_pack header_fmt
        [0; 1; 0; 0; Z.of_nat (length row0); Z.of_nat (length tls)] = Ok hdr
      /\ length cam = 20%nat
      /\ length tb = (length tls * length row0)%nat
      /\ b = (hdr ++ UNDERWORLD_TYPES_TYP)
               ++ [Byte.x00; Byte.x00; Byte.x00; Byte.x00] ++ cam ++ tb.
Proof.
  intros cx1 cy1 cx2 cy2 tls b H.
  destruct tls as [|row0 rows]; [discriminate H|].
  unfold encode, dunder_bytes in H.
  cbn [objects doors camera_x1 camera_y1 camera_x2 camera_y2 tiles] in H.
  unfold bind at 1 in H.
  match type of H with
  | context [@check_eblb ?S ?L ?s0] =>
      pose proof (check_eblb_keeps_state S L s0) as Hs;
      pose proof (check_eblb_Ok_rows S L s0 row0 rows eq_refl) as Hrows;
      destruct (@check_eblb S L s0) as [o s]
  end.
  cbn [fst snd] in Hs, Hrows. subst s.
  destruct o as [[]| |]; try discriminate H.
  specialize (Hrows eq_refl).
  cbv zeta in H. unfold bind at 1 in H.
  unfold bind at 1 in H. unfold lift at 1 in H.
  change (getitem (row0 :: rows) 0) with (Ok row0) in H.
  unfold bind at 1 in H. unfold lift at 1 in H.
  change (length (@nil EblbObject.t)) with O in H.
  change (length (@nil EntranceAndOrExit.t)) with O in H.
  change (length (@nil string)) with O in H.
  change (Z.of_nat 0) with 0 in H.
  destruct (struct_pack header_fmt _) as [hdr| |] eqn:Eh; try discriminate.
  rewrite bind_write in H.
  change (mapM encode_ascii []) with (@Ok (list bytes) []) in H.
  rewrite (bind_lift _ _ _ _ _ _ _ eq_refl) in H.
  rewrite (bind_lift _ _ _ _ _ _ _ magic_name_value) in H.
  rewrite (bind_lift _ _ _ _ _ _ _ padding_of_magic_name) in H.
  rewrite bind_write in H.
  cbn [forM_] in H. unfold bind at 1 in H. unfold ret at 1 in H.
  unfold bind at 1 in H. unfold lift at 1 in H.
  destruct (struct_pack camera_fmt _) as [cam| |] eqn:Ec; try discriminate.
  rewrite bind_write in H.
  unfold bind at 1 in H. unfold ret at 1 in H.
  unfold bind at 1 in H. unfold lift at 1 in H.
  destruct (bytes_of_ints _) as [tb| |] eqn:Et; try discriminate.
  rewrite bind_write in H. cbn [fst] in H. apply Ok_inj in H.
  exists hdr, cam, tb, row0.
  split; [exact Eh|]. split; [apply (struct_pack_length _ _ _ Ec)|].
  split.
  - unfold bytes_of_ints in Et. rewrite (mapM_length _ _ _ _ _ Et).
    apply length_concat_rows. exact Hrows.
  - subst b. cbn [join app]. repeat rewrite <- app_assoc. reflexivity.
Qed.

Lemma read_camera_outcome :
  forall f : BytesIO,
    (20 <= length (remaining f))%nat ->
    fst (read_camera f) = Raise ShantaeCurseEblbParsingError
    \/ exists c, read_camera f
                 = (Ok c, mkBytesIO (getvalue f) (tell f + 20)).
Proof.
  intros f H. unfold read_camera, bind, read, lift, struct_unpack.
  change (calcsize camera_fmt) with 20%nat.
  assert (Hl : length (firstn 20 (remaining f)) = 20%nat)
    by (rewrite length_firstn; lia).
  rewrite Hl. cbn [Nat.eqb camera_fmt unpack_fields].
  destruct (negb _); [left; reflexivity|]. right. eexists. reflexivity.
Qed.

Lemma read_type_table_none :
  forall f : BytesIO,
    read_type_table 0 f = (Ok [], mkBytesIO (getvalue f) (tell f + 3)).
Proof. intros f. reflexivity. Qed.

(** C1. A level without objects and doors does not survive the round trip:
    whatever [__bytes__] writes for it (the empty set of type names is
    listed as no name), [from_eblb_file] raises one of its parsing errors on
    those bytes.  After the magic string [__bytes__] writes a terminator for
    its empty table and the three bytes of padding, four bytes, of which
    [from_eblb_file] skips the three of the padding: it reads the camera
    block from one byte too early and finds one byte too many for the
    tiles. *)
Theorem roundtrip_lost_without_objects :
  forall (cx1 cy1 cx2 cy2 : Z) (tls : list (list Z)) (order : list string)
         (b : bytes),
    let L := mk [] [] cx1 cy1 cx2 cy2 tls in
    is_set_listing (map EblbObject.underworld_type (objects L)) order
    = true ->
    encode order L = Ok b ->
    exists e, decode b = Raise e
              /\ is_parsing_error e = true
              /\ decode b <> Ok L.
Proof.
  intros cx1 cy1 cx2 cy2 tls order b L Hset Henc. subst L.
  cbn [objects map] in Hset. apply is_set_listing_nil in Hset. subst order.
  apply encode_without_objects in Henc
    as (hdr & cam & tb & row0 & Hh & Hc & Ht & ->).
  assert (Hex : exists e, decode
                 ((hdr ++ UNDERWORLD_TYPES_TYP)
                    ++ [Byte.x00; Byte.x00; Byte.x00; Byte.x00] ++ cam ++ tb)
                 = Raise e /\ is_parsing_error e = true).
  2:{ destruct Hex as (e & He & Hp). exists e.
      split; [exact He|]. split; [exact Hp|]. rewrite He. discriminate. }
  unfold decode, from_eblb_file.
  destruct (read_header_packed
              (mkBytesIO ((hdr ++ UNDERWORLD_TYPES_TYP)
                            ++ [Byte.x00; Byte.x00; Byte.x00; Byte.x00]
                            ++ cam ++ tb) 0)
              hdr _ _ _ _ _ _ Hh eq_refl) as (f1 & E1 & G1 & R1).
  rewrite (bind_Ok _ _ _ _ _ _ _ _ E1).
  cbn [underworld_types_count objects_count doors_count tiles_x tiles_y].
  rewrite (bind_Ok _ _ _ _ _ _ _ _ (read_type_table_none f1)).
  rewrite (bind_Ok _ _ _ _ _ _ _ [] (eq_refl : read_objects 0 [] _ = _)).
  set (f2 := mkBytesIO (getvalue f1) (tell f1 + 3)).
  assert (R2 : remaining f2 = Byte.x00 :: cam ++ tb).
  { unfold remaining, f2. cbn [getvalue tell].
    rewrite Nat.add_comm, <- skipn_skipn.
    unfold remaining in R1. rewrite R1. reflexivity. }
  destruct (read_camera_outcome f2) as [Hcam|[c Hcam]].
  { rewrite R2. cbn [length]. rewrite length_app. lia. }
  { exists ShantaeCurseEblbParsingError. split; [|reflexivity].
    apply fst_bind_Raise. exact Hcam. }
  rewrite (bind_Ok _ _ _ _ _ _ _ _ Hcam).
  rewrite (bind_Ok _ _ _ _ _ _ _ [] (eq_refl : read_doors 0 _ = _)).
  exists ShantaeCurseEblbBadData. split; [|reflexivity].
  apply fst_bind_Raise.
  unfold read_tiles, bind, read_all.
  assert (R3 : length (remaining (mkBytesIO (getvalue f2) (tell f2 + 20)))
               = S (length tb)).
  { unfold remaining. cbn [getvalue tell].
    rewrite Nat.add_comm, <- skipn_skipn.
    unfold remaining in R2. rewrite R2.
    rewrite length_skipn. cbn [length]. rewrite length_app. lia. }
  rewrite R3, Ht.
  destruct (Z.eqb_spec (Z.of_nat (S (length tls * length row0)))
              (Z.of_nat (length row0) * Z.of_nat (length tls))) as [E|E];
    [lia|reflexivity].
Qed.

Lemma roundtrip_lost_without_objects_witness :
  let b := match encode [] synthetic_level with Ok b => b | _ => [] end in
  encode [] synthetic_level = Ok b
  /\ length b = 65%nat
  /\ exists e, decode b = Raise e
               /\ is_parsing_error e = true
               /\ decode b <> Ok synthetic_level.
Proof.
  intros b.
  assert (H : encode [] synthetic_level = Ok b) by (vm_compute; reflexivity).
  split; [exact H|]. split; [vm_compute; reflexivity|].
  apply (roundtrip_lost_without_objects 0 0 10 10 [[1; 2]; [3; 4]] [] b);
    [reflexivity|exact H].
Defined.
